(** * SeismicPloter: the live plotter's ingestion pipeline

    A shallow embedding of [src/seismic_plotter.py] (class [SeismicPlotter]
    and its SeedLink client [SeismicClient]) together with the ObsPy, NumPy
    and SciPy operations the plotter calls, and of the station selector of
    [src/LecturaSeedlink.py] (class [SeedLinkMonitor]) that hands a
    selection over to the plotter.

    Conventions of the embedding.
    - Wall-clock instants ([UTCDateTime]) are whole seconds, a [Z].
    - A trace lives on its own sample grid: [starttime] is the index of its
      first sample counted in sample periods, so that the instant [t] (in
      seconds) is the grid index [t * sampling_rate].  ObsPy's
      [nearest_sample] rounding is the identity on that grid.
    - Sample values range over an arbitrary carrier [R] with the arithmetic
      the numeric libraries use ([Arith]); [Q] is the instance used to run
      the pipeline on concrete inputs.
    - Python dictionaries are [gmap]s, the set comprehension of
      [load_inventories] is a [gset]. *)

From Stdlib Require Import QArith Qabs Lqa.
From stdpp Require Import gmap strings list fin_maps numbers.

Local Open Scope Z_scope.

(** ** Sample arithmetic *)

Class Arith (R : Type) := {
  rzero : R;
  radd : R → R → R;
  rsub : R → R → R;
  rmul : R → R → R;
  rdiv : R → R → R;
  rabs : R → R;
  rmax : R → R → R;
  rofZ : Z → R
}.

Definition Qmax_red (a b : Q) : Q := if Qle_bool a b then b else a.

#[export] Instance Q_Arith : Arith Q := {|
  rzero := 0%Q;
  radd a b := Qred (a + b);
  rsub a b := Qred (a - b);
  rmul a b := Qred (a * b);
  rdiv a b := Qred (a / b);
  rabs a := Qred (Qabs a);
  rmax := Qmax_red;
  rofZ z := inject_Z z
|}.

(** ** Traces and streams (obspy.Trace, obspy.Stream) *)

Record Trace (R : Type) := mkTrace {
  network : string;
  station : string;
  location : string;
  channel : string;
  sampling_rate : positive;
  starttime : Z;
  data : list R
}.

Arguments mkTrace {R}.
Arguments network {R}.
Arguments station {R}.
Arguments location {R}.
Arguments channel {R}.
Arguments sampling_rate {R}.
Arguments starttime {R}.
Arguments data {R}.

Abbreviation Stream R := (list (Trace R)).

Definition npts {R} (tr : Trace R) : Z := Z.of_nat (length (data tr)).

(** [stats.endtime]: derived from [starttime] and [npts]; an empty trace
    ends where it starts. *)
Definition endtime {R} (tr : Trace R) : Z :=
  if npts tr =? 0 then starttime tr else starttime tr + (npts tr - 1).

Definition set_data {R} (tr : Trace R) (d : list R) : Trace R :=
  mkTrace (network tr) (station tr) (location tr) (channel tr)
          (sampling_rate tr) (starttime tr) d.

Definition set_window {R} (tr : Trace R) (s : Z) (d : list R) : Trace R :=
  mkTrace (network tr) (station tr) (location tr) (channel tr)
          (sampling_rate tr) s d.

(** Grid index of the instant [t] (seconds) on the grid of [tr]. *)
Definition grid {R} (tr : Trace R) (t : Z) : Z := t * Z.pos (sampling_rate tr).

(** The sample a trace holds at grid index [i], if any. *)
Definition sample_at {R} (tr : Trace R) (i : Z) : option R :=
  if decide (starttime tr ≤ i) then data tr !! Z.to_nat (i - starttime tr)
  else None.

(** ** Exceptions *)

Inductive Exn :=
  | KeyError (k : string)
  | ValueError
  | MergeError
  | ResponseError
  | ClientError.

Inductive Result (A : Type) :=
  | Ok (a : A)
  | Raise (e : Exn).

Arguments Ok {A}.
Arguments Raise {A}.

#[export] Instance Exn_eq_dec : EqDecision Exn.
Proof. solve_decision. Defined.

Section Trim.
Context {R : Type} {AR : Arith R}.

Definition zeros (n : Z) : list R := replicate (Z.to_nat n) rzero.

(** Trace._ltrim(starttime, pad, nearest_sample=True, fill_value=0).
    On the grid the new start time never lies beyond the end time the
    header derives from it, so the branch of the library that empties the
    trace for that reason is the plain cut from the left. *)
Definition trace_ltrim (t : Z) (pad : bool) (tr : Trace R) : Trace R :=
  let delta := grid tr t - starttime tr in
  let start' := if (0 <? delta) || pad then starttime tr + delta
                else starttime tr in
  if (delta =? 0) || ((delta <? 0) && negb pad) then tr
  else if delta <? 0 then set_window tr start' (zeros (- delta) ++ data tr)
  else set_window tr start' (drop (Z.to_nat delta) (data tr)).

(** Trace._rtrim(endtime, pad, nearest_sample=True, fill_value=0) *)
Definition trace_rtrim (t : Z) (pad : bool) (tr : Trace R) : Trace R :=
  let delta := grid tr t - starttime tr - npts tr + 1 in
  if (delta =? 0) || ((0 <? delta) && negb pad) then tr
  else if 0 <? delta then set_data tr (data tr ++ zeros delta)
  else if grid tr t <? starttime tr then set_window tr (endtime tr + delta) []
  else
    let total := npts tr - Z.abs delta in
    let total := if grid tr t =? starttime tr then 1 else total in
    set_data tr (take (Z.to_nat total) (data tr)).

(** Trace.trim(starttime, endtime, pad, fill_value=0) *)
Definition trace_trim (a b : Z) (pad : bool) (tr : Trace R) : Result (Trace R) :=
  if b <? a then Raise ValueError
  else Ok (trace_rtrim b pad (trace_ltrim a pad tr)).

(** Trace.slice(starttime, endtime): a trimmed shallow copy *)
Definition trace_slice (a b : Z) (tr : Trace R) : Result (Trace R) :=
  trace_trim a b false tr.

Fixpoint trim_all (a b : Z) (pad : bool) (s : Stream R) : Result (Stream R) :=
  match s with
  | [] => Ok []
  | tr :: rest =>
      match trace_trim a b pad tr with
      | Raise e => Raise e
      | Ok tr' =>
          match trim_all a b pad rest with
          | Raise e => Raise e
          | Ok rest' => Ok (tr' :: rest')
          end
      end
  end.

(** Stream.trim(starttime, endtime, pad, fill_value=0): every trace is
    trimmed in turn, then traces left without samples are removed. *)
Definition stream_trim (a b : Z) (pad : bool) (s : Stream R) : Result (Stream R) :=
  match trim_all a b pad s with
  | Raise e => Raise e
  | Ok s' => Ok (filter (λ tr, npts tr ≠ 0) s')
  end.

(** The padded trim of one trace, once the bounds are known to be in
    order. *)
Definition cut (a b : Z) (tr : Trace R) : Trace R :=
  trace_rtrim b true (trace_ltrim a true tr).

(** What the buffer holds once the call has returned or raised: an
    exception leaves it as it was. *)
Definition buffer_after (r : Result (Stream R)) (s : Stream R) : Stream R :=
  match r with
  | Ok s' => s'
  | Raise _ => s
  end.

(** The rolling-window trim of [on_data]:
    [trim(t_now - window_seconds, t_now, pad=True, fill_value=0)] *)
Definition trim (now W : Z) (s : Stream R) : Result (Stream R) :=
  stream_trim (now - W) now true s.

End Trim.

(** ** Merging (Stream.merge, Trace.__add__) *)

Section Merge.
Context {R : Type} {AR : Arith R}.

(** np.linspace(a, b, n + 2)[1:-1]: the [n] interior points of the
    segment from [a] to [b]. *)
Definition linspace_interior (a b : R) (n : Z) : list R :=
  let step := rdiv (rsub b a) (rofZ (n + 1)) in
  map (λ k : nat, radd (rmul (rofZ (Z.of_nat k)) step) a) (seq 1 (Z.to_nat n)).

Definition first_sample (tr : Trace R) : R := default rzero (head (data tr)).
Definition last_sample (tr : Trace R) : R := default rzero (list.last (data tr)).

(** Trace.__add__(trace, method=1, interpolation_samples=0,
    fill_value='interpolate', sanity_checks=False) on two traces that
    both hold samples.  The header of the result is the one of the trace
    that starts first. *)
Definition trace_add (self trace : Trace R) : Trace R :=
  let '(lt, rt) := if starttime self <=? starttime trace
                   then (self, trace) else (trace, self) in
  let delta := starttime rt - endtime lt - 1 in
  let delta_endtime := endtime lt - endtime rt in
  if (delta <? 0) && (delta_endtime <? 0) then
    (* overlap: the data of the following trace is used *)
    set_data lt (take (Z.to_nat (npts lt - Z.abs delta)) (data lt) ++ data rt)
  else if delta <? 0 then
    (* contained trace: discarded *)
    set_data lt (data lt)
  else if delta =? 0 then
    (* exact fit *)
    set_data lt (data lt ++ data rt)
  else
    (* gap: interpolated between the two samples that bound it *)
    set_data lt (data lt
                 ++ linspace_interior (last_sample lt) (first_sample rt) delta
                 ++ data rt).

(** Stream._merge_checks: traces that hold samples must agree on the
    sampling rate (the one header field of the embedding the checks
    compare). *)
Fixpoint merge_checks (sr : option positive) (s : Stream R) : Result unit :=
  match s with
  | [] => Ok ()
  | tr :: rest =>
      if npts tr =? 0 then merge_checks sr rest
      else match sr with
           | None => merge_checks (Some (sampling_rate tr)) rest
           | Some r =>
               if decide (sampling_rate tr = r) then merge_checks sr rest
               else Raise MergeError
           end
  end.

(** Order of Stream.sort(keys=[..., 'starttime', 'endtime']) *)
Definition trace_leb (a b : Trace R) : bool :=
  (starttime a <? starttime b)
  || ((starttime a =? starttime b) && (endtime a <=? endtime b)).

Fixpoint insert_trace (tr : Trace R) (s : Stream R) : Stream R :=
  match s with
  | [] => [tr]
  | x :: rest => if trace_leb tr x then tr :: s else x :: insert_trace tr rest
  end.

Definition sort_traces (s : Stream R) : Stream R := foldr insert_trace [] s.

(** Stream.merge(method=1, fill_value='interpolate') for a buffer whose
    traces all carry the buffer's own id: after the checks the traces are
    sorted, empty ones are skipped and the rest is folded with
    [trace_add].  The clean-up pass that the library runs first joins
    traces of one sampling rate that fit together, which the fold does as
    well; what that pass leaves in the stream when traces of different
    rates make the merge raise is [merge_leftover] below. *)
Definition stream_merge (s : Stream R) : Result (Stream R) :=
  match merge_checks None s with
  | Raise e => Raise e
  | Ok _ =>
      match filter (λ tr, npts tr ≠ 0) (sort_traces s) with
      | [] => Ok []
      | cur :: rest => Ok [foldl trace_add cur rest]
      end
  end.

(** Whether the merged buffer holds the very trace object that was just
    appended: the merge builds a new trace as soon as two traces are
    added, and hands back the single trace otherwise. *)
Definition same_object (old : Stream R) (trace : Trace R) : bool :=
  bool_decide (filter (λ tr, npts tr ≠ 0) old = []) && negb (npts trace =? 0).

End Merge.

(** ** Peak metrics (numpy, scipy.integrate, Trace.integrate,
       Trace.differentiate) *)

Section Numeric.
Context {R : Type} {AR : Arith R}.

(** np.abs(x).max(); the maximum of an empty array raises. *)
Definition abs_max (x : list R) : Result R :=
  match x with
  | [] => Raise ValueError
  | a :: rest => Ok (foldl (λ m v, rmax m (rabs v)) (rabs a) rest)
  end.

(** stats.delta: the sample spacing in seconds *)
Definition stats_delta (tr : Trace R) : R :=
  rdiv (rofZ 1) (rofZ (Z.pos (sampling_rate tr))).

(** d * (y[1:] + y[:-1]) / 2.0 *)
Fixpoint trapezoids (dx : R) (y : list R) : list R :=
  match y with
  | a :: (b :: _) as rest =>
      rdiv (rmul dx (radd b a)) (rofZ 2) :: trapezoids dx rest
  | _ => []
  end.

Fixpoint cumsum_from (acc : R) (x : list R) : list R :=
  match x with
  | [] => []
  | a :: rest => radd acc a :: cumsum_from (radd acc a) rest
  end.

(** np.cumsum *)
Definition cumsum (x : list R) : list R :=
  match x with
  | [] => []
  | a :: rest => a :: cumsum_from a rest
  end.

(** Trace.integrate(): cumulative_trapezoid(data, dx=delta, initial=0) *)
Definition integrate (tr : Trace R) : Trace R :=
  set_data tr (rzero :: cumsum (trapezoids (stats_delta tr) (data tr))).

(** (f[2:] - f[:-2]) / (2.0 * dx) *)
Fixpoint central_differences (dx : R) (f : list R) : list R :=
  match f with
  | a :: (b :: c :: _) as rest =>
      rdiv (rsub c a) (rmul (rofZ 2) dx) :: central_differences dx rest
  | _ => []
  end.

(** (f[-1] - f[-2]) / dx *)
Fixpoint backward_difference (dx : R) (f : list R) : list R :=
  match f with
  | [a; b] => [rdiv (rsub b a) dx]
  | _ :: rest => backward_difference dx rest
  | [] => []
  end.

(** np.gradient(f, dx): one-sided differences at the two ends, central
    differences in between; fewer than two samples raise. *)
Definition np_gradient (f : list R) (dx : R) : Result (list R) :=
  match f with
  | a :: b :: _ =>
      Ok (rdiv (rsub b a) dx :: central_differences dx f
          ++ backward_difference dx f)
  | _ => Raise ValueError
  end.

(** Trace.differentiate(): method='gradient' *)
Definition differentiate (tr : Trace R) : Result (Trace R) :=
  match np_gradient (data tr) (stats_delta tr) with
  | Raise e => Raise e
  | Ok d => Ok (set_data tr d)
  end.

(** x * 1e6 *)
Definition micro (x : R) : R := rmul x (rofZ 1000000).

End Numeric.

(** ** The plotter object *)

(** A selected stream: (network, station, location, channel) *)
Definition StationTuple : Type := string * string * string * string.

Definition sta_of (st : StationTuple) : string := st.1.1.2.

(** f"{net}.{sta}.{loc}.{cha}" *)
Definition stream_key (net sta loc cha : string) : string :=
  net +:+ "." +:+ sta +:+ "." +:+ loc +:+ "." +:+ cha.

Definition key_of (st : StationTuple) : string :=
  let '(net, sta, loc, cha) := st in stream_key net sta loc cha.

Definition trace_key {R} (tr : Trace R) : string :=
  stream_key (network tr) (station tr) (location tr) (channel tr).

(** One entry of [current_values] *)
Record Metrics (R : Type) := mkMetrics {
  vel : R;
  desp : R;
  acel : R;
  last_update : option Z
}.

Arguments mkMetrics {R}.
Arguments vel {R}.
Arguments desp {R}.
Arguments acel {R}.
Arguments last_update {R}.

(** The data attributes of a [SeismicPlotter]; the figure, the widgets
    and the client thread are not part of the embedding. *)
Record Plotter (R Inv : Type) := mkPlotter {
  stations : list StationTuple;
  stationxml_paths : gmap string string;
  seedlink_host : string;
  window_seconds : Z;
  refresh_rate_ms : Z;
  data_timeout : Z;
  streams : gmap string (Stream R);
  last_data_times : gmap string (option Z);
  connection_status : gmap string bool;
  current_values : gmap string (Metrics R);
  inventories : gmap string Inv
}.

Arguments mkPlotter {R Inv}.
Arguments stations {R Inv}.
Arguments stationxml_paths {R Inv}.
Arguments seedlink_host {R Inv}.
Arguments window_seconds {R Inv}.
Arguments refresh_rate_ms {R Inv}.
Arguments data_timeout {R Inv}.
Arguments streams {R Inv}.
Arguments last_data_times {R Inv}.
Arguments connection_status {R Inv}.
Arguments current_values {R Inv}.
Arguments inventories {R Inv}.

(** What the object and the SeedLink client print *)
Inductive Message :=
  | ErrorProcesandoDatos (sta : string) (e : Exn)
  | ErrorCargandoStationXML (sta : string) (e : Exn)
  | StationXMLNoEncontrado (sta : string) (path : option string)
  | ErrorNoHayEstaciones
  | NoHayEstacionesSeleccionadas.

(** The stages of the ingestion callback *)
Inductive Stage :=
  | Touch
  | Detrend
  | Append
  | Merge
  | Trim
  | RemoveResponse
  | MetricUpdate.

Inductive Event :=
  | Did (s : Stage)
  | Printed (m : Message).

#[export] Instance Stage_eq_dec : EqDecision Stage.
Proof. solve_decision. Defined.

#[export] Instance Message_eq_dec : EqDecision Message.
Proof. solve_decision. Defined.

#[export] Instance Event_eq_dec : EqDecision Event.
Proof. solve_decision. Defined.

(** The stages among the events of a run, in the order they were entered *)
Definition stages_of (l : list Event) : list Stage :=
  omap (λ ev, match ev with Did s => Some s | Printed _ => None end) l.

Definition printed_of (l : list Event) : list Message :=
  omap (λ ev, match ev with Printed m => Some m | Did _ => None end) l.

(** ** Statements with state, exceptions and output *)

Definition Exec (St A : Type) : Type := St → Result A * St * list Event.

#[export] Instance Exec_ret {St} : MRet (Exec St) :=
  λ A a s, (Ok a, s, []).

#[export] Instance Exec_bind {St} : MBind (Exec St) :=
  λ A B f m s,
    match m s with
    | (Ok a, s', l) => let '(r, s'', l') := f a s' in (r, s'', l ++ l')
    | (Raise e, s', l) => (Raise e, s', l)
    end.

Definition get {St} : Exec St St := λ s, (Ok s, s, []).
Definition gets {St A} (f : St → A) : Exec St A := λ s, (Ok (f s), s, []).
Definition modify {St} (f : St → St) : Exec St () := λ s, (Ok (), f s, []).
Definition raise {St A} (e : Exn) : Exec St A := λ s, (Raise e, s, []).
Definition emit {St} (ev : Event) : Exec St () := λ s, (Ok (), s, [ev]).

Definition lift {St A} (r : Result A) : Exec St A :=
  match r with
  | Ok a => mret a
  | Raise e => raise e
  end.

(** try: body / except Exception as e: handler(e) *)
Definition try_except {St A} (body : Exec St A) (handler : Exn → Exec St A)
  : Exec St A :=
  λ s, match body s with
       | (Raise e, s', l) => let '(r, s'', l') := handler e s' in (r, s'', l ++ l')
       | done => done
       end.

(** d[k] for a plain dictionary *)
Definition getitem {St V} (d : St → gmap string V) (k : string) : Exec St V :=
  λ s, match d s !! k with
       | Some v => (Ok v, s, [])
       | None => (Raise (KeyError k), s, [])
       end.

Definition final_state {St A} (r : Result A * St * list Event) : St := r.1.2.
Definition result_of {St A} (r : Result A * St * list Event) : Result A := r.1.1.
Definition events_of {St A} (r : Result A * St * list Event) : list Event := r.2.

(** [post m s Q]: running [m] from [s] ends in a result, a state and an
    output that satisfy [Q]. *)
Definition post {St A} (m : Exec St A) (s : St)
    (Q : Result A → St → list Event → Prop) : Prop :=
  Q (result_of (m s)) (final_state (m s)) (events_of (m s)).

(** ** What ObsPy and the file system provide *)

Class Env (R Inv : Type) := {
  (** scipy.signal.detrend(data, type='linear') *)
  detrend_linear : list R → list R;
  (** scipy.signal.detrend(data, type='constant') *)
  detrend_demean : list R → list R;
  (** the samples Trace.remove_response(inventory, output="VEL") leaves
      in the trace *)
  remove_response : Inv → Trace R → Result (list R);
  (** the traces a Stream.merge that raises leaves in the stream: its
      clean-up pass (Stream._cleanup) throws the empty traces away, takes
      the others out and puts back those it has dealt with, joined where
      they fit together, until the exception arises *)
  merge_leftover : Stream R → Stream R;
  (** os.path.exists *)
  path_exists : string → bool;
  (** obspy.read_inventory *)
  read_inventory : string → Result Inv;
  (** SeismicClient(host, plotter): EasySeedLinkClient.__init__ connects
      to the server *)
  client_connect : string → Result ();
  (** client.select_stream(net, sta, cha) on the client of that server *)
  client_select_stream : string → string → string → string → Result ()
}.

Section Plotter.
Context {R Inv : Type} {AR : Arith R} {EV : Env R Inv}.

Local Abbreviation PlotterT := (Plotter R Inv).

(** *** Attribute assignment *)

Definition with_streams (f : gmap string (Stream R) → gmap string (Stream R))
    (p : PlotterT) : PlotterT :=
  mkPlotter (stations p) (stationxml_paths p) (seedlink_host p)
    (window_seconds p) (refresh_rate_ms p) (data_timeout p)
    (f (streams p)) (last_data_times p) (connection_status p)
    (current_values p) (inventories p).

Definition with_last_data_times
    (f : gmap string (option Z) → gmap string (option Z))
    (p : PlotterT) : PlotterT :=
  mkPlotter (stations p) (stationxml_paths p) (seedlink_host p)
    (window_seconds p) (refresh_rate_ms p) (data_timeout p)
    (streams p) (f (last_data_times p)) (connection_status p)
    (current_values p) (inventories p).

Definition with_connection_status (f : gmap string bool → gmap string bool)
    (p : PlotterT) : PlotterT :=
  mkPlotter (stations p) (stationxml_paths p) (seedlink_host p)
    (window_seconds p) (refresh_rate_ms p) (data_timeout p)
    (streams p) (last_data_times p) (f (connection_status p))
    (current_values p) (inventories p).

Definition with_current_values
    (f : gmap string (Metrics R) → gmap string (Metrics R))
    (p : PlotterT) : PlotterT :=
  mkPlotter (stations p) (stationxml_paths p) (seedlink_host p)
    (window_seconds p) (refresh_rate_ms p) (data_timeout p)
    (streams p) (last_data_times p) (connection_status p)
    (f (current_values p)) (inventories p).

Definition with_inventories (inv : gmap string Inv) (p : PlotterT) : PlotterT :=
  mkPlotter (stations p) (stationxml_paths p) (seedlink_host p)
    (window_seconds p) (refresh_rate_ms p) (data_timeout p)
    (streams p) (last_data_times p) (connection_status p)
    (current_values p) inv.

(** The factory of the [defaultdict]: {'vel': 0, 'desp': 0, 'acel': 0,
    'last_update': None} *)
Definition default_values : Metrics R := mkMetrics rzero rzero rzero None.

(** current_values[sta], read: a missing entry is created on the way *)
Definition values_of (p : PlotterT) (sta : string) : Metrics R :=
  default default_values (current_values p !! sta).

Definition create_values (sta : string) (p : PlotterT) : PlotterT :=
  with_current_values (λ cv, <[sta := default default_values (cv !! sta)]> cv) p.

(** current_values[sta][field] = x *)
Definition set_value (sta : string) (f : Metrics R → Metrics R) (p : PlotterT)
  : PlotterT :=
  with_current_values (λ cv, <[sta := f (default default_values (cv !! sta))]> cv) p.

Definition set_vel (x : R) (m : Metrics R) : Metrics R :=
  mkMetrics x (desp m) (acel m) (last_update m).
Definition set_desp (x : R) (m : Metrics R) : Metrics R :=
  mkMetrics (vel m) x (acel m) (last_update m).
Definition set_acel (x : R) (m : Metrics R) : Metrics R :=
  mkMetrics (vel m) (desp m) x (last_update m).
Definition set_last_update (t : Z) (m : Metrics R) : Metrics R :=
  mkMetrics (vel m) (desp m) (acel m) (Some t).

(** *** SeismicClient.on_data *)

Definition set_stream (key : string) (buffer : Stream R) : PlotterT → PlotterT :=
  with_streams (λ d, <[key := buffer]> d).

(** The trace and the buffer are one object when [shared]: what is done
    to the trace is then done to the buffer. *)
Definition write_through (shared : bool) (key : string) (trace : Trace R)
  : Exec PlotterT () :=
  if shared then modify (set_stream key [trace]) else mret ().

Definition on_data (trace : Trace R) (t_touch t_now : Z) : Exec PlotterT () :=
  let key := trace_key trace in
  let station := station trace in
  p ← get;
  if bool_decide (is_Some (streams p !! key)) then
    try_except
      (emit (Did Touch);;
       modify (with_last_data_times (λ d, <[station := Some t_touch]> d));;
       modify (with_connection_status (λ d, <[station := true]> d));;
       (* Preprocesamiento básico *)
       emit (Did Detrend);;
       let trace := set_data trace (detrend_linear (data trace)) in
       let trace := set_data trace (detrend_demean (data trace)) in
       (* Almacenar y mergear stream *)
       emit (Did Append);;
       buffer ← getitem (St:=PlotterT) streams key;
       modify (set_stream key (buffer ++ [trace]));;
       emit (Did Merge);;
       merged ← try_except (lift (stream_merge (buffer ++ [trace])))
                  (λ e, (* what the merge leaves holds no empty trace *)
                        modify (set_stream key
                                  (filter (λ tr, npts tr ≠ 0)
                                          (merge_leftover (buffer ++ [trace]))));;
                        raise e);
       modify (set_stream key merged);;
       let shared := same_object buffer trace in
       (* Mantener ventana de tiempo *)
       emit (Did Trim);;
       W ← gets window_seconds;
       trimmed ← lift (stream_trim (t_now - W) t_now true merged);
       modify (set_stream key trimmed);;
       let trace := if shared
                    then match trace_trim (t_now - W) t_now true trace with
                         | Ok tr => tr
                         | Raise _ => trace
                         end
                    else trace in
       let shared := shared && negb (npts trace =? 0) in
       (* Remover respuesta *)
       emit (Did RemoveResponse);;
       inventory ← getitem (St:=PlotterT) inventories station;
       corrected ← lift (remove_response inventory trace);
       let trace := set_data trace corrected in
       write_through shared key trace;;
       (* Mantener ventana de tiempo *)
       emit (Did MetricUpdate);;
       señal ← lift (trace_trim (t_now - W) t_now true trace);
       write_through shared key señal;;
       recorte ← lift (trace_slice (t_now - 10) t_now señal);
       if 0 <? npts recorte then
         (* Calcular valores *)
         let vel_trace := recorte in
         v ← lift (abs_max (data vel_trace));
         modify (set_value station (set_vel (micro v)));;
         let desp_trace := integrate vel_trace in
         d ← lift (abs_max (data desp_trace));
         modify (set_value station (set_desp (micro d)));;
         acel_trace ← lift (differentiate vel_trace);
         a ← lift (abs_max (data acel_trace));
         modify (set_value station (set_acel (micro a)));;
         modify (set_value station (set_last_update t_now))
       else mret ())
      (λ e, emit (Printed (ErrorProcesandoDatos station e)))
  else mret ().

(** *** SeismicPlotter.update_plot *)

(** The text of an information panel.  The conditional expression of the
    source splits the adjacent string literals in two groups; which one is
    shown depends on whether the buffer holds a trace. *)
Inductive PanelText :=
  | TextDatos (sta cha : string) (v d a : R) (muestras : Z)
  | TextEstado (conectado : bool) (ult_dato : option Z).

Record Panel := mkPanel {
  indicator_green : bool;
  waveform : option (list R);
  panel_text : PanelText
}.

Definition update_station (current_time : Z) (st : StationTuple)
  : Exec PlotterT Panel :=
  let '(net, sta, loc, cha) := st in
  let key := stream_key net sta loc cha in
  (* Verificar estado de conexión *)
  last ← getitem (St:=PlotterT) last_data_times sta;
  timeout ← gets data_timeout;
  match (last : option Z) with
  | Some t =>
      if timeout <? current_time - t
      then modify (with_connection_status (λ d, <[sta := false]> d))
      else mret ()
  | None => mret ()
  end;;
  (* Actualizar indicador de estado *)
  status ← getitem (St:=PlotterT) connection_status sta;
  (* Actualizar waveform *)
  buffer ← getitem (St:=PlotterT) streams key;
  let line := match (buffer : Stream R) with
              | tr :: _ => if (status : bool) then Some (data tr) else None
              | [] => None
              end in
  (* Actualizar panel de información *)
  modify (create_values sta);;
  p ← get;
  let text := match (buffer : Stream R) with
              | tr :: _ =>
                  TextDatos sta cha (vel (values_of p sta))
                    (desp (values_of p sta)) (acel (values_of p sta)) (npts tr)
              | [] => TextEstado status (last_update (values_of p sta))
              end in
  mret (mkPanel status line text).

Fixpoint for_each {A B} (f : A → Exec PlotterT B) (l : list A)
  : Exec PlotterT (list B) :=
  match l with
  | [] => mret []
  | x :: rest => y ← f x; ys ← for_each f rest; mret (y :: ys)
  end.

Definition update_plot (current_time : Z) : Exec PlotterT (list Panel) :=
  p ← get;
  for_each (update_station current_time) (stations p).

(** *** SeismicPlotter.__init__, load_inventories, start *)

(** The table assigned to [self.stationxml_paths] *)
Definition inventory_table : gmap string string :=
  list_to_map
    [("UIS09", "/net/sw/source/inventories/UIS09.xml");
     ("UIS05", "/net/sw/source/inventories/UIS05.xml");
     ("UIS03", "/net/sw/source/inventories/UIS03.xml");
     ("UIS01", "/net/sw/source/inventories/UIS01.xml");
     ("R8256", "/net/sw/source/inventories/R8256.xml")].

(** One turn of the loop of [load_inventories] *)
Definition load_station (paths : gmap string string) (sta : string)
    (acc : gmap string Inv * list Message) : gmap string Inv * list Message :=
  let path := paths !! sta in
  match path with
  | Some file =>
      if negb (bool_decide (file = String.EmptyString)) && path_exists file then
        match read_inventory file with
        | Ok inv => (<[sta := inv]> acc.1, acc.2)
        | Raise e => (acc.1, acc.2 ++ [ErrorCargandoStationXML sta e])
        end
      else (acc.1, acc.2 ++ [StationXMLNoEncontrado sta path])
  | None => (acc.1, acc.2 ++ [StationXMLNoEncontrado sta path])
  end.

(** The loop runs over the set {s[1] for s in self.stations}; the
    messages come in the iteration order of that set. *)
Definition load_inventories (self : PlotterT) : gmap string Inv * list Message :=
  set_fold (load_station (stationxml_paths self)) (∅, [])
           (list_to_set (sta_of <$> stations self) : gset string).

Definition init (stations : list StationTuple)
    (stationxml_paths : gmap string string) (seedlink_host : string)
    (window_seconds refresh_rate_ms data_timeout : Z)
  : PlotterT * list Message :=
  let self :=
    mkPlotter stations inventory_table seedlink_host window_seconds
      refresh_rate_ms data_timeout
      (list_to_map ((λ st, (key_of st, [])) <$> stations))
      (list_to_map ((λ st, (sta_of st, None)) <$> stations))
      (list_to_map ((λ st, (sta_of st, false)) <$> stations))
      ∅ ∅ in
  let loaded := load_inventories self in
  (with_inventories loaded.1 self, loaded.2).

(** What [start] leaves behind: nothing; an exception of the SeedLink
    client, which [start] does not catch; or a client subscribed to the
    selected streams and running in its thread.  The figure, the thread and
    the animation are taken to be set up without error. *)
Inductive Session :=
  | NotStarted (out : list Message)
  | Failed (e : Exn)
  | Running (selected : list (string * string * string)).

(** for net, sta, loc, cha in self.stations:
        self.client.select_stream(net, sta, cha) *)
Fixpoint select_streams (host : string) (l : list StationTuple) : Result () :=
  match l with
  | [] => Ok ()
  | (net, sta, loc, cha) :: rest =>
      match client_select_stream host net sta cha with
      | Raise e => Raise e
      | Ok _ => select_streams host rest
      end
  end.

Definition start (self : PlotterT) : Session :=
  match stations self with
  | [] => NotStarted [ErrorNoHayEstaciones]
  | _ =>
      (* Configurar cliente SeedLink *)
      match client_connect (seedlink_host self) with
      | Raise e => Failed e
      | Ok _ =>
          (* Seleccionar streams *)
          match select_streams (seedlink_host self) (stations self) with
          | Raise e => Failed e
          | Ok _ => Running ((λ st : StationTuple,
                                let '(net, sta, loc, cha) := st in (net, sta, cha))
                             <$> stations self)
          end
      end
  end.

(** *** SeedLinkMonitor.send_to_application (LecturaSeedlink.py) *)

(** The rows of the station tree are (network, station, channel); a row
    is selected when [station_vars] holds True for "network.station". *)
Definition selected_stations (rows : list (string * string * string))
    (station_vars : gmap string bool) : list StationTuple :=
  omap (λ row : string * string * string,
          let '(net, sta, cha) := row in
          if default false (station_vars !! (net +:+ "." +:+ sta))
          then Some (net, sta, "00", cha)
          else None)
       rows.

Definition STATIONXML_PATHS : list (string * string) :=
  [("UIS09", "/home/jumavamu/Documentos/PruebasSeiscom/UIS09.xml");
   ("UIS03", "/home/jumavamu/Documentos/PruebasSeiscom/UIS03.xml");
   ("UIS05", "/home/jumavamu/Documentos/PruebasSeiscom/UIS05.xml");
   ("UIS01", "/home/jumavamu/Documentos/PruebasSeiscom/UIS01.xml")].

(** sta[1] *)
Definition second_char (sta : string) : string :=
  match String.get 1 sta with
  | Some c => String c String.EmptyString
  | None => String.EmptyString
  end.

(** {sta[1]: path for sta, path in STATIONXML_PATHS.items()
     if sta in [s[1] for s in selected_stations]} *)
Definition required_paths (selected : list StationTuple) : gmap string string :=
  foldl (λ (d : gmap string string) (item : string * string),
           if bool_decide (item.1 ∈ sta_of <$> selected)
           then <[second_char item.1 := item.2]> d
           else d)
        ∅ STATIONXML_PATHS.

(** The plotter is built with the monitor's server and the defaults of
    the constructor, and started; an exception that leaves [start] is caught
    and logged ("Error al iniciar el graficador"), which [Failed] stands for
    here. *)
Definition send_to_application (rows : list (string * string * string))
    (station_vars : gmap string bool) (server_host : string) : Session :=
  let selected := selected_stations rows station_vars in
  match selected with
  | [] => NotStarted [NoHayEstacionesSeleccionadas]
  | _ =>
      let plotter :=
        (init selected (required_paths selected) server_host 150 500 30).1 in
      start plotter
  end.

(** *** Runs of the session: packets and render ticks *)

Inductive Op :=
  | OnData (trace : Trace R) (t_touch t_now : Z)
  | UpdatePlot (current_time : Z).

Definition run_op (op : Op) (p : PlotterT) : PlotterT :=
  match op with
  | OnData trace t_touch t_now => final_state (on_data trace t_touch t_now p)
  | UpdatePlot t => final_state (update_plot t p)
  end.

Definition run_ops (ops : list Op) (p : PlotterT) : PlotterT :=
  foldl (λ q op, run_op op q) p ops.

End Plotter.

(** ** A laboratory instance over the rationals

    Exact arithmetic, least-squares detrending, instruments with a flat
    response (an inventory is the overall sensitivity in counts per m/s),
    a file system given by the list of the StationXML files it holds, and
    one SeedLink server. *)

Module Lab.

Definition qsum (y : list Q) : Q := foldr Qplus 0%Q y.

Definition qmean (y : list Q) : Q :=
  (qsum y / inject_Z (Z.of_nat (length y)))%Q.

Definition demean (y : list Q) : list Q :=
  (λ v, Qred (v - qmean y)) <$> y.

Definition abscissae (y : list Q) : list Q :=
  (λ k : nat, inject_Z (Z.of_nat k)) <$> seq 0 (length y).

(** Subtract the least-squares line through the samples. *)
Definition linear (y : list Q) : list Q :=
  let xs := abscissae y in
  let xm := qmean xs in
  let ym := qmean y in
  let sxy := qsum (zip_with (λ x v, (x - xm) * (v - ym))%Q xs y) in
  let sxx := qsum ((λ x, (x - xm) * (x - xm))%Q <$> xs) in
  let b := (sxy / sxx)%Q in
  let a := (ym - b * xm)%Q in
  zip_with (λ x v, Qred (v - (a + b * x))) xs y.

(** The window of ObsPy's cosine_taper(npts, 0.05, sactaper=True,
    halfcosine=False) for fewer than 60 samples, where the taper is no
    wider than one sample at either end: the first and the last sample are
    set to zero (for two samples only the last one), and fewer than two
    samples raise. *)
Definition taper_window (n : nat) : Result (list Q) :=
  match n with
  | O | S O => Raise ValueError
  | S (S O) => Ok [1; 0]%Q
  | S (S m) => Ok ([0%Q] ++ replicate m 1%Q ++ [0%Q])
  end.

(** Trace.remove_response(inventory, output="VEL") for an instrument of
    flat response, on the short traces of the laboratory (fewer than 60
    samples): the mean is removed, the taper is applied and the samples
    are divided by the sensitivity. *)
Definition flat_response (sensitivity : Q) (tr : Trace Q) : Result (list Q) :=
  match taper_window (length (data tr)) with
  | Raise e => Raise e
  | Ok window =>
      Ok (zip_with (λ w v, Qred (w * v / sensitivity)) window (demean (data tr)))
  end.

(** The blocks of the laboratory that come at another sampling rate lie
    apart from the buffer: the clean-up pass of a merge that raises then puts
    every trace with samples back as it was. *)
Definition leftover (s : Stream Q) : Stream Q := filter (λ tr, npts tr ≠ 0) s.

Definition host : string := "192.168.84.112".

(** The one server of the laboratory accepts every stream. *)
Definition connect (h : string) : Result () :=
  if bool_decide (h = host) then Ok () else Raise ClientError.

Definition select_stream (h net sta cha : string) : Result () :=
  if bool_decide (h = host) then Ok () else Raise ClientError.

Definition file_exists (files : list (string * Q)) (path : string) : bool :=
  bool_decide (path ∈ files.*1).

Definition read_file (files : list (string * Q)) (path : string) : Result Q :=
  match list_to_map (M := gmap string Q) files !! path with
  | Some q => Ok q
  | None => Raise ResponseError
  end.

Definition env (files : list (string * Q)) : Env Q Q := {|
  detrend_linear := linear;
  detrend_demean := demean;
  remove_response := flat_response;
  merge_leftover := leftover;
  path_exists := file_exists files;
  read_inventory := read_file files;
  client_connect := connect;
  client_select_stream := select_stream
|}.

(** The file system of the deployment: every file of the hard-coded table
    is there, each instrument with unit sensitivity. *)
Definition deployed : list (string * Q) :=
  [("/net/sw/source/inventories/UIS09.xml", 1%Q);
   ("/net/sw/source/inventories/UIS05.xml", 1%Q);
   ("/net/sw/source/inventories/UIS03.xml", 1%Q);
   ("/net/sw/source/inventories/UIS01.xml", 1%Q);
   ("/net/sw/source/inventories/R8256.xml", 1%Q)].

(** A file system without any StationXML file *)
Definition bare : list (string * Q) := [].

(** One selected stream, and a block of five samples at 1 Hz for it, from
    second 100 to second 104 *)
Definition selection : list StationTuple := [("UX", "UIS09", "00", "EHZ")].

Definition block : Trace Q :=
  mkTrace "UX" "UIS09" "00" "EHZ" 1 100 [0; 0; 1; 0; 0]%Q.

(** A later block of the same stream at another sampling rate *)
Definition block_2hz : Trace Q :=
  mkTrace "UX" "UIS09" "00" "EHZ" 2 220 [3; 4]%Q.

(** The plotter on the deployed file system and on the bare one, with a
    window of four seconds *)
Definition plotter : Plotter Q Q :=
  (init (EV := env deployed) selection ∅ host 4 500 30).1.

Definition plotter_bare : Plotter Q Q :=
  (init (EV := env bare) selection ∅ host 4 500 30).1.

(** Two networks with a station of the same code *)
Definition twins : list StationTuple :=
  [("UX", "S01", "00", "EHZ"); ("XX", "S01", "00", "EHZ")].

Definition plotter_twins : Plotter Q Q :=
  (init (EV := env bare) twins ∅ host 4 500 30).1.

Definition block_ux : Trace Q :=
  mkTrace "UX" "S01" "00" "EHZ" 1 100 [0; 0; 1; 0; 0]%Q.

(** Blocks to merge: two seconds of data, then a resumption after a gap
    of three samples, and a block lying inside a longer one *)
Definition early : Trace Q := mkTrace "UX" "UIS09" "00" "EHZ" 1 0 [1; 2]%Q.
Definition late : Trace Q := mkTrace "UX" "UIS09" "00" "EHZ" 1 5 [6; 7]%Q.
Definition long : Trace Q := mkTrace "UX" "UIS09" "00" "EHZ" 1 0 [1; 2; 3; 4]%Q.
Definition inner : Trace Q := mkTrace "UX" "UIS09" "00" "EHZ" 1 1 [9]%Q.


Definition velocity : list Q := [0; -1 # 5; 4 # 5; -1 # 5; 0]%Q.

Definition block_velocity : Trace Q :=
  mkTrace "UX" "UIS09" "00" "EHZ" 1 100 velocity.

Definition twin_xx : StationTuple := ("XX", "S01", "00", "EHZ").

(** The plotter after the block, and three seconds of data that resume
    the stream after a gap of three samples *)
Definition after_block : Plotter Q Q :=
  final_state (on_data (EV := env deployed) block 104 104 plotter).




End Lab.

(** ** Notions the properties are stated with *)


(** The [k]-th of the [n] points that divide the segment from [a] to [b]
    evenly (k = 1 .. n). *)
Definition interpolate {R} {AR : Arith R} (a b : R) (n k : Z) : R :=
  radd (rmul (rofZ k) (rdiv (rsub b a) (rofZ (n + 1)))) a.

(** The merge as the specification words it, for a configured [max_gap]
    (seconds): the newer block wins wherever both blocks have a sample,
    a gap shorter than [max_gap] is interpolated, a longer one is filled
    with zeros. *)
Definition merge_claim (max_gap : Z) : Prop :=
  ∀ (old new merged : Trace Q) (i : Z),
    npts old ≠ 0 → npts new ≠ 0 →
    sampling_rate new = sampling_rate old →
    starttime old ≤ starttime new →
    stream_merge [old; new] = Ok [merged] →
    (∀ v, is_Some (sample_at old i) → sample_at new i = Some v →
          sample_at merged i = Some v)
    ∧ (endtime old < i < starttime new →
       let gap := starttime new - endtime old - 1 in
       sample_at merged i =
         Some (if decide (gap < grid old max_gap)
               then interpolate (last_sample old) (first_sample new) gap
                                (i - endtime old)
               else rzero)).

(** *** Order of the ingestion stages *)

(** The order the specification gives for the ingestion entry point *)
Definition spec_order : list Stage :=
  [Append; Merge; Trim; Touch; RemoveResponse; MetricUpdate].

(** The order of the statements of [on_data] *)
Definition code_order : list Stage :=
  [Touch; Detrend; Append; Merge; Trim; RemoveResponse; MetricUpdate].

(** *** Liveness *)

Inductive LivenessState := UNKNOWN | CONNECTED | STALE.

#[export] Instance LivenessState_eq_dec : EqDecision LivenessState.
Proof. solve_decision. Defined.

(** The liveness of a station as the two dictionaries hold it *)
Definition liveness_of {R Inv} (p : Plotter R Inv) (sta : string)
  : option Z * LivenessState :=
  let last := default None (last_data_times p !! sta) in
  let status := default false (connection_status p !! sta) in
  (last, if status then CONNECTED
         else match last with Some _ => STALE | None => UNKNOWN end).

(** touch(t) and evaluate(now) as the specification words them *)
Definition spec_touch (t : Z) : option Z * LivenessState := (Some t, CONNECTED).

Definition spec_evaluate (timeout now : Z) (l : option Z * LivenessState)
  : option Z * LivenessState :=
  match l with
  | (Some t, CONNECTED) => if timeout <? now - t then (Some t, STALE) else l
  | _ => l
  end.

(** Every selected stream has its buffer and its station has its two
    liveness entries, as [__init__] sets them up. *)
Definition Plotter_wf {R Inv} (p : Plotter R Inv) : Prop :=
  ∀ st, st ∈ stations p →
    is_Some (streams p !! key_of st)
    ∧ is_Some (last_data_times p !! sta_of st)
    ∧ is_Some (connection_status p !! sta_of st).

(** *** Missing response *)

(** The exception of [self.plotter.inventories[station]] for a station
    without a loaded inventory *)
Definition ResponseMissing (sta : string) : Exn := KeyError sta.

(** The trace [on_data] works on after the preprocessing *)
Definition detrended {R Inv} {EV : Env R Inv} (trace : Trace R) : Trace R :=
  set_data (set_data trace (detrend_linear (data trace)))
           (detrend_demean (detrend_linear (data trace))).



(** The specification's claim on configurations: a selection with a
    station whose response could not be loaded is never started. *)
Definition configuration_claim {R Inv} {EV : Env R Inv} : Prop :=
  ∀ (selection : list StationTuple) (paths : gmap string string)
    (host : string) (W rate timeout : Z) (st : StationTuple),
    st ∈ selection →
    inventories (init (R:=R) selection paths host W rate timeout).1 !! sta_of st
      = None →
    ∃ out, start (init (R:=R) selection paths host W rate timeout).1
           = NotStarted out.

(** What [load_inventories] does for one station code *)
Definition loadable {R Inv} {EV : Env R Inv} (sta : string) : option Inv :=
  match inventory_table !! sta with
  | Some file =>
      if negb (bool_decide (file = String.EmptyString)) && path_exists file then
        match read_inventory file with
        | Ok inv => Some inv
        | Raise _ => None
        end
      else None
  | None => None
  end.

(** *** Per-station state *)

(** What a panel shows of its station: the three dictionaries read with
    the station code of the stream. *)
Definition view {R Inv} {AR : Arith R} (p : Plotter R Inv) (st : StationTuple)
  : option (option Z) * option bool * Metrics R :=
  (last_data_times p !! sta_of st, connection_status p !! sta_of st,
   values_of p (sta_of st)).

(** The specification's claim on keys: streams of different
    network.station pairs have separate per-station state, so a block of
    one never changes what is shown for the other. *)
Definition station_key_claim {R Inv} {AR : Arith R} {EV : Env R Inv} : Prop :=
  ∀ (p : Plotter R Inv) (trace : Trace R) (t_touch t_now : Z)
    (st : StationTuple),
    (st.1.1.1, sta_of st) ≠ (network trace, station trace) →
    view (final_state (on_data trace t_touch t_now p)) st = view p st.

(** *** Peak metrics *)

#[export] Instance Arith_inhabited {R} {AR : Arith R} : Inhabited R := populate rzero.










(** The attributes that no statement assigns after [__init__] *)
Definition same_configuration {R Inv} (p p' : Plotter R Inv) : Prop :=
  stations p' = stations p
  ∧ stationxml_paths p' = stationxml_paths p
  ∧ seedlink_host p' = seedlink_host p
  ∧ window_seconds p' = window_seconds p
  ∧ refresh_rate_ms p' = refresh_rate_ms p
  ∧ data_timeout p' = data_timeout p
  ∧ inventories p' = inventories p.

(** Whether the render tick at [now] finds the last packet of [sta]
    older than the timeout. *)
Definition stale {R Inv} (p : Plotter R Inv) (now : Z) (sta : string) : bool :=
  match default None (last_data_times p !! sta) with
  | Some t => data_timeout p <? now - t
  | None => false
  end.

(** *** The specification's order and acceleration, as claims *)

(** Every block on a subscribed stream that is processed without error
    goes through the stages in the order of the specification (the
    preprocessing, which the specification does not name, left aside). *)
Definition stage_order_claim {R Inv} {AR : Arith R} {EV : Env R Inv} : Prop :=
  ∀ (p : Plotter R Inv) (trace : Trace R) (t_touch t_now : Z),
    is_Some (streams p !! trace_key trace) →
    printed_of (events_of (on_data trace t_touch t_now p)) = [] →
    filter (λ s, s ≠ Detrend)
           (stages_of (events_of (on_data trace t_touch t_now p)))
    = spec_order.


(** A trace that starts [W] seconds before [now] and ends at [now] *)
Definition is_window {R} (now W : Z) (tr : Trace R) : Prop :=
  starttime tr = grid tr (now - W) ∧ endtime tr = grid tr now.

(** ** The waveform of a panel (update_plot) *)

Section Axes.
Context {R : Type} {AR : Arith R}.

(** np.linspace(start, stop, num), for [stop] other than [start]: the
    points [start + k * step] with [step = (stop - start) / (num - 1)],
    the last one set to [stop]. *)
Definition np_linspace (start stop : R) (num : nat) : list R :=
  match num with
  | O => []
  | S O => [start]
  | S div =>
      let step := rdiv (rsub stop start) (rofZ (Z.of_nat div)) in
      ((λ k : nat, radd (rmul (rofZ (Z.of_nat k)) step) start) <$> seq 0 div)
      ++ [stop]
  end.

(** What the tick hands to the line and the axes of a panel *)
Record Axes := mkAxes {
  line_x : list R;
  line_y : list R;
  line_color : string;
  ylim : R * R;
  xlim : R * R
}.

(** The branch "Actualizar waveform" of the render loop *)
Definition draw_waveform (window_seconds : Z) (status : bool) (buffer : Stream R)
  : Result Axes :=
  match buffer with
  | tr :: _ =>
      if status then
        let times :=
          np_linspace rzero
            (rdiv (rofZ (npts tr)) (rofZ (Z.pos (sampling_rate tr))))
            (length (data tr)) in
        (* Ajustar escala dinámica *)
        match abs_max (data tr) with
        | Raise e => Raise e
        | Ok m =>
            let data_range := rmax (rofZ 1) (rmul m (rdiv (rofZ 6) (rofZ 5))) in
            Ok (mkAxes times (data tr) "#c94949"
                  (rsub rzero data_range, data_range)
                  (rzero, default (rofZ 10) (list.last times)))
        end
      else
        Ok (mkAxes [rzero; rofZ window_seconds] [rzero; rzero] "red"
              (rofZ (-1), rofZ 1) (rzero, rofZ window_seconds))
  | [] =>
      Ok (mkAxes [rzero; rofZ window_seconds] [rzero; rzero] "red"
            (rofZ (-1), rofZ 1) (rzero, rofZ window_seconds))
  end.

End Axes.

(** Every buffer that holds a trace holds samples in its first trace, the
    one the render tick draws. *)
Definition buffers_drawable {R Inv} (p : Plotter R Inv) : Prop :=
  ∀ key tr rest, streams p !! key = Some (tr :: rest) → npts tr ≠ 0.

(** Whether a code is free of the dot that separates the parts of a key *)
Fixpoint dotless (s : string) : bool :=
  match s with
  | String.EmptyString => true
  | String c rest => negb (Ascii.nat_of_ascii c =? 46)%nat && dotless rest
  end.


(** ** The station selector (LecturaSeedlink.py)

    Text is ASCII: a character is a byte, and the bytes above 127 are
    characters like any other. *)

Module Str.

(** str.isspace *)
Definition is_space (c : Ascii.ascii) : bool :=
  let n := Ascii.nat_of_ascii c in
  ((9 <=? n) && (n <=? 13) || (28 <=? n) && (n <=? 31) || (n =? 32))%nat.

(** The characters str.splitlines breaks a line at, the carriage return
    apart *)
Definition is_break (c : Ascii.ascii) : bool :=
  let n := Ascii.nat_of_ascii c in
  ((n =? 10) || (n =? 11) || (n =? 12) || (28 <=? n) && (n <=? 30))%nat.

Definition is_cr (c : Ascii.ascii) : bool := (Ascii.nat_of_ascii c =? 13)%nat.
Definition is_lf (c : Ascii.ascii) : bool := (Ascii.nat_of_ascii c =? 10)%nat.

(** A token, once its last character has been read *)
Definition flush (tok : string) (rest : list string) : list string :=
  match tok with
  | String.EmptyString => rest
  | _ => tok :: rest
  end.

Fixpoint split_from (tok : string) (s : string) : list string :=
  match s with
  | String.EmptyString => flush tok []
  | String c rest =>
      if is_space c then flush tok (split_from String.EmptyString rest)
      else split_from (tok +:+ String c String.EmptyString) rest
  end.

(** s.split(): the runs of characters other than white space *)
Definition split (s : string) : list string := split_from String.EmptyString s.

Fixpoint splitlines_from (line : string) (s : string) : list string :=
  match s with
  | String.EmptyString => flush line []
  | String c rest =>
      if is_cr c then
        match rest with
        | String c' rest' =>
            if is_lf c' then line :: splitlines_from String.EmptyString rest'
            else line :: splitlines_from String.EmptyString rest
        | String.EmptyString => [line]
        end
      else if is_break c then line :: splitlines_from String.EmptyString rest
      else splitlines_from (line +:+ String c String.EmptyString) rest
  end.

(** s.splitlines(): the lines without their line breaks; a carriage
    return followed by a line feed is one break. *)
Definition splitlines (s : string) : list string := splitlines_from String.EmptyString s.

(** sep.join(l) *)
Fixpoint join (sep : string) (l : list string) : string :=
  match l with
  | [] => String.EmptyString
  | [x] => x
  | x :: rest => x +:+ sep +:+ join sep rest
  end.

(** l[a:b] for 0 <= a <= b *)
Definition slice {A} (a b : nat) (l : list A) : list A := take (b - a) (drop a l).

End Str.


Module SeedLinkMonitor.

(** A row of the station tree: the columns select, network, station,
    channel and status.  The tree is taken to hand back the texts it was
    given. *)
Definition TreeRow : Type := string * string * string * string * string.

(** A row of the information tree: network, station, location, channel,
    type, start_time, end_time, status *)
Definition InfoRow : Type :=
  string * string * string * string * string * string * string * string.

(** The texts of the status bar *)
Inductive StatusText :=
  | Listo
  | ActualizandoInformacion
  | InformacionActualizada
  | ErrorAlActualizar.

(** The lines of the log console, without their time stamps *)
Inductive LogLine :=
  | LogActualizando
  | LogError (stderr : string)
  | LogActualizada (activas : nat)
  | LogErrorAlActualizar (e : string).

(** The attributes of the monitor that its methods read and assign; the
    widgets are held by the rows and texts they show. *)
Record t := mk {
  server_host : string;
  stations : list (string * string * string);
  station_vars : gmap string bool;
  station_tree : list TreeRow;
  info_tree : list InfoRow;
  log_console : list LogLine;
  status_var : StatusText
}.

Definition log_message (l : LogLine) (m : t) : t :=
  mk (server_host m) (stations m) (station_vars m) (station_tree m)
     (info_tree m) (log_console m ++ [l]) (status_var m).

Definition set_status (s : StatusText) (m : t) : t :=
  mk (server_host m) (stations m) (station_vars m) (station_tree m)
     (info_tree m) (log_console m) s.

(** f"{net}.{sta}" *)
Definition station_key (net sta : string) : string := net +:+ "." +:+ sta.

(** The (network, station, channel) columns of a row of the station tree *)
Definition row_stream (row : TreeRow) : string * string * string :=
  let '(_, net, sta, chan, _) := row in (net, sta, chan).

(** *** on_treeview_click, update_checkbox *)

Definition update_checkbox (item : nat) (value : bool) (m : t) : t :=
  mk (server_host m) (stations m) (station_vars m)
     (alter (λ row : TreeRow,
               let '(_, net, sta, chan, status) := row in
               ((if value then "✓" else String.EmptyString), net, sta, chan, status))
            item (station_tree m))
     (info_tree m) (log_console m) (status_var m).

(** A click at the row [item] of the station tree, in the region and the
    column the tree identifies for the pointer.  The tree names a row for
    every click in a cell; without one nothing is assigned. *)
Definition on_treeview_click (region column : string) (item : nat) (m : t) : t :=
  if bool_decide (region = "cell") then
    if bool_decide (column = "#1") then
      match station_tree m !! item with
      | Some (_, net, sta, _, _) =>
          let key := station_key net sta in
          let current_val := default false (station_vars m !! key) in
          update_checkbox item (negb current_val)
            (mk (server_host m) (stations m)
                (<[key := negb current_val]> (station_vars m))
                (station_tree m) (info_tree m) (log_console m) (status_var m))
      | None => m
      end
    else m
  else m.

(** *** load_station_info *)

(** What subprocess.run gives: the completed process, or the exception of
    a command that could not be started *)
Inductive Completed :=
  | Exited (returncode : Z) (stdout stderr : string)
  | SpawnError (e : string).

Definition is_digit (c : Ascii.ascii) : bool :=
  let n := Ascii.nat_of_ascii c in ((48 <=? n) && (n <=? 57))%nat.

(** Instants of [datetime] are microseconds counted from the first instant
    the type holds; this is the last one, 9999-12-31 23:59:59.999999. *)
Definition datetime_max : Z := 315537897599999999.

(** timedelta(minutes=1) *)
Definition one_minute : Z := 60000000.

Section Refresh.

(** The instant a text denotes under "%Y/%m/%d %H:%M:%S.%f", once it is
    known to begin with the four digits of a year *)
Context (parse_datetime : string → Result Z).

(** datetime.strptime(text, "%Y/%m/%d %H:%M:%S.%f") *)
Definition strptime (text : string) : Result Z :=
  match text with
  | String y1 (String y2 (String y3 (String y4 _))) =>
      if is_digit y1 && is_digit y2 && is_digit y3 && is_digit y4
      then parse_datetime text
      else Raise ValueError
  | _ => Raise ValueError
  end.

(** The status of a channel whose data end at [end_time]; any exception
    gives "Desconocido", the overflow of the added minute included. *)
Definition status_of (now : Z) (end_time : string) : string :=
  match strptime end_time with
  | Ok t =>
      let end_dt := t + one_minute in
      if datetime_max <? end_dt then "Desconocido"
      else if now <=? end_dt then "Activo" else "Inactivo"
  | Raise _ => "Desconocido"
  end.

Definition item (i : nat) (parts : list string) : string :=
  default String.EmptyString (parts !! i).

(** One turn of the loop over the lines of the output, at the instant
    [now] *)
Definition add_line (now : Z) (line : string) (m : t) : t :=
  let parts := Str.split line in
  if bool_decide (8 ≤ length parts)%nat then
    let net := item 0 parts in
    let sta := item 1 parts in
    let loc := item 2 parts in
    let chan := item 3 parts in
    let type_code := item 4 parts in
    let start_time := Str.join " " (Str.slice 5 7 parts) in
    let end_time := if bool_decide (10 ≤ length parts)%nat
                    then Str.join " " (Str.slice 8 10 parts) else "N/A" in
    (* Determinar estado *)
    let status := status_of now end_time in
    (* Agregar a información completa *)
    let info := info_tree m
                ++ [(net, sta, loc, chan, type_code, start_time, end_time, status)] in
    (* Filtrar para panel izquierdo *)
    if bool_decide (chan ∈ ["EHZ"; "HNZ"]) && bool_decide (status = "Activo") then
      mk (server_host m) (stations m ++ [(net, sta, chan)])
         (<[station_key net sta := false]> (station_vars m))
         (station_tree m ++ [(String.EmptyString, net, sta, chan, "No conectado")])
         info (log_console m) (status_var m)
    else
      mk (server_host m) (stations m) (station_vars m) (station_tree m)
         info (log_console m) (status_var m)
  else m.

(** The loop; [clock i] is the instant at which line [i] is looked at. *)
Fixpoint add_lines (clock : nat → Z) (i : nat) (lines : list string) (m : t) : t :=
  match lines with
  | [] => m
  | line :: rest => add_lines clock (S i) rest (add_line (clock i) line m)
  end.

Definition load_station_info (run : Completed) (clock : nat → Z) (m : t) : t :=
  let m := log_message LogActualizando m in
  let m := set_status ActualizandoInformacion m in
  (* Limpiar datos anteriores *)
  let m := mk (server_host m) [] ∅ [] [] (log_console m) (status_var m) in
  (* Obtener información del servidor *)
  match run with
  | Exited returncode stdout stderr =>
      if bool_decide (returncode ≠ 0) then log_message (LogError stderr) m
      else
        (* Procesar resultados *)
        let m := add_lines clock 0 (Str.splitlines stdout) m in
        let m := log_message (LogActualizada (length (stations m))) m in
        set_status InformacionActualizada m
  | SpawnError e =>
      let m := log_message (LogErrorAlActualizar e) m in
      set_status ErrorAlActualizar m
  end.

(** SeedLinkMonitor.__init__ *)
Definition init (run : Completed) (clock : nat → Z) : t :=
  load_station_info run clock (mk "192.168.84.112" [] ∅ [] [] [] Listo).

End Refresh.

(** *** Notions the properties of the monitor are stated with *)

(** The streams the station tree lists, row by row: what
    [send_to_application] reads of the tree *)
Definition rows (m : t) : list (string * string * string) :=
  row_stream <$> station_tree m.

(** The stream a row of the information tree gives the station tree: a
    vertical channel that is active *)
Definition selectable (row : InfoRow) : option (string * string * string) :=
  let '(net, sta, _, chan, _, _, _, status) := row in
  if bool_decide (chan ∈ ["EHZ"; "HNZ"]) && bool_decide (status = "Activo")
  then Some (net, sta, chan) else None.

(** What a refresh replaces *)
Definition catalogue (m : t)
  : list (string * string * string) * gmap string bool
    * list TreeRow * list InfoRow :=
  (stations m, station_vars m, station_tree m, info_tree m).

Definition key_of_stream (s : string * string * string) : string :=
  station_key s.1.1 s.1.2.

(** The row the loop adds to the station tree for a stream *)
Definition tree_row (s : string * string * string) : TreeRow :=
  (String.EmptyString, s.1.1, s.1.2, s.2, "No conectado").

(** What the loop keeps true of the lists it fills: the station list is
    what the information tree holds of selectable streams, the station
    tree shows it row by row, and no station is selected. *)
Definition listed (m : t) : Prop :=
  stations m = omap selectable (info_tree m)
  ∧ station_tree m = tree_row <$> stations m
  ∧ ∀ k, station_vars m !! k =
         if decide (k ∈ key_of_stream <$> stations m) then Some false else None.

End SeedLinkMonitor.

Module Desk.

(** A parser of instants that knows two midnights *)
Definition parse_datetime (text : string) : Result Z :=
  if bool_decide (text = "2024/01/01 00:00:00.0000") then Ok 63839664000000000
  else if bool_decide (text = "2024/01/02 00:00:00.0000") then Ok 63839750400000000
  else Raise ValueError.

(** Half a minute past the second midnight *)
Definition now : Z := 63839750430000000.

(** A record printed with a blank location code: nine fields *)
Definition short_line : string :=
  "GE WLF      BHZ D 2024/01/01 00:00:00.0000  -  2024/01/02 00:00:00.0000".

(** The stream list of a server: two channels of a station that still
    delivers data, a horizontal channel, a channel that ended a day ago and
    the short record *)
Definition stdout : string :=
  "UX UIS03 00 EHZ D 2024/01/01 00:00:00.0000  -  2024/01/02 00:00:00.0000
UX UIS03 00 HNZ D 2024/01/01 00:00:00.0000  -  2024/01/02 00:00:00.0000
UX UIS05 00 EHN D 2024/01/01 00:00:00.0000  -  2024/01/02 00:00:00.0000
UX UIS09 10 EHZ D 2024/01/01 00:00:00.0000  -  2024/01/01 00:00:00.0000
GE WLF      BHZ D 2024/01/01 00:00:00.0000  -  2024/01/02 00:00:00.0000
".

(** The monitor once it has been opened on that server *)
Definition monitor : SeedLinkMonitor.t :=
  SeedLinkMonitor.init parse_datetime (SeedLinkMonitor.Exited 0 stdout "")
    (λ _, now).

(** A command that fails *)
Definition refused : SeedLinkMonitor.Completed :=
  SeedLinkMonitor.Exited 1 "" "slinktool: cannot connect".

End Desk.

(** ** Further states and blocks of the laboratory *)

Module Cases.

(** The laboratory plotter after its first block *)
Definition after_first : Plotter Q Q := Lab.after_block.

(** The three seconds of the stream that follow the first block, as they
    arrive and once detrended *)
Definition block_next : Trace Q :=
  mkTrace "UX" "UIS09" "00" "EHZ" 1 105 [1; 0; 2]%Q.

Definition block_next_detrended : Trace Q :=
  mkTrace "UX" "UIS09" "00" "EHZ" 1 105 [1 # 2; -1; 1 # 2]%Q.

(** The buffer after the first block merged with these three seconds *)
Definition merged_next : Trace Q :=
  mkTrace "UX" "UIS09" "00" "EHZ" 1 100
    [0; -1 # 5; 4 # 5; -1 # 5; 0; 1 # 2; -1; 1 # 2]%Q.

(** The laboratory plotter with a window of zero seconds, and what it has
    become after the first block: the buffer holds the last sample of the
    block, from which no response can be removed *)
Definition plotter_w0 : Plotter Q Q :=
  (init (EV := Lab.env Lab.deployed) Lab.selection ∅ Lab.host 0 500 30).1.

Definition w0_after_first : Plotter Q Q :=
  final_state (on_data (EV := Lab.env Lab.deployed) Lab.block 104 104 plotter_w0).

Definition last_of_block : Trace Q :=
  mkTrace "UX" "UIS09" "00" "EHZ" 1 104 [-1 # 5]%Q.

Definition w0_merged : Trace Q :=
  mkTrace "UX" "UIS09" "00" "EHZ" 1 104 [-1 # 5; 1 # 2; -1; 1 # 2]%Q.

(** The block of the laboratory under the location code "10" *)
Definition block_loc10 : Trace Q :=
  mkTrace "UX" "UIS09" "10" "EHZ" 1 100 [0; 0; 1; 0; 0]%Q.

(** The axes of four samples 1, 2, 3, 4 at 1 Hz *)
Definition axes_long : Axes (R := Q) :=
  mkAxes [0; 4 # 3; 8 # 3; 4]%Q [1; 2; 3; 4]%Q "#c94949"
    (-24 # 5, 24 # 5)%Q (0, 4)%Q.

End Cases.
(** * Properties *)

(** ** Trimming *)

Section TrimFacts.
Context {R : Type} {AR : Arith R}.
Implicit Types (tr : Trace R) (s : Stream R).

Lemma npts_nonneg tr : 0 ≤ npts tr.
Proof. unfold npts. lia. Qed.

Lemma sample_at_before tr i : i < starttime tr → sample_at tr i = None.
Proof. intros Hi. unfold sample_at. case_decide; [lia | done]. Qed.

Lemma sample_at_from tr i :
  starttime tr ≤ i → sample_at tr i = data tr !! Z.to_nat (i - starttime tr).
Proof. intros Hi. unfold sample_at. case_decide; [done | lia]. Qed.

Lemma sample_at_after tr i :
  starttime tr + npts tr ≤ i → sample_at tr i = None.
Proof.
  intros Hi. unfold sample_at, npts in *. case_decide; [| done].
  apply lookup_ge_None_2. lia.
Qed.

Lemma trace_ltrim_rate t pad tr :
  sampling_rate (trace_ltrim t pad tr) = sampling_rate tr.
Proof. unfold trace_ltrim. repeat case_match; done. Qed.

Lemma trace_rtrim_rate t pad tr :
  sampling_rate (trace_rtrim t pad tr) = sampling_rate tr.
Proof. unfold trace_rtrim. repeat case_match; done. Qed.

Lemma trace_ltrim_pad_start t tr :
  starttime (trace_ltrim t true tr) = grid tr t.
Proof.
  unfold trace_ltrim. rewrite orb_true_r, andb_false_r, orb_false_r.
  destruct (Z.eqb_spec (grid tr t - starttime tr) 0); [lia |].
  case_match; simpl; lia.
Qed.

Lemma trace_ltrim_pad_sample t tr i :
  sample_at (trace_ltrim t true tr) i =
    if decide (grid tr t ≤ i)
    then if decide (i < starttime tr) then Some rzero else sample_at tr i
    else None.
Proof.
  unfold trace_ltrim. rewrite orb_true_r, andb_false_r, orb_false_r.
  destruct (Z.eqb_spec (grid tr t - starttime tr) 0) as [E0 | N0].
  { repeat case_decide; try lia; try done.
    - by rewrite sample_at_before by lia. }
  destruct (Z.ltb_spec (grid tr t - starttime tr) 0) as [Hneg | Hpos].
  - unfold sample_at at 1. simpl. unfold zeros.
    repeat case_decide; try lia; try done.
    + rewrite lookup_app_l by (rewrite length_replicate; lia).
      apply lookup_replicate_2. lia.
    + rewrite lookup_app_r by (rewrite length_replicate; lia).
      rewrite length_replicate, sample_at_from by lia. f_equal. lia.
  - unfold sample_at at 1. simpl.
    repeat case_decide; try lia; try done.
    rewrite lookup_drop, sample_at_from by lia. f_equal. lia.
Qed.

Lemma trace_rtrim_pad_start t tr :
  starttime tr ≤ grid tr t → starttime (trace_rtrim t true tr) = starttime tr.
Proof.
  intros Hle. unfold trace_rtrim. rewrite andb_false_r, orb_false_r.
  repeat case_match; simpl; try done. lia.
Qed.

Lemma trace_rtrim_pad_npts t tr :
  starttime tr ≤ grid tr t →
  npts (trace_rtrim t true tr) = grid tr t - starttime tr + 1.
Proof.
  intros Hle. pose proof (npts_nonneg tr) as Hn.
  unfold trace_rtrim. rewrite andb_false_r, orb_false_r.
  destruct (Z.eqb_spec (grid tr t - starttime tr - npts tr + 1) 0); [lia |].
  destruct (Z.ltb_spec 0 (grid tr t - starttime tr - npts tr + 1)).
  { unfold npts, zeros in *. simpl.
    rewrite length_app, length_replicate. lia. }
  destruct (Z.ltb_spec (grid tr t) (starttime tr)); [lia |].
  unfold npts in *. simpl. rewrite length_take.
  destruct (Z.eqb_spec (grid tr t) (starttime tr)); lia.
Qed.

Lemma trace_rtrim_pad_sample t tr i :
  starttime tr ≤ grid tr t →
  sample_at (trace_rtrim t true tr) i =
    if decide (i ≤ grid tr t)
    then match sample_at tr i with
         | Some v => Some v
         | None => if decide (starttime tr ≤ i) then Some rzero else None
         end
    else None.
Proof.
  intros Hle. pose proof (npts_nonneg tr) as Hn.
  unfold trace_rtrim. rewrite andb_false_r, orb_false_r.
  destruct (Z.eqb_spec (grid tr t - starttime tr - npts tr + 1) 0) as [E0 | N0].
  { case_decide.
    - destruct (sample_at tr i) eqn:E; [done |].
      case_decide; [| done]. rewrite sample_at_from in E by done.
      apply lookup_ge_None_1 in E. unfold npts in *. lia.
    - apply sample_at_after. lia. }
  destruct (Z.ltb_spec 0 (grid tr t - starttime tr - npts tr + 1)) as [Hpos | Hneg].
  { unfold sample_at. simpl. unfold zeros, npts in *.
    destruct (decide (starttime tr ≤ i)); [| by case_decide].
    rewrite lookup_app. destruct (data tr !! _) eqn:E; [| apply lookup_ge_None_1 in E].
    - apply lookup_lt_Some in E. case_decide; [done | lia].
    - case_decide.
      + apply lookup_replicate_2. lia.
      + apply lookup_ge_None_2. rewrite length_replicate. lia. }
  destruct (Z.ltb_spec (grid tr t) (starttime tr)); [lia |].
  unfold sample_at. simpl. unfold npts in *.
  destruct (decide (starttime tr ≤ i)); [| by case_decide].
  case_decide.
  - rewrite lookup_take_lt by (destruct (Z.eqb_spec (grid tr t) (starttime tr)); lia).
    destruct (data tr !! _) eqn:E; [done |].
    apply lookup_ge_None_1 in E. lia.
  - apply lookup_take_ge. destruct (Z.eqb_spec (grid tr t) (starttime tr)); lia.
Qed.

End TrimFacts.

Section TrimWindow.
Context {R : Type} {AR : Arith R}.
Implicit Types (tr : Trace R) (s : Stream R).

Lemma grid_mono tr a b : a ≤ b → grid tr a ≤ grid tr b.
Proof. unfold grid. nia. Qed.

Lemma cut_rate a b tr : sampling_rate (cut a b tr) = sampling_rate tr.
Proof. unfold cut. by rewrite trace_rtrim_rate, trace_ltrim_rate. Qed.

Lemma grid_ltrim a t tr : grid (trace_ltrim a true tr) t = grid tr t.
Proof. unfold grid. by rewrite trace_ltrim_rate. Qed.

Lemma cut_start a b tr : a ≤ b → starttime (cut a b tr) = grid tr a.
Proof.
  intros Hab. unfold cut. rewrite trace_rtrim_pad_start.
  - apply trace_ltrim_pad_start.
  - rewrite trace_ltrim_pad_start, grid_ltrim. by apply grid_mono.
Qed.

Lemma cut_npts a b tr : a ≤ b → npts (cut a b tr) = grid tr b - grid tr a + 1.
Proof.
  intros Hab. unfold cut. rewrite trace_rtrim_pad_npts.
  - by rewrite trace_ltrim_pad_start, grid_ltrim.
  - rewrite trace_ltrim_pad_start, grid_ltrim. by apply grid_mono.
Qed.

Lemma cut_end a b tr : a ≤ b → endtime (cut a b tr) = grid tr b.
Proof.
  intros Hab. pose proof (grid_mono tr a b Hab).
  unfold endtime. rewrite cut_npts, cut_start by done.
  destruct (Z.eqb_spec (grid tr b - grid tr a + 1) 0); lia.
Qed.

Lemma cut_sample a b tr i :
  a ≤ b →
  sample_at (cut a b tr) i =
    if decide (grid tr a ≤ i ≤ grid tr b)
    then Some (default rzero (sample_at tr i))
    else None.
Proof.
  intros Hab. pose proof (grid_mono tr a b Hab). unfold cut.
  rewrite trace_rtrim_pad_sample
    by (rewrite trace_ltrim_pad_start, grid_ltrim; done).
  rewrite trace_ltrim_pad_start, grid_ltrim, trace_ltrim_pad_sample.
  repeat case_decide; try lia; try done.
  - by rewrite sample_at_before by lia.
  - by destruct (sample_at tr i).
Qed.

Lemma cut_nonempty a b tr : a ≤ b → npts (cut a b tr) ≠ 0.
Proof. intros Hab. pose proof (grid_mono tr a b Hab). rewrite cut_npts; lia. Qed.

(** A trace that already is the window is left as it is. *)
Lemma cut_fixed a b tr :
  starttime tr = grid tr a → npts tr = grid tr b - grid tr a + 1 →
  cut a b tr = tr.
Proof.
  intros Hs Hn. unfold cut.
  assert (trace_ltrim a true tr = tr) as ->.
  { unfold trace_ltrim. by replace (grid tr a - starttime tr) with 0 by lia. }
  unfold trace_rtrim.
  by replace (grid tr b - starttime tr - npts tr + 1) with 0 by lia.
Qed.

Lemma cut_cut a b tr : a ≤ b → cut a b (cut a b tr) = cut a b tr.
Proof.
  intros Hab. apply cut_fixed.
  - rewrite cut_start by done. unfold grid. by rewrite cut_rate.
  - rewrite cut_npts by done. unfold grid. by rewrite cut_rate.
Qed.

Lemma trim_all_ok a b s : a ≤ b → trim_all a b true s = Ok (cut a b <$> s).
Proof.
  intros Hab. induction s as [| tr s IH]; [done |].
  simpl. unfold trace_trim. destruct (Z.ltb_spec b a); [lia |].
  by rewrite IH.
Qed.

Lemma trim_all_raise a b tr s :
  b < a → trim_all a b true (tr :: s) = Raise ValueError.
Proof.
  intros Hab. simpl. unfold trace_trim. by destruct (Z.ltb_spec b a); [| lia].
Qed.

Lemma filter_cut a b s :
  a ≤ b →
  filter (λ tr : Trace R, npts tr ≠ 0) (cut a b <$> s) = cut a b <$> s.
Proof.
  intros Hab. induction s as [| tr s IH]; [done |].
  rewrite fmap_cons, filter_cons_True by by apply cut_nonempty.
  by rewrite IH.
Qed.

Lemma stream_trim_ok a b s : a ≤ b → stream_trim a b true s = Ok (cut a b <$> s).
Proof.
  intros Hab. unfold stream_trim. by rewrite trim_all_ok, filter_cut.
Qed.

Lemma stream_trim_raise a b tr s :
  b < a → stream_trim a b true (tr :: s) = Raise ValueError.
Proof. intros Hab. unfold stream_trim. by rewrite trim_all_raise. Qed.


(** C8: trimming twice with the same [now] and [W] leaves the buffer the
    first trim left, trace for trace and sample for sample. *)
Theorem trim_idempotent (s : Stream R) (now W : Z) :
  buffer_after (trim now W (buffer_after (trim now W s) s))
               (buffer_after (trim now W s) s)
  = buffer_after (trim now W s) s.
Proof.
  unfold trim. destruct (Z.le_gt_cases (now - W) now) as [Hle | Hgt].
  - rewrite !stream_trim_ok by done. simpl.
    rewrite <- list_fmap_compose. apply list_fmap_ext.
    intros _ tr _. simpl. by apply cut_cut.
  - destruct s as [| tr s]; [done |].
    rewrite stream_trim_raise by done. simpl.
    by rewrite stream_trim_raise by done.
Qed.

End TrimWindow.

(** ** Merging *)

Section MergeFacts.
Context {R : Type} {AR : Arith R}.
Implicit Types (tr old new : Trace R).

Lemma endtime_nonempty tr : npts tr ≠ 0 → endtime tr = starttime tr + npts tr - 1.
Proof. intros Hn. unfold endtime. destruct (Z.eqb_spec (npts tr) 0); lia. Qed.

Lemma linspace_interior_length (a b : R) n :
  length (linspace_interior a b n) = Z.to_nat n.
Proof. unfold linspace_interior. by rewrite length_map, length_seq. Qed.

Lemma linspace_interior_lookup (a b : R) n (k : nat) :
  (k < Z.to_nat n)%nat →
  linspace_interior a b n !! k = Some (interpolate a b n (Z.of_nat k + 1)).
Proof.
  intros Hk. unfold linspace_interior, interpolate.
  change (map ?f ?l) with (f <$> l).
  rewrite list_lookup_fmap, lookup_seq_lt by done. simpl.
  do 4 f_equal. lia.
Qed.

Lemma merge_checks_pair old new :
  npts old ≠ 0 → npts new ≠ 0 → sampling_rate new = sampling_rate old →
  merge_checks None [old; new] = Ok ().
Proof.
  intros Ho Hn Hsr. simpl.
  destruct (Z.eqb_spec (npts old) 0); [done |].
  destruct (Z.eqb_spec (npts new) 0); [done |].
  by rewrite decide_True.
Qed.


Lemma stream_merge_pair old new :
  npts old ≠ 0 → npts new ≠ 0 → sampling_rate new = sampling_rate old →
  trace_leb old new = true →
  stream_merge [old; new] = Ok [trace_add old new].
Proof.
  intros Ho Hn Hsr Hle. unfold stream_merge.
  rewrite merge_checks_pair by done. simpl. rewrite Hle.
  by rewrite !filter_cons_True, filter_nil by done.
Qed.

(** The sample the sum of two traces holds at each grid index, when the
    second trace starts no earlier than the first and ends after it. *)
Lemma trace_add_tail_sample old new i :
  npts old ≠ 0 → npts new ≠ 0 →
  starttime old ≤ starttime new → endtime old < endtime new →
  sample_at (trace_add old new) i =
    if decide (starttime new ≤ i) then sample_at new i
    else if decide (i ≤ endtime old) then sample_at old i
    else Some (interpolate (last_sample old) (first_sample new)
                 (starttime new - endtime old - 1) (i - endtime old)).
Proof.
  intros Ho Hn Hs He. unfold trace_add.
  destruct (Z.leb_spec (starttime old) (starttime new)); [| lia].
  rewrite (endtime_nonempty old Ho), (endtime_nonempty new Hn) in *.
  destruct (Z.ltb_spec (starttime new - (starttime old + npts old - 1) - 1) 0)
    as [Hov | Hov].
  { destruct (Z.ltb_spec (starttime old + npts old - 1
                          - (starttime new + npts new - 1)) 0); [| lia].
    simpl. unfold sample_at at 1. simpl. unfold npts in *.
    destruct (decide (starttime old ≤ i)).
    - rewrite lookup_app. case_decide.
      + rewrite lookup_take_ge by lia. rewrite length_take.
        rewrite sample_at_from by done. f_equal. lia.
      + rewrite lookup_take_lt by lia. rewrite decide_True by lia.
        rewrite sample_at_from by done.
        destruct (data old !! _) eqn:E; [done |].
        apply lookup_ge_None_1 in E. lia.
    - rewrite decide_False, decide_True by lia. by rewrite sample_at_before by lia. }
  simpl.
  destruct (Z.eqb_spec (starttime new - (starttime old + npts old - 1) - 1) 0)
    as [Hfit | Hgap].
  { unfold sample_at at 1. simpl. unfold npts in *.
    destruct (decide (starttime old ≤ i)).
    - rewrite lookup_app. case_decide.
      + rewrite (lookup_ge_None_2 (data old)) by lia.
        rewrite sample_at_from by done. f_equal. lia.
      + rewrite decide_True by lia. rewrite sample_at_from by done.
        destruct (data old !! _) eqn:E; [done |].
        apply lookup_ge_None_1 in E. lia.
    - rewrite decide_False, decide_True by lia. by rewrite sample_at_before by lia. }
  unfold sample_at at 1. simpl. unfold npts in *.
  destruct (decide (starttime old ≤ i)).
  - rewrite lookup_app. case_decide.
    + rewrite (lookup_ge_None_2 (data old)) by lia.
      rewrite lookup_app_r by (rewrite linspace_interior_length; lia).
      rewrite linspace_interior_length, sample_at_from by done. f_equal. lia.
    + case_decide.
      * rewrite sample_at_from by done.
        destruct (data old !! _) eqn:E; [done |].
        apply lookup_ge_None_1 in E. lia.
      * rewrite (lookup_ge_None_2 (data old)) by lia.
        rewrite lookup_app_l by (rewrite linspace_interior_length; lia).
        rewrite linspace_interior_lookup by lia. do 2 f_equal. lia.
  - rewrite decide_False, decide_True by lia. by rewrite sample_at_before by lia.
Qed.

Lemma trace_add_start old new :
  starttime old ≤ starttime new → starttime (trace_add old new) = starttime old.
Proof.
  intros Hs. unfold trace_add.
  destruct (Z.leb_spec (starttime old) (starttime new)); [| lia].
  repeat case_match; done.
Qed.

(** A block that lies within the span of the buffer is dropped. *)
Lemma trace_add_contained old new :
  npts old ≠ 0 → npts new ≠ 0 →
  starttime old ≤ starttime new → endtime new ≤ endtime old →
  trace_add old new = old.
Proof.
  intros Ho Hn Hs He. unfold trace_add.
  destruct (Z.leb_spec (starttime old) (starttime new)); [| lia].
  rewrite (endtime_nonempty old Ho), (endtime_nonempty new Hn) in *.
  pose proof (npts_nonneg new).
  destruct (Z.ltb_spec (starttime new - (starttime old + npts old - 1) - 1) 0);
    [| lia].
  destruct (Z.ltb_spec (starttime old + npts old - 1
                        - (starttime new + npts new - 1)) 0); [lia |].
  simpl. by destruct old.
Qed.

Lemma stream_merge_pair_swapped old new :
  npts old ≠ 0 → npts new ≠ 0 → sampling_rate new = sampling_rate old →
  trace_leb old new = false →
  stream_merge [old; new] = Ok [trace_add new old].
Proof.
  intros Ho Hn Hsr Hle. unfold stream_merge.
  rewrite merge_checks_pair by done. simpl. rewrite Hle.
  by rewrite !filter_cons_True, filter_nil by done.
Qed.

(** Two blocks that start together: the longer one is sorted last and
    replaces the shorter one altogether. *)
Lemma trace_add_same_start old new :
  npts old ≠ 0 → npts new ≠ 0 →
  starttime new = starttime old → endtime new < endtime old →
  starttime (trace_add new old) = starttime old
  ∧ data (trace_add new old) = data old.
Proof.
  intros Ho Hn Hs He. unfold trace_add.
  destruct (Z.leb_spec (starttime new) (starttime old)); [| lia].
  rewrite (endtime_nonempty old Ho), (endtime_nonempty new Hn) in *.
  pose proof (npts_nonneg new).
  destruct (Z.ltb_spec (starttime old - (starttime new + npts new - 1) - 1) 0);
    [| lia].
  destruct (Z.ltb_spec (starttime new + npts new - 1
                        - (starttime old + npts old - 1)) 0); [| lia].
  simpl. split; [done |].
  by replace (Z.to_nat (npts new
                        - Z.abs (starttime old - (starttime new + npts new - 1) - 1)))
    with 0%nat by lia.
Qed.

(** *** Traces with samples stay traces with samples *)

Lemma trace_add_nonempty (a b : Trace R) :
  npts a ≠ 0 → npts b ≠ 0 → npts (trace_add a b) ≠ 0.
Proof.
  intros Ha Hb. unfold trace_add.
  destruct (starttime a <=? starttime b); repeat case_match;
    unfold npts in *; simpl; rewrite ?length_app; lia.
Qed.

Lemma foldl_trace_add_nonempty (cur : Trace R) (rest : Stream R) :
  npts cur ≠ 0 → Forall (λ tr, npts tr ≠ 0) rest →
  npts (foldl trace_add cur rest) ≠ 0.
Proof.
  revert cur. induction rest as [| x rest IH]; intros cur Hc Hall; [done |].
  apply Forall_cons_1 in Hall as [Hx Hall]. simpl.
  apply IH; [by apply trace_add_nonempty | done].
Qed.

Lemma filter_nonempty (s : Stream R) :
  Forall (λ tr, npts tr ≠ 0) (filter (λ tr : Trace R, npts tr ≠ 0) s).
Proof. apply list.Forall_forall. by intros x [? _]%list_elem_of_filter. Qed.

Lemma stream_merge_nonempty (s merged : Stream R) :
  stream_merge s = Ok merged → Forall (λ tr, npts tr ≠ 0) merged.
Proof.
  unfold stream_merge. destruct (merge_checks None s); [| done].
  pose proof (filter_nonempty (sort_traces s)) as Hall.
  destruct (filter _ (sort_traces s)) as [| cur rest]; intros [= <-]; [done |].
  apply Forall_cons_1 in Hall as [Hc Hall].
  apply Forall_singleton. by apply foldl_trace_add_nonempty.
Qed.

Lemma elem_of_insert_trace (x tr : Trace R) (s : Stream R) :
  x ∈ insert_trace tr s ↔ x = tr ∨ x ∈ s.
Proof.
  induction s as [| y s IH]; simpl.
  - rewrite list_elem_of_singleton, elem_of_nil. tauto.
  - destruct (trace_leb tr y).
    + by rewrite elem_of_cons.
    + rewrite !elem_of_cons, IH. tauto.
Qed.

Lemma elem_of_sort_traces (x : Trace R) (s : Stream R) :
  x ∈ sort_traces s ↔ x ∈ s.
Proof.
  induction s as [| y s IH]; [done |].
  unfold sort_traces in *. simpl. by rewrite elem_of_insert_trace, IH, elem_of_cons.
Qed.

(** A block with samples is never merged away. *)
Lemma stream_merge_keeps_block (buffer merged : Stream R) (d : Trace R) :
  npts d ≠ 0 → stream_merge (buffer ++ [d]) = Ok merged → merged ≠ [].
Proof.
  intros Hd. unfold stream_merge. destruct (merge_checks None _); [| done].
  assert (d ∈ filter (λ tr : Trace R, npts tr ≠ 0) (sort_traces (buffer ++ [d])))
    as Hin.
  { apply list_elem_of_filter. split; [done |].
    apply elem_of_sort_traces, elem_of_app. right. by apply list_elem_of_singleton. }
  destruct (filter _ _) as [| cur rest]; [by apply elem_of_nil in Hin |].
  by intros [= <-].
Qed.

Lemma stream_merge_single (tr : Trace R) :
  npts tr ≠ 0 → stream_merge [tr] = Ok [tr].
Proof.
  intros Hn. unfold stream_merge. simpl.
  destruct (Z.eqb_spec (npts tr) 0); [done |].
  by rewrite filter_cons_True, filter_nil by done.
Qed.

(** C3 (amended): a newly appended block that starts no earlier than the
    buffer is merged into one trace that keeps the buffer's time origin.
    When the block ends after the buffer, the merged buffer holds the newer
    block's values at every instant the block covers (so an overlap with
    the tail of the buffer resolves in favour of the newer block), holds the
    buffer's values before the block, and fills the gap between the two,
    whatever its length, by linear interpolation between the last buffered
    sample and the first new one.  When the block lies within the span of
    the buffer it is discarded: the merged buffer holds the buffer's
    samples. *)
Theorem merge_newer_block old new :
  npts old ≠ 0 → npts new ≠ 0 →
  sampling_rate new = sampling_rate old →
  starttime old ≤ starttime new →
  ∃ merged,
    stream_merge [old; new] = Ok [merged]
    ∧ starttime merged = starttime old
    ∧ (endtime old < endtime new →
       ∀ i, sample_at merged i =
         if decide (starttime new ≤ i) then sample_at new i
         else if decide (i ≤ endtime old) then sample_at old i
         else Some (interpolate (last_sample old) (first_sample new)
                      (starttime new - endtime old - 1) (i - endtime old)))
    ∧ (endtime new ≤ endtime old → data merged = data old).
Proof.
  intros Ho Hn Hsr Hs.
  destruct (trace_leb old new) eqn:Hle.
  - exists (trace_add old new). split_and!.
    + by apply stream_merge_pair.
    + by apply trace_add_start.
    + intros He i. by apply trace_add_tail_sample.
    + intros He. by rewrite trace_add_contained.
  - assert (starttime new = starttime old ∧ endtime new < endtime old)
      as [Hs' He'].
    { unfold trace_leb in Hle.
      destruct (Z.ltb_spec (starttime old) (starttime new)); [done |].
      destruct (Z.eqb_spec (starttime old) (starttime new)); [| lia].
      destruct (Z.leb_spec (endtime old) (endtime new)); [done | lia]. }
    destruct (trace_add_same_start old new Ho Hn Hs' He') as [Hstart Hdata].
    exists (trace_add new old). split_and!.
    + by apply stream_merge_pair_swapped.
    + done.
    + intros He. lia.
    + done.
Qed.

End MergeFacts.

(** ** Running statements *)

Section PostRules.
Context {St : Type}.

Lemma post_ret {A} (a : A) (s : St) Q : Q (Ok a) s [] → post (mret a) s Q.
Proof. done. Qed.

Lemma post_get (s : St) Q : Q (Ok s) s [] → post get s Q.
Proof. done. Qed.

Lemma post_gets {A} (f : St → A) (s : St) Q : Q (Ok (f s)) s [] → post (gets f) s Q.
Proof. done. Qed.

Lemma post_modify (f : St → St) (s : St) Q : Q (Ok ()) (f s) [] → post (modify f) s Q.
Proof. done. Qed.

Lemma post_emit ev (s : St) Q : Q (Ok ()) s [ev] → post (emit ev) s Q.
Proof. done. Qed.

Lemma post_raise {A} e (s : St) (Q : Result A → St → list Event → Prop) :
  Q (Raise e) s [] → post (raise e) s Q.
Proof. done. Qed.

Lemma post_lift {A} (r : Result A) (s : St) Q : Q r s [] → post (lift r) s Q.
Proof. by destruct r. Qed.

Lemma post_getitem {V} (d : St → gmap string V) k (s : St) Q :
  match d s !! k with
  | Some v => Q (Ok v) s []
  | None => Q (Raise (KeyError k)) s []
  end →
  post (getitem d k) s Q.
Proof. unfold post, getitem. by destruct (d s !! k). Qed.

Lemma post_bind {A B} (m : Exec St A) (f : A → Exec St B) (s : St) Q :
  post m s (λ r s' l,
    match r with
    | Ok a => post (f a) s' (λ r' s'' l', Q r' s'' (l ++ l'))
    | Raise e => Q (Raise e) s' l
    end) →
  post (m ≫= f) s Q.
Proof.
  unfold post, mbind, Exec_bind, result_of, final_state, events_of.
  destruct (m s) as [[[a | e] s'] l]; simpl; [| done].
  by destruct (f a s') as [[r s''] l'].
Qed.

Lemma post_try_except {A} (body : Exec St A) (handler : Exn → Exec St A)
    (s : St) Q :
  post body s (λ r s' l,
    match r with
    | Ok a => Q (Ok a) s' l
    | Raise e => post (handler e) s' (λ r' s'' l', Q r' s'' (l ++ l'))
    end) →
  post (try_except body handler) s Q.
Proof.
  unfold post, try_except, result_of, final_state, events_of.
  destruct (body s) as [[[a | e] s'] l]; simpl; [done |].
  by destruct (handler e s') as [[r s''] l'].
Qed.

Lemma post_mono {A} (m : Exec St A) (s : St) (Q Q' : Result A → St → list Event → Prop) :
  (∀ r s' l, Q r s' l → Q' r s' l) → post m s Q → post m s Q'.
Proof. unfold post. auto. Qed.

End PostRules.

(** One step of symbolic execution: the statement at the head of the
    goal is run; a call that may raise splits the goal in two. *)
Ltac run_step :=
  lazymatch goal with
  | |- post (mbind _ _) _ _ => apply post_bind
  | |- post (mret _) _ _ => apply post_ret
  | |- post get _ _ => apply post_get
  | |- post (gets _) _ _ => apply post_gets
  | |- post (modify _) _ _ => apply post_modify
  | |- post (emit _) _ _ => apply post_emit
  | |- post (raise _) _ _ => apply post_raise
  | |- post (try_except _ _) _ _ => apply post_try_except
  | |- post (getitem _ _) _ _ =>
      apply post_getitem;
      lazymatch goal with
      | |- match ?o with _ => _ end => let E := fresh "Hget" in destruct o eqn:E
      end
  | |- post (lift ?r) _ _ =>
      apply post_lift; let E := fresh "Hcall" in destruct r eqn:E
  | |- post (if ?b then _ else _) _ _ =>
      let E := fresh "Hif" in destruct b eqn:E
  | |- post (match ?o with _ => _ end) _ _ =>
      let E := fresh "Hmatch" in destruct o eqn:E
  end.

Ltac run := repeat (run_step; cbn beta iota).

(** ** Peak metrics *)

Section NumericFacts.
Context {R : Type} {AR : Arith R}.
Implicit Types (v x : list R) (dx : R).










End NumericFacts.

(** ** The sub-window of the metrics *)

Section SliceFacts.
Context {R : Type} {AR : Arith R}.
Implicit Types (tr : Trace R).

(** Two traces with the same header and the same sample at every grid
    index are the same trace. *)
Lemma trace_ext tr tr' :
  network tr = network tr' → station tr = station tr' →
  location tr = location tr' → channel tr = channel tr' →
  sampling_rate tr = sampling_rate tr' → starttime tr = starttime tr' →
  (∀ i, sample_at tr i = sample_at tr' i) →
  tr = tr'.
Proof.
  destruct tr as [n s l c r t d], tr' as [n' s' l' c' r' t' d'].
  simpl. intros -> -> -> -> -> -> Hs. f_equal.
  apply list_eq. intros k. specialize (Hs (t' + Z.of_nat k)).
  unfold sample_at in Hs. simpl in Hs.
  rewrite !decide_True in Hs by lia.
  replace (Z.to_nat (t' + Z.of_nat k - t')) with k in Hs by lia. done.
Qed.

Lemma trace_ltrim_header t pad tr :
  network (trace_ltrim t pad tr) = network tr
  ∧ station (trace_ltrim t pad tr) = station tr
  ∧ location (trace_ltrim t pad tr) = location tr
  ∧ channel (trace_ltrim t pad tr) = channel tr.
Proof. unfold trace_ltrim. repeat case_match; done. Qed.

Lemma trace_rtrim_header t pad tr :
  network (trace_rtrim t pad tr) = network tr
  ∧ station (trace_rtrim t pad tr) = station tr
  ∧ location (trace_rtrim t pad tr) = location tr
  ∧ channel (trace_rtrim t pad tr) = channel tr.
Proof. unfold trace_rtrim. repeat case_match; done. Qed.

Lemma cut_header a b tr :
  network (cut a b tr) = network tr
  ∧ station (cut a b tr) = station tr
  ∧ location (cut a b tr) = location tr
  ∧ channel (cut a b tr) = channel tr.
Proof.
  unfold cut.
  destruct (trace_rtrim_header b true (trace_ltrim a true tr)) as (-> & -> & -> & ->).
  apply trace_ltrim_header.
Qed.

(** The last ten seconds of the window are the window of the last ten
    seconds (of the whole window, when it is shorter). *)
Lemma slice_of_cut t W tr :
  0 ≤ W →
  trace_slice (t - 10) t (cut (t - W) t tr) = Ok (cut (t - Z.min 10 W) t tr).
Proof.
  intros HW. unfold trace_slice, trace_trim.
  destruct (Z.ltb_spec t (t - 10)); [lia |]. f_equal.
  set (c := cut (t - W) t tr).
  assert (starttime c = grid tr (t - W)) as Hs by (apply cut_start; lia).
  assert (npts c = grid tr t - grid tr (t - W) + 1) as Hn by (apply cut_npts; lia).
  assert (∀ u, grid c u = grid tr u) as Hg
    by (intros u; unfold grid, c; by rewrite cut_rate).
  destruct (Z.le_gt_cases W 10) as [Hle | Hgt].
  - rewrite Z.min_r by done.
    assert (trace_ltrim (t - 10) false c = c) as ->.
    { unfold trace_ltrim. rewrite Hg, Hs. unfold grid.
      destruct (Z.eqb_spec ((t - 10) * Z.pos (sampling_rate tr)
                            - (t - W) * Z.pos (sampling_rate tr)) 0); [done |].
      destruct (Z.ltb_spec ((t - 10) * Z.pos (sampling_rate tr)
                            - (t - W) * Z.pos (sampling_rate tr)) 0); [done | nia]. }
    unfold trace_rtrim. rewrite Hg, Hs, Hn.
    by replace (grid tr t - grid tr (t - W) - (grid tr t - grid tr (t - W) + 1) + 1)
      with 0 by lia.
  - rewrite Z.min_l by lia.
    assert (0 < grid tr (t - 10) - grid tr (t - W)) as Hd by (unfold grid; nia).
    assert (grid tr (t - 10) ≤ grid tr t) as Hd' by (unfold grid; nia).
    assert (trace_ltrim (t - 10) false c
            = set_window c (grid tr (t - 10))
                (drop (Z.to_nat (grid tr (t - 10) - grid tr (t - W))) (data c)))
      as ->.
    { unfold trace_ltrim. rewrite Hg, Hs.
      destruct (Z.eqb_spec (grid tr (t - 10) - grid tr (t - W)) 0); [lia |].
      destruct (Z.ltb_spec (grid tr (t - 10) - grid tr (t - W)) 0); [lia |].
      destruct (Z.ltb_spec 0 (grid tr (t - 10) - grid tr (t - W))); [| lia].
      simpl. f_equal. lia. }
    unfold trace_rtrim.
    assert (grid (set_window c (grid tr (t - 10))
              (drop (Z.to_nat (grid tr (t - 10) - grid tr (t - W))) (data c))) t
            = grid tr t) as -> by (unfold grid; simpl; unfold c; by rewrite cut_rate).
    unfold npts in *. simpl. rewrite length_drop.
    replace (grid tr t - grid tr (t - 10)
             - Z.of_nat (length (data c)
                         - Z.to_nat (grid tr (t - 10) - grid tr (t - W))) + 1)
      with 0 by lia.
    simpl. destruct (cut_header (t - W) t tr) as (Hh1 & Hh2 & Hh3 & Hh4).
    destruct (cut_header (t - 10) t tr) as (Hk1 & Hk2 & Hk3 & Hk4).
    apply trace_ext; simpl.
    1-4: subst c; congruence.
    + subst c. by rewrite !cut_rate.
    + rewrite cut_start by lia. done.
    + intros i. rewrite cut_sample by lia.
      unfold sample_at at 1. simpl. case_decide.
      * rewrite lookup_drop.
        replace (Z.to_nat (grid tr (t - 10) - grid tr (t - W))
                 + Z.to_nat (i - grid tr (t - 10)))%nat
          with (Z.to_nat (i - starttime c)) by lia.
        rewrite <- sample_at_from by lia. unfold c.
        rewrite cut_sample by lia.
        repeat case_decide; try lia; done.
      * rewrite decide_False by lia. done.
Qed.

End SliceFacts.

(** ** The ingestion callback *)

Section OnDataFacts.
Context {R Inv : Type} {AR : Arith R} {EV : Env R Inv}.
Implicit Types (p : Plotter R Inv) (trace : Trace R).

Ltac subscribed_absurd :=
  match goal with
  | Hif : bool_decide (is_Some (?m !! ?k)) = true, Hget : _ !! ?k = None |- _ =>
      apply bool_decide_eq_true in Hif; simpl in Hget;
      rewrite Hget in Hif; by destruct Hif
  | Hif : bool_decide (is_Some (?m !! ?k)) = false, Hsub : is_Some (?m !! ?k) |- _ =>
      by apply bool_decide_eq_false in Hif
  end.

Ltac not_in_list H :=
  repeat (apply elem_of_cons in H as [H | H]; [discriminate H |]);
  by apply elem_of_nil in H.

Ltac stage_in :=
  first [ by intros _ | let H := fresh in intros H; not_in_list H ].

Ltac fold_detrended trace :=
  change (set_data (set_data trace (detrend_linear (data trace)))
            (detrend_demean
               (data (set_data trace (detrend_linear (data trace))))))
    with (detrended trace) in *.

Lemma trace_trim_ok a b (tr : Trace R) :
  a ≤ b → trace_trim a b true tr = Ok (cut a b tr).
Proof. intros Hab. unfold trace_trim. by destruct (Z.ltb_spec b a); [lia |]. Qed.

Lemma on_data_unsubscribed trace t1 t2 p :
  streams p !! trace_key trace = None → on_data trace t1 t2 p = (Ok (), p, []).
Proof.
  intros Hk. unfold on_data, mbind, Exec_bind, get. simpl.
  rewrite bool_decide_eq_false_2; [done |]. rewrite Hk. by intros [? ?].
Qed.

Lemma on_data_frame trace t1 t2 p :
  post (on_data trace t1 t2) p (λ r p' _,
    r = Ok ()
    ∧ same_configuration p p'
    ∧ (∀ k, k ≠ trace_key trace → streams p' !! k = streams p !! k)
    ∧ (is_Some (streams p !! trace_key trace) →
       is_Some (streams p' !! trace_key trace))
    ∧ (∀ s, s ≠ station trace →
         last_data_times p' !! s = last_data_times p !! s
         ∧ connection_status p' !! s = connection_status p !! s
         ∧ current_values p' !! s = current_values p !! s)).
Proof.
  unfold on_data, write_through, same_configuration. run.
  all: try subscribed_absurd.
  all: simpl; split_and!; try done; intros.
  all: try (rewrite ?lookup_insert_ne by done; done).
  all: try (rewrite ?lookup_insert_eq; done).
Qed.

Lemma on_data_touch trace t1 t2 p :
  is_Some (streams p !! trace_key trace) →
  post (on_data trace t1 t2) p (λ _ p' _,
    last_data_times p' = <[station trace := Some t1]> (last_data_times p)
    ∧ connection_status p' = <[station trace := true]> (connection_status p)).
Proof.
  intros Hsub. unfold on_data, write_through. run.
  all: try subscribed_absurd.
  all: done.
Qed.

Lemma on_data_stages trace t1 t2 p :
  is_Some (streams p !! trace_key trace) →
  post (on_data trace t1 t2) p (λ _ _ l,
    stages_of l `prefix_of` code_order
    ∧ (∃ rest, stages_of l = Touch :: rest)
    ∧ (printed_of l = [] → stages_of l = code_order)).
Proof.
  intros Hsub. unfold on_data, write_through. run.
  all: try subscribed_absurd.
  all: simpl; split_and!; [by eexists | by eexists | done].
Qed.

Lemma on_data_response_missing trace t1 t2 p :
  inventories p !! station trace = None →
  is_Some (streams p !! trace_key trace) →
  post (on_data trace t1 t2) p (λ r p' l,
    current_values p' = current_values p
    ∧ (MetricUpdate ∉ stages_of l)
    ∧ (∃ e, printed_of l = [ErrorProcesandoDatos (station trace) e]
         ∧ (RemoveResponse ∈ stages_of l → e = ResponseMissing (station trace))
         ∧ (∀ buffer merged,
              streams p !! trace_key trace = Some buffer →
              stream_merge (buffer ++ [detrended trace]) = Ok merged →
              0 ≤ window_seconds p →
              e = ResponseMissing (station trace)))).
Proof.
  intros Hinv Hsub. unfold on_data, write_through. run.
  all: try subscribed_absurd.
  all: try (simpl in *; congruence).
  all: fold_detrended trace; simpl in *.
  all: split_and!; [done | stage_in |].
  all: eexists; split_and!; [done | stage_in |].
  all: intros buffer merged Hb Hm HW.
  all: try done.
  all: rewrite Hb in *; simplify_eq.
  all: try match goal with
         | H : stream_trim _ _ true _ = Raise _ |- _ =>
             rewrite stream_trim_ok in H by lia; discriminate H
         end.
  all: congruence.
Qed.

Lemma values_of_set_value sta f p :
  values_of (set_value sta f p) sta = f (values_of p sta).
Proof. unfold values_of, set_value. simpl. by rewrite lookup_insert_eq. Qed.

Lemma values_of_set_value_ne sta sta' f p :
  sta ≠ sta' → values_of (set_value sta f p) sta' = values_of p sta'.
Proof. intros Hne. unfold values_of, set_value. simpl. by rewrite lookup_insert_ne. Qed.

Lemma cut_length a b (tr : Trace R) :
  a ≤ b → Z.of_nat (length (data (cut a b tr))) = grid tr b - grid tr a + 1.
Proof. intros Hab. by rewrite <- cut_npts. Qed.



End OnDataFacts.

(** ** The render tick *)

Section UpdatePlotFacts.
Context {R Inv : Type} {AR : Arith R} {EV : Env R Inv}.
Implicit Types (p : Plotter R Inv) (st : StationTuple).

Lemma spec_evaluate_idempotent timeout now l :
  spec_evaluate timeout now (spec_evaluate timeout now l)
  = spec_evaluate timeout now l.
Proof.
  destruct l as [[t |] []]; simpl; try done.
  destruct (timeout <? now - t) eqn:E; simpl; [done | by rewrite E].
Qed.

Lemma same_configuration_refl p : same_configuration p p.
Proof. by repeat split. Qed.

Lemma same_configuration_trans p q r :
  same_configuration p q → same_configuration q r → same_configuration p r.
Proof.
  unfold same_configuration.
  intros (? & ? & ? & ? & ? & ? & ?) (? & ? & ? & ? & ? & ? & ?).
  split_and!; congruence.
Qed.

Lemma liveness_evaluated p p' now sta :
  data_timeout p' = data_timeout p →
  last_data_times p' = last_data_times p →
  connection_status p' =
    (if stale p now sta then <[sta := false]> (connection_status p)
     else connection_status p) →
  ∀ s, liveness_of p' s =
       if decide (s = sta)
       then spec_evaluate (data_timeout p) now (liveness_of p s)
       else liveness_of p s.
Proof.
  intros Ht Hl Hc s. unfold liveness_of, spec_evaluate, stale in *.
  rewrite Hl, Hc. case_decide as Hs.
  - subst s. destruct (default None (last_data_times p !! sta)) as [t |].
    + destruct (data_timeout p <? now - t).
      * rewrite lookup_insert_eq. simpl.
        by destruct (default false (connection_status p !! sta)).
      * by destruct (default false (connection_status p !! sta)).
    + by destruct (default false (connection_status p !! sta)).
  - destruct (match default None (last_data_times p !! sta) with
              | Some t => _ | None => _ end); [| done].
    by rewrite lookup_insert_ne.
Qed.

Lemma values_of_create_values sta p s :
  values_of (create_values sta p) s = values_of p s.
Proof.
  unfold values_of, create_values. simpl.
  destruct (decide (s = sta)) as [-> | Hne].
  - by rewrite lookup_insert_eq.
  - by rewrite lookup_insert_ne.
Qed.

(** One turn of the render loop: the liveness of the station of the
    panel is evaluated, nothing else changes but the creation of the
    station's default metrics. *)
Lemma update_station_post now st p :
  is_Some (streams p !! key_of st) →
  is_Some (last_data_times p !! sta_of st) →
  is_Some (connection_status p !! sta_of st) →
  post (update_station now st) p (λ r p' l,
    (∃ panel, r = Ok panel)
    ∧ l = []
    ∧ same_configuration p p'
    ∧ streams p' = streams p
    ∧ last_data_times p' = last_data_times p
    ∧ (∀ s, values_of p' s = values_of p s)
    ∧ connection_status p' =
        (if stale p now (sta_of st)
         then <[sta_of st := false]> (connection_status p)
         else connection_status p)).
Proof.
  destruct st as [[[net sta] loc] cha]. unfold key_of, sta_of, stale. simpl.
  intros [b Hb] [last Hl] [status Hs].
  unfold update_station. run.
  all: cbn [streams last_data_times connection_status with_connection_status
            create_values with_current_values] in *.
  all: try (rewrite ?lookup_insert_eq in *; congruence).
  all: simplify_eq; simpl default; rewrite ?Hif.
  all: split_and!; try done; try (by eexists).
  all: try (rewrite ?Hif; done).
  all: intros s; rewrite values_of_create_values; done.
Qed.

Lemma for_each_update_station now (l : list StationTuple) p :
  (∀ st, st ∈ l →
     is_Some (streams p !! key_of st)
     ∧ is_Some (last_data_times p !! sta_of st)
     ∧ is_Some (connection_status p !! sta_of st)) →
  post (for_each (update_station now) l) p (λ r p' out,
    (∃ panels, r = Ok panels ∧ length panels = length l)
    ∧ out = []
    ∧ same_configuration p p'
    ∧ streams p' = streams p
    ∧ last_data_times p' = last_data_times p
    ∧ (∀ s, values_of p' s = values_of p s)
    ∧ (∀ s, is_Some (connection_status p !! s) →
            is_Some (connection_status p' !! s))
    ∧ (∀ s, liveness_of p' s =
            if decide (s ∈ sta_of <$> l)
            then spec_evaluate (data_timeout p) now (liveness_of p s)
            else liveness_of p s)).
Proof.
  revert p. induction l as [| st l IH]; intros p Hwf.
  { simpl. apply post_ret.
    split_and!; try done; try (by exists []); apply same_configuration_refl. }
  simpl for_each. apply post_bind.
  destruct (Hwf st) as (Hk & Hl & Hc); [by left |].
  eapply post_mono; [| by apply update_station_post].
  intros r p1 out1 ([panel ->] & -> & Hcfg1 & Hs1 & Hl1 & Hv1 & Hc1).
  pose proof (liveness_evaluated p p1 now (sta_of st)) as Hlive1.
  destruct Hcfg1 as (? & ? & ? & ? & ? & Ht1 & ?).
  specialize (Hlive1 Ht1 Hl1 Hc1).
  assert (∀ s, is_Some (connection_status p !! s) →
               is_Some (connection_status p1 !! s)) as Hdom1.
  { intros s Hs. rewrite Hc1. destruct (stale p now (sta_of st)); [| done].
    destruct (decide (s = sta_of st)) as [-> | Hne].
    - rewrite lookup_insert_eq. by eexists.
    - by rewrite lookup_insert_ne. }
  apply post_bind. eapply post_mono; [| apply IH].
  - intros r p2 out2 ([panels [-> Hlen]] & -> & Hcfg2 & Hs2 & Hl2 & Hv2 & Hdom2 & Hlive2).
    apply post_ret. split_and!.
    + exists (panel :: panels). simpl. by rewrite Hlen.
    + done.
    + eapply same_configuration_trans; [| done]. by repeat split.
    + congruence.
    + congruence.
    + intros s. by rewrite Hv2, Hv1.
    + intros s Hs. by apply Hdom2, Hdom1.
    + intros s. rewrite Hlive2, Hlive1, Ht1. rewrite fmap_cons.
      destruct (decide (s = sta_of st)) as [-> | Hne].
      * rewrite (decide_True (P := _ ∈ _ :: _)) by by left.
        case_decide; [apply spec_evaluate_idempotent | done].
      * destruct (decide (s ∈ sta_of <$> l)) as [Hin | Hnin].
        -- by rewrite decide_True by by right.
        -- rewrite decide_False; [done |].
           intros [? | ?]%elem_of_cons; done.
  - intros st' Hin. destruct (Hwf st') as (Hk' & Hl' & Hc'); [by right |].
    split_and!.
    + by rewrite Hs1.
    + by rewrite Hl1.
    + by apply Hdom1.
Qed.

Lemma update_plot_post now p :
  Plotter_wf p →
  post (update_plot now) p (λ r p' out,
    (∃ panels, r = Ok panels ∧ length panels = length (stations p))
    ∧ out = []
    ∧ same_configuration p p'
    ∧ streams p' = streams p
    ∧ last_data_times p' = last_data_times p
    ∧ (∀ s, values_of p' s = values_of p s)
    ∧ (∀ s, is_Some (connection_status p !! s) →
            is_Some (connection_status p' !! s))
    ∧ (∀ s, liveness_of p' s =
            if decide (s ∈ sta_of <$> stations p)
            then spec_evaluate (data_timeout p) now (liveness_of p s)
            else liveness_of p s)).
Proof.
  intros Hwf. unfold update_plot. apply post_bind, post_get. cbn beta iota.
  eapply post_mono; [| by apply for_each_update_station].
  intros r p' out H. by rewrite app_nil_l.
Qed.

End UpdatePlotFacts.

(** ** Construction *)

Section InitFacts.
Context {R Inv : Type} {AR : Arith R} {EV : Env R Inv}.
Implicit Types (p : Plotter R Inv) (st : StationTuple).

Lemma lookup_constant_map {V} (f : StationTuple → string) (v : V)
    (l : list StationTuple) st :
  st ∈ l →
  list_to_map (M := gmap string V) ((λ x, (f x, v)) <$> l) !! f st = Some v.
Proof.
  intros Hin. apply elem_of_list_to_map_1'.
  - intros y (x & [= _ ->] & _)%list_elem_of_fmap. done.
  - apply list_elem_of_fmap. by exists st.
Qed.

Lemma lookup_constant_map_None {V} (f : StationTuple → string) (v : V)
    (l : list StationTuple) k :
  k ∉ f <$> l →
  list_to_map (M := gmap string V) ((λ x, (f x, v)) <$> l) !! k = None.
Proof.
  intros Hin. apply not_elem_of_list_to_map_1.
  by rewrite <- list_fmap_compose.
Qed.

(** What the loop of [load_inventories] leaves in the dictionary, and
    that every station it could not load was reported. *)
Lemma load_inventories_spec (self : Plotter R Inv) :
  stationxml_paths self = inventory_table →
  (∀ sta, (load_inventories self).1 !! sta =
          if decide (sta ∈ sta_of <$> stations self) then loadable sta else None)
  ∧ (∀ sta, sta ∈ sta_of <$> stations self → loadable (Inv:=Inv) sta = None →
            ∃ m, m ∈ (load_inventories self).2
                 ∧ ((∃ path, m = StationXMLNoEncontrado sta path)
                    ∨ (∃ e, m = ErrorCargandoStationXML sta e))).
Proof.
  intros Hpaths. unfold load_inventories. rewrite Hpaths.
  set (X := list_to_set (sta_of <$> stations self) : gset string).
  assert (∀ sta, sta ∈ sta_of <$> stations self ↔ sta ∈ X) as HX
    by (intros sta; unfold X; by rewrite elem_of_list_to_set).
  cut ((∀ sta, (set_fold (load_station inventory_table) (∅, []) X).1 !! sta =
               if decide (sta ∈ X) then loadable sta else None)
       ∧ (∀ sta, sta ∈ X → loadable (Inv:=Inv) sta = None →
            ∃ m, m ∈ (set_fold (load_station inventory_table) (∅, []) X).2
                 ∧ ((∃ path, m = StationXMLNoEncontrado sta path)
                    ∨ (∃ e, m = ErrorCargandoStationXML sta e)))).
  { intros [H1 H2]. split.
    - intros sta. rewrite H1. destruct (decide (sta ∈ X)) as [Hin | Hnin].
      + by rewrite decide_True by by apply HX.
      + by rewrite decide_False by by rewrite HX.
    - intros sta Hin. apply H2. by apply HX. }
  clearbody X. clear HX.
  pose (P := λ (acc : gmap string Inv * list Message) (Y : gset string),
       (∀ sta, acc.1 !! sta = if decide (sta ∈ Y) then loadable sta else None)
       ∧ (∀ sta, sta ∈ Y → loadable (Inv:=Inv) sta = None →
            ∃ m, m ∈ acc.2
                 ∧ ((∃ path, m = StationXMLNoEncontrado sta path)
                    ∨ (∃ e, m = ErrorCargandoStationXML sta e)))).
  change (P (set_fold (load_station inventory_table) (∅, []) X) X).
  apply (set_fold_ind_L P); unfold P; clear P.
  - split; [intros sta; by rewrite decide_False by set_solver | set_solver].
  - intros x Y [inv out] Hx [IH1 IH2]. simpl in IH1, IH2.
    assert (∀ sta, sta ∈ ({[x]} ∪ Y : gset string) ↔ sta = x ∨ sta ∈ Y) as Hmem
      by (intros sta; set_solver).
    unfold load_station, loadable in *. simpl.
    destruct (inventory_table !! x) as [file |] eqn:Ex.
    + destruct (negb (bool_decide (file = String.EmptyString)) && path_exists file) eqn:Ec.
      * destruct (read_inventory file) as [i | e] eqn:Er; simpl.
        -- split.
           ++ intros sta. destruct (decide (sta = x)) as [-> | Hne].
              ** rewrite lookup_insert_eq, decide_True by (apply Hmem; by left).
                 by rewrite Ex, Ec, Er.
              ** rewrite lookup_insert_ne, IH1 by done.
                 repeat case_decide; try done; rewrite Hmem in *; tauto.
           ++ intros sta [-> | Hin]%Hmem Hnone.
              ** by rewrite Ex, Ec, Er in Hnone.
              ** by apply IH2.
        -- split.
           ++ intros sta. rewrite IH1. destruct (decide (sta = x)) as [-> | Hne].
              ** rewrite decide_False, decide_True by (try apply Hmem; auto).
                 by rewrite Ex, Ec, Er.
              ** repeat case_decide; try done; rewrite Hmem in *; tauto.
           ++ intros sta [-> | Hin]%Hmem Hnone.
              ** exists (ErrorCargandoStationXML x e). split; [| eauto].
                 apply elem_of_app. right. by apply list_elem_of_singleton.
              ** destruct (IH2 sta Hin Hnone) as (m & Hm & Hk).
                 exists m. split; [| done]. apply elem_of_app. by left.
      * simpl. split.
        -- intros sta. rewrite IH1. destruct (decide (sta = x)) as [-> | Hne].
           ** rewrite decide_False, decide_True by (try apply Hmem; auto).
              by rewrite Ex, Ec.
           ** repeat case_decide; try done; rewrite Hmem in *; tauto.
        -- intros sta [-> | Hin]%Hmem Hnone.
           ** exists (StationXMLNoEncontrado x (Some file)). split; [| eauto].
              apply elem_of_app. right. by apply list_elem_of_singleton.
           ** destruct (IH2 sta Hin Hnone) as (m & Hm & Hk).
              exists m. split; [| done]. apply elem_of_app. by left.
    + simpl. split.
      * intros sta. rewrite IH1. destruct (decide (sta = x)) as [-> | Hne].
        -- rewrite decide_False, decide_True by (try apply Hmem; auto).
           by rewrite Ex.
        -- repeat case_decide; try done; rewrite Hmem in *; tauto.
      * intros sta [-> | Hin]%Hmem Hnone.
        -- exists (StationXMLNoEncontrado x None). split; [| eauto].
           apply elem_of_app. right. by apply list_elem_of_singleton.
        -- destruct (IH2 sta Hin Hnone) as (m & Hm & Hk).
           exists m. split; [| done]. apply elem_of_app. by left.
Qed.

End InitFacts.

(** ** Runs of the session *)

Section SessionFacts.
Context {R Inv : Type} {AR : Arith R} {EV : Env R Inv}.
Implicit Types (p : Plotter R Inv) (st : StationTuple) (trace : Trace R).

Ltac subscribed_absurd :=
  match goal with
  | Hif : bool_decide (is_Some (?m !! ?k)) = true, Hget : _ !! ?k = None |- _ =>
      apply bool_decide_eq_true in Hif; simpl in Hget;
      rewrite Hget in Hif; by destruct Hif
  | Hif : bool_decide (is_Some (?m !! ?k)) = false, Hsub : is_Some (?m !! ?k) |- _ =>
      by apply bool_decide_eq_false in Hif
  end.

Ltac insert_is_Some :=
  let k := fresh "k" in
  let Hk := fresh "Hk" in
  intros k Hk;
  repeat match goal with
    | |- is_Some (<[?a := _]> _ !! ?k) =>
        destruct (decide (k = a)) as [-> | ?];
        [rewrite lookup_insert_eq; by eexists | rewrite lookup_insert_ne by done]
    end;
  done.

(** The dictionaries only gain keys. *)
Lemma on_data_domains trace t1 t2 p :
  post (on_data trace t1 t2) p (λ _ p' _,
    (∀ k, is_Some (streams p !! k) → is_Some (streams p' !! k))
    ∧ (∀ k, is_Some (last_data_times p !! k) → is_Some (last_data_times p' !! k))
    ∧ (∀ k, is_Some (connection_status p !! k) →
            is_Some (connection_status p' !! k))).
Proof.
  unfold on_data, write_through. run.
  all: try subscribed_absurd.
  all: simpl; split_and!; try done; insert_is_Some.
Qed.

Lemma on_data_wf trace t1 t2 p :
  Plotter_wf p → Plotter_wf (final_state (on_data trace t1 t2 p)).
Proof.
  intros Hwf st Hin.
  destruct (on_data_frame trace t1 t2 p) as (_ & (Hst & _) & _).
  destruct (on_data_domains trace t1 t2 p) as (Hs & Hl & Hc).
  rewrite Hst in Hin. destruct (Hwf st Hin) as (? & ? & ?). auto.
Qed.

(** A block of a station without inventory never reaches the metrics. *)
Lemma on_data_values_frozen trace t1 t2 p :
  inventories p !! station trace = None →
  post (on_data trace t1 t2) p (λ _ p' _, current_values p' = current_values p).
Proof.
  intros Hinv. unfold on_data, write_through. run.
  all: try done.
  all: simpl in *; congruence.
Qed.

Lemma update_station_frame now st p :
  post (update_station now st) p (λ _ p' _,
    same_configuration p p'
    ∧ streams p' = streams p
    ∧ last_data_times p' = last_data_times p
    ∧ (∀ s, values_of p' s = values_of p s)
    ∧ (∀ s, s ≠ sta_of st → connection_status p' !! s = connection_status p !! s)).
Proof.
  destruct st as [[[net sta] loc] cha]. unfold sta_of. simpl.
  unfold update_station. run.
  all: simpl; split_and!; try done; try apply same_configuration_refl.
  all: try (intros s; rewrite ?values_of_create_values; done).
  all: intros s Hs; by rewrite lookup_insert_ne.
Qed.

Lemma for_each_frame now (l : list StationTuple) p :
  post (for_each (update_station now) l) p (λ _ p' _,
    same_configuration p p'
    ∧ streams p' = streams p
    ∧ last_data_times p' = last_data_times p
    ∧ (∀ s, values_of p' s = values_of p s)
    ∧ (∀ s, s ∉ sta_of <$> l → connection_status p' !! s = connection_status p !! s)).
Proof.
  revert p. induction l as [| st l IH]; intros p.
  { simpl. apply post_ret.
    split_and!; try done; try apply same_configuration_refl. }
  simpl for_each. apply post_bind.
  eapply post_mono; [| apply update_station_frame].
  intros r p1 out1 (Hcfg1 & Hs1 & Hl1 & Hv1 & Hc1).
  assert (∀ s, s ∉ sta_of <$> st :: l →
               connection_status p1 !! s = connection_status p !! s) as Hc1'.
  { intros s Hs. apply Hc1. intros ->. apply Hs. rewrite fmap_cons. by left. }
  destruct r as [panel | e]; [| by split_and!].
  apply post_bind. eapply post_mono; [| apply IH].
  intros r p2 out2 (Hcfg2 & Hs2 & Hl2 & Hv2 & Hc2).
  assert (same_configuration p p2
          ∧ streams p2 = streams p
          ∧ last_data_times p2 = last_data_times p
          ∧ (∀ s, values_of p2 s = values_of p s)
          ∧ (∀ s, s ∉ sta_of <$> st :: l →
                  connection_status p2 !! s = connection_status p !! s)) as Hall.
  { split_and!.
    - by eapply same_configuration_trans.
    - congruence.
    - congruence.
    - intros s. by rewrite Hv2, Hv1.
    - intros s Hs. rewrite Hc2, Hc1'; [done | done |].
      intros Hin. apply Hs. rewrite fmap_cons. by right. }
  destruct r; [by apply post_ret | done].
Qed.

Lemma update_plot_frame now p :
  post (update_plot now) p (λ _ p' _,
    same_configuration p p'
    ∧ streams p' = streams p
    ∧ last_data_times p' = last_data_times p
    ∧ (∀ s, values_of p' s = values_of p s)
    ∧ (∀ s, s ∉ sta_of <$> stations p →
            connection_status p' !! s = connection_status p !! s)).
Proof.
  unfold update_plot. apply post_bind, post_get. cbn beta iota.
  eapply post_mono; [| apply for_each_frame]. done.
Qed.

Lemma update_plot_wf now p :
  Plotter_wf p → Plotter_wf (final_state (update_plot now p)).
Proof.
  intros Hwf st Hin.
  destruct (update_plot_post now p Hwf)
    as (_ & _ & (Hst & _) & Hs & Hl & _ & Hc & _).
  rewrite Hst in Hin. destruct (Hwf st Hin) as (? & ? & ?).
  rewrite Hs, Hl. auto.
Qed.

Lemma run_op_inventories op p : inventories (run_op op p) = inventories p.
Proof.
  destruct op as [trace t1 t2 | now]; simpl.
  - by destruct (on_data_frame trace t1 t2 p) as (_ & (_ & _ & _ & _ & _ & _ & ?) & _).
  - by destruct (update_plot_frame now p) as ((_ & _ & _ & _ & _ & _ & ?) & _).
Qed.

Lemma run_op_values_frozen op p X :
  inventories p !! X = None → values_of (run_op op p) X = values_of p X.
Proof.
  intros Hinv. destruct op as [trace t1 t2 | now]; simpl.
  - destruct (decide (station trace = X)) as [<- | Hne].
    + unfold values_of. by rewrite (on_data_values_frozen trace t1 t2 p Hinv).
    + destruct (on_data_frame trace t1 t2 p) as (_ & _ & _ & _ & Hother).
      destruct (Hother X) as (_ & _ & Hv); [done |].
      unfold values_of. by rewrite Hv.
  - by destruct (update_plot_frame now p) as (_ & _ & _ & Hv & _).
Qed.

Lemma run_ops_values_frozen ops p X :
  inventories p !! X = None →
  inventories (run_ops ops p) !! X = None
  ∧ values_of (run_ops ops p) X = values_of p X.
Proof.
  revert p. induction ops as [| op ops IH]; intros p Hinv; [done |].
  unfold run_ops. simpl. fold (run_ops ops (run_op op p)).
  destruct (IH (run_op op p)) as [Hi Hv]; [by rewrite run_op_inventories |].
  split; [done |]. by rewrite Hv, run_op_values_frozen.
Qed.

End SessionFacts.

(** ** The buffer after a block *)

Section BufferFacts.
Context {R Inv : Type} {AR : Arith R} {EV : Env R Inv}.
Implicit Types (p : Plotter R Inv) (st : StationTuple) (trace : Trace R).

Ltac subscribed_absurd :=
  match goal with
  | Hif : bool_decide (is_Some (?m !! ?k)) = true, Hget : _ !! ?k = None |- _ =>
      apply bool_decide_eq_true in Hif; simpl in Hget;
      rewrite Hget in Hif; by destruct Hif
  | Hif : bool_decide (is_Some (?m !! ?k)) = false, Hsub : is_Some (?m !! ?k) |- _ =>
      by apply bool_decide_eq_false in Hif
  end.

Ltac fold_detrended trace :=
  change (set_data (set_data trace (detrend_linear (data trace)))
            (detrend_demean
               (data (set_data trace (detrend_linear (data trace))))))
    with (detrended trace) in *.

Lemma cut_is_window now W (tr : Trace R) :
  0 ≤ W → is_window now W (cut (now - W) now tr).
Proof.
  intros HW. unfold is_window.
  rewrite cut_start, cut_end by lia. unfold grid. by rewrite cut_rate.
Qed.


End BufferFacts.

(** ** The claims *)

Section Claims.
Context {R Inv : Type} {AR : Arith R} {EV : Env R Inv}.
Implicit Types (p : Plotter R Inv) (st : StationTuple) (trace : Trace R).


(** C1: a station [X] without response metadata.  Every block of [X] on
    a subscribed stream ends in the exception handler without entering
    the metric stage; the exception is ResponseMissing as soon as the
    response stage is reached, which it is whenever the merge and the trim
    go through; [current_values] is left as it was.  Over any later run of
    packets and render ticks [X] stays without metadata and its snapshot
    stays what it was, so no value computed from raw counts is ever
    stored; and a block of [X] leaves the snapshot of every other station
    [Y] as it was. *)
Theorem response_missing_freezes_metrics p (X : string) :
  inventories p !! X = None →
  (∀ trace t_touch t_now,
     station trace = X →
     is_Some (streams p !! trace_key trace) →
     ∃ e,
       printed_of (events_of (on_data trace t_touch t_now p))
         = [ErrorProcesandoDatos X e]
       ∧ (MetricUpdate ∉ stages_of (events_of (on_data trace t_touch t_now p)))
       ∧ (RemoveResponse ∈ stages_of (events_of (on_data trace t_touch t_now p)) →
          e = ResponseMissing X)
       ∧ (∀ buffer merged,
            streams p !! trace_key trace = Some buffer →
            stream_merge (buffer ++ [detrended trace]) = Ok merged →
            0 ≤ window_seconds p →
            e = ResponseMissing X)
       ∧ current_values (final_state (on_data trace t_touch t_now p))
         = current_values p)
  ∧ (∀ ops,
       inventories (run_ops ops p) !! X = None
       ∧ values_of (run_ops ops p) X = values_of p X)
  ∧ (∀ trace t_touch t_now Y,
       station trace = X → Y ≠ X →
       values_of (final_state (on_data trace t_touch t_now p)) Y
       = values_of p Y).
Proof.
  intros Hinv. split_and!.
  - intros trace t1 t2 <- Hsub.
    destruct (on_data_response_missing trace t1 t2 p Hinv Hsub)
      as (Hcv & Hm & e & Hp & Hr & Hb).
    exists e. by split_and!.
  - intros ops. by apply run_ops_values_frozen.
  - intros trace t1 t2 Y <- Hne.
    destruct (on_data_frame trace t1 t2 p) as (_ & _ & _ & _ & Hother).
    destruct (Hother Y Hne) as (_ & _ & Hv). unfold values_of. by rewrite Hv.
Qed.

(** C2 (amended): for every subscribed stream key and every block the
    callback enters its stages in the order liveness touch, detrend,
    append, merge, trim, response correction, metric update, and stops at the
    first stage that raises: the touch always comes first and stands
    whatever happens afterwards, and a run that prints no error has gone
    through all the stages in that order. *)
Theorem on_data_stage_order p trace (t_touch t_now : Z) :
  is_Some (streams p !! trace_key trace) →
  stages_of (events_of (on_data trace t_touch t_now p)) `prefix_of` code_order
  ∧ (∃ rest, stages_of (events_of (on_data trace t_touch t_now p)) = Touch :: rest)
  ∧ (printed_of (events_of (on_data trace t_touch t_now p)) = [] →
     stages_of (events_of (on_data trace t_touch t_now p)) = code_order)
  ∧ last_data_times (final_state (on_data trace t_touch t_now p)) !! station trace
    = Some (Some t_touch)
  ∧ connection_status (final_state (on_data trace t_touch t_now p)) !! station trace
    = Some true.
Proof.
  intros Hsub.
  destruct (on_data_stages trace t_touch t_now p Hsub) as (H1 & H2 & H3).
  destruct (on_data_touch trace t_touch t_now p Hsub) as (Hl & Hc).
  split_and!; try done.
  - by rewrite Hl, lookup_insert_eq.
  - by rewrite Hc, lookup_insert_eq.
Qed.


(** C9 (amended): the per-station liveness and metric state is indexed by
    the station code alone.  Streams with the same station code are shown
    the same state after any run, whatever their networks; a block touches
    the liveness shown for every stream of its station code and leaves
    what is shown for every other station code as it was; a render turn
    for one stream leaves what is shown for every other station code as it
    was. *)
Theorem station_state_keyed_by_code p trace (t_touch t_now now : Z) st st' :
  (sta_of st' = sta_of st →
   ∀ ops, view (run_ops ops p) st' = view (run_ops ops p) st)
  ∧ (sta_of st = station trace →
     is_Some (streams p !! trace_key trace) →
     (view (final_state (on_data trace t_touch t_now p)) st).1
     = (Some (Some t_touch), Some true))
  ∧ (sta_of st ≠ station trace →
     view (final_state (on_data trace t_touch t_now p)) st = view p st)
  ∧ (sta_of st' ≠ sta_of st →
     view (final_state (update_station now st p)) st' = view p st').
Proof.
  split_and!.
  - intros Heq ops. unfold view. by rewrite Heq.
  - intros Heq Hsub.
    destruct (on_data_touch trace t_touch t_now p Hsub) as (Hl & Hc).
    unfold view. simpl. by rewrite Heq, Hl, Hc, !lookup_insert_eq.
  - intros Hne.
    destruct (on_data_frame trace t_touch t_now p) as (_ & _ & _ & _ & Hother).
    destruct (Hother (sta_of st) Hne) as (Hl & Hc & Hv).
    unfold view, values_of. by rewrite Hl, Hc, Hv.
  - intros Hne.
    destruct (update_station_frame now st p) as (_ & _ & Hl & Hv & Hc).
    unfold view. by rewrite Hl, Hv, Hc.
Qed.

(** C10: the [stationxml_paths] argument of the constructor has no
    effect: two constructions that differ in this argument only yield the
    same plotter and the same messages, hence the same inventories,
    the same session and the same state after any run; the attribute holds
    the hard-coded table. *)
Theorem stationxml_paths_ignored (selection : list StationTuple)
    (paths1 paths2 : gmap string string) (host : string) (W rate timeout : Z) :
  init (R:=R) selection paths1 host W rate timeout
  = init selection paths2 host W rate timeout
  ∧ stationxml_paths (init (R:=R) selection paths1 host W rate timeout).1
    = inventory_table
  ∧ inventories (init (R:=R) selection paths1 host W rate timeout).1
    = inventories (init (R:=R) selection paths2 host W rate timeout).1
  ∧ start (init (R:=R) selection paths1 host W rate timeout).1
    = start (init (R:=R) selection paths2 host W rate timeout).1
  ∧ ∀ ops, run_ops ops (init selection paths1 host W rate timeout).1
           = run_ops ops (init selection paths2 host W rate timeout).1.
Proof. by split_and!. Qed.

Lemma init_stations selection paths host W rate timeout :
  stations (init (R:=R) selection paths host W rate timeout).1 = selection.
Proof. done. Qed.

Lemma init_wf selection paths host W rate timeout :
  Plotter_wf (init (R:=R) selection paths host W rate timeout).1.
Proof.
  intros st Hin. unfold init in *. simpl in *. split_and!.
  - rewrite (lookup_constant_map key_of [] selection st Hin). by eexists.
  - rewrite (lookup_constant_map sta_of None selection st Hin). by eexists.
  - rewrite (lookup_constant_map sta_of false selection st Hin). by eexists.
Qed.

Lemma init_liveness selection paths host W rate timeout st :
  st ∈ selection →
  liveness_of (init (R:=R) selection paths host W rate timeout).1 (sta_of st)
  = (None, UNKNOWN).
Proof.
  intros Hin. unfold liveness_of, init. simpl.
  rewrite (lookup_constant_map sta_of None selection st Hin).
  by rewrite (lookup_constant_map sta_of false selection st Hin).
Qed.

Lemma on_data_liveness trace t1 t2 p :
  is_Some (streams p !! trace_key trace) →
  liveness_of (final_state (on_data trace t1 t2 p)) (station trace)
  = spec_touch t1.
Proof.
  intros Hsub. destruct (on_data_touch trace t1 t2 p Hsub) as (Hl & Hc).
  unfold liveness_of. by rewrite Hl, Hc, !lookup_insert_eq.
Qed.

Lemma on_data_liveness_other trace t1 t2 p s :
  s ≠ station trace →
  liveness_of (final_state (on_data trace t1 t2 p)) s = liveness_of p s.
Proof.
  intros Hne.
  destruct (on_data_frame trace t1 t2 p) as (_ & _ & _ & _ & Hother).
  destruct (Hother s Hne) as (Hl & Hc & _).
  unfold liveness_of. by rewrite Hl, Hc.
Qed.

Lemma update_plot_liveness now p s :
  Plotter_wf p → s ∈ sta_of <$> stations p →
  liveness_of (final_state (update_plot now p)) s
  = spec_evaluate (data_timeout p) now (liveness_of p s).
Proof.
  intros Hwf Hin.
  destruct (update_plot_post now p Hwf) as (_ & _ & _ & _ & _ & _ & _ & Hlive).
  by rewrite Hlive, decide_True.
Qed.

(** C5: the liveness state machine.  A constructed plotter holds every
    selected station in UNKNOWN; a block on a subscribed stream records the
    time of its arrival and forces CONNECTED, whatever the state was; a
    render tick evaluates every selected station, taking CONNECTED to STALE
    exactly when now - last_sample_time > timeout and leaving every other
    state as it is; so touch(t0) followed by evaluate(t0 + timeout + 1)
    gives STALE, followed by evaluate(t0 + timeout - 1) gives CONNECTED,
    and a touch after STALE gives CONNECTED at once.  Nothing else moves
    the liveness: a block leaves the other stations alone, a block on a
    stream that is not subscribed changes nothing, and a render tick
    neither changes the recorded times nor the state of a station that is
    not selected. *)
Theorem liveness_state_machine p trace (t0 t_now now : Z) st :
  Plotter_wf p →
  st ∈ stations p →
  sta_of st = station trace →
  is_Some (streams p !! trace_key trace) →
  (∀ selection paths host W rate timeout st0,
     st0 ∈ selection →
     liveness_of (init (R:=R) selection paths host W rate timeout).1 (sta_of st0)
     = (None, UNKNOWN))
  ∧ liveness_of (run_op (OnData trace t0 t_now) p) (station trace)
    = spec_touch t0
  ∧ (∀ s, s ∈ sta_of <$> stations p →
          liveness_of (run_op (UpdatePlot now) p) s
          = spec_evaluate (data_timeout p) now (liveness_of p s))
  ∧ (∀ s t, s ∈ sta_of <$> stations p →
            liveness_of p s = (Some t, CONNECTED) →
            liveness_of (run_op (UpdatePlot now) p) s
            = (Some t, if decide (now - t > data_timeout p)
                       then STALE else CONNECTED))
  ∧ liveness_of
      (run_ops [OnData trace t0 t_now; UpdatePlot (t0 + data_timeout p + 1)] p)
      (station trace)
    = (Some t0, STALE)
  ∧ liveness_of
      (run_ops [OnData trace t0 t_now; UpdatePlot (t0 + data_timeout p - 1)] p)
      (station trace)
    = (Some t0, CONNECTED)
  ∧ (∀ t1 t_now',
       liveness_of
         (run_ops [OnData trace t0 t_now; UpdatePlot (t0 + data_timeout p + 1);
                   OnData trace t1 t_now'] p)
         (station trace)
       = (Some t1, CONNECTED))
  ∧ (∀ s, s ≠ station trace →
          liveness_of (run_op (OnData trace t0 t_now) p) s = liveness_of p s)
  ∧ (∀ other t t', streams p !! trace_key other = None →
                   run_op (OnData other t t') p = p)
  ∧ (∀ s, s ∉ sta_of <$> stations p →
          liveness_of (run_op (UpdatePlot now) p) s = liveness_of p s)
  ∧ last_data_times (run_op (UpdatePlot now) p) = last_data_times p.
Proof.
  intros Hwf Hin Hsta Hsub.
  pose proof (on_data_wf trace t0 t_now p Hwf) as Hwf1.
  pose proof (on_data_liveness trace t0 t_now p Hsub) as Hlive1.
  destruct (on_data_frame trace t0 t_now p)
    as (_ & (Hst1 & _ & _ & _ & _ & Hto1 & _) & _ & Hsub1 & _).
  specialize (Hsub1 Hsub).
  assert (station trace ∈ sta_of <$> stations (final_state (on_data trace t0 t_now p)))
    as Hin1.
  { rewrite Hst1, <- Hsta. apply list_elem_of_fmap. by exists st. }
  assert (∀ t, liveness_of
                 (final_state (update_plot t (final_state (on_data trace t0 t_now p))))
                 (station trace)
               = spec_evaluate (data_timeout p) t (Some t0, CONNECTED)) as Heval.
  { intros t. by rewrite update_plot_liveness, Hto1, Hlive1. }
  split_and!.
  - intros. by apply init_liveness.
  - done.
  - intros s Hs. by apply update_plot_liveness.
  - intros s t Hs Hl. simpl. rewrite update_plot_liveness, Hl by done. simpl.
    destruct (Z.ltb_spec (data_timeout p) (now - t)).
    + by rewrite decide_True by lia.
    + by rewrite decide_False by lia.
  - unfold run_ops. simpl. rewrite Heval. simpl.
    by destruct (Z.ltb_spec (data_timeout p) (t0 + data_timeout p + 1 - t0)); [| lia].
  - unfold run_ops. simpl. rewrite Heval. simpl.
    by destruct (Z.ltb_spec (data_timeout p) (t0 + data_timeout p - 1 - t0)); [lia |].
  - intros t1 t_now'. unfold run_ops. simpl. apply on_data_liveness.
    destruct (update_plot_post (t0 + data_timeout p + 1) _ Hwf1)
      as (_ & _ & _ & Hs & _).
    by rewrite Hs.
  - intros s Hs. by apply on_data_liveness_other.
  - intros other t t' Hnone. simpl. by rewrite on_data_unsubscribed.
  - intros s Hs. simpl.
    destruct (update_plot_post now p Hwf) as (_ & _ & _ & _ & _ & _ & _ & Hlive).
    by rewrite Hlive, decide_False.
  - simpl. by destruct (update_plot_post now p Hwf) as (_ & _ & _ & _ & Hl & _).
Qed.

Lemma select_streams_ok host (l : list StationTuple) :
  Forall (λ st : StationTuple,
            client_select_stream host st.1.1.1 (sta_of st) st.2 = Ok ()) l →
  select_streams host l = Ok ().
Proof.
  induction l as [| [[[net sta] loc] cha] l IH]; intros Hall; [done |].
  apply Forall_cons_1 in Hall as [Hst Hall]. simpl in *.
  unfold sta_of in Hst. simpl in Hst. rewrite Hst. by apply IH.
Qed.

Lemma select_streams_raise host (l : list StationTuple) e :
  select_streams host l = Raise e →
  ∃ st, st ∈ l ∧ client_select_stream host st.1.1.1 (sta_of st) st.2 = Raise e.
Proof.
  induction l as [| [[[net sta] loc] cha] l IH]; intros Hr; [done |].
  simpl in Hr. destruct (client_select_stream host net sta cha) as [[] | e'] eqn:E.
  - destruct (IH Hr) as (st & Hin & Hst). exists st. split; [| done].
    by apply list_elem_of_further.
  - injection Hr as ->. exists (net, sta, loc, cha). split; [| done].
    apply list_elem_of_here.
Qed.

(** C6 (amended): [start] never rejects a non-empty selection and consults
    no response metadata.  It subscribes every selected stream as soon as
    the SeedLink client connects and accepts every [select_stream]; an
    exception of the client is the only way it fails.  The constructed
    plotter has a buffer and liveness entries for every selected stream,
    holds an inventory exactly for the selected stations whose file of the
    hard-coded table exists and parses, and has printed a message for every
    other selected station; every block of such a station on a subscribed
    stream, at any time of the session, ends in the exception handler
    without entering the metric stage (with ResponseMissing as soon as the
    response stage is reached) and leaves the metrics as they were.  The
    only selection that is rejected before any subscription is the empty
    one, and the monitor hands every non-empty selection over to [start]. *)
Theorem start_subscribes_selection (selection : list StationTuple)
    (paths : gmap string string) (host : string) (W rate timeout : Z) :
  selection ≠ [] →
  (∀ out, start (init (R:=R) selection paths host W rate timeout).1
          ≠ NotStarted out)
  ∧ (client_connect host = Ok () →
     Forall (λ st : StationTuple,
               client_select_stream host st.1.1.1 (sta_of st) st.2 = Ok ())
            selection →
     start (init (R:=R) selection paths host W rate timeout).1
     = Running ((λ st : StationTuple,
                   let '(net, sta, loc, cha) := st in (net, sta, cha))
                <$> selection))
  ∧ (∀ e, start (init (R:=R) selection paths host W rate timeout).1 = Failed e →
          client_connect host = Raise e
          ∨ ∃ st, st ∈ selection
                  ∧ client_select_stream host st.1.1.1 (sta_of st) st.2 = Raise e)
  ∧ Plotter_wf (init (R:=R) selection paths host W rate timeout).1
  ∧ (∀ sta, inventories (init (R:=R) selection paths host W rate timeout).1 !! sta
            = if decide (sta ∈ sta_of <$> selection) then loadable sta else None)
  ∧ (∀ sta, sta ∈ sta_of <$> selection → loadable (Inv:=Inv) sta = None →
            ∃ m, m ∈ (init (R:=R) selection paths host W rate timeout).2
                 ∧ ((∃ path, m = StationXMLNoEncontrado sta path)
                    ∨ (∃ e, m = ErrorCargandoStationXML sta e)))
  ∧ (∀ ops trace t_touch t_now,
       inventories (init (R:=R) selection paths host W rate timeout).1
         !! station trace = None →
       is_Some (streams (run_ops ops (init (R:=R) selection paths host W rate timeout).1)
                  !! trace_key trace) →
       ∃ e,
         printed_of
           (events_of
              (on_data trace t_touch t_now
                 (run_ops ops (init (R:=R) selection paths host W rate timeout).1)))
         = [ErrorProcesandoDatos (station trace) e]
         ∧ (MetricUpdate
              ∉ stages_of
                  (events_of
                     (on_data trace t_touch t_now
                        (run_ops ops
                           (init (R:=R) selection paths host W rate timeout).1))))
         ∧ (RemoveResponse
              ∈ stages_of
                  (events_of
                     (on_data trace t_touch t_now
                        (run_ops ops
                           (init (R:=R) selection paths host W rate timeout).1))) →
            e = ResponseMissing (station trace))
         ∧ current_values
             (final_state
                (on_data trace t_touch t_now
                   (run_ops ops (init (R:=R) selection paths host W rate timeout).1)))
           = current_values
               (run_ops ops (init (R:=R) selection paths host W rate timeout).1))
  ∧ start (init (R:=R) [] paths host W rate timeout).1
    = NotStarted [ErrorNoHayEstaciones]
  ∧ (∀ rows station_vars server,
       selected_stations rows station_vars ≠ [] →
       send_to_application (R:=R) rows station_vars server
       = start (init (R:=R) (selected_stations rows station_vars)
                  (required_paths (selected_stations rows station_vars))
                  server 150 500 30).1).
Proof.
  intros Hne.
  pose (self := mkPlotter (R:=R) (Inv:=Inv) selection inventory_table host W rate timeout
      (list_to_map ((λ st, (key_of st, [])) <$> selection))
      (list_to_map ((λ st, (sta_of st, None)) <$> selection))
      (list_to_map ((λ st, (sta_of st, false)) <$> selection))
      ∅ ∅).
  destruct (load_inventories_spec self eq_refl) as [Hinv Hmsg].
  assert (∀ p : Plotter R Inv, stations p = selection → seedlink_host p = host →
            start p = match client_connect host with
                      | Raise e => Failed e
                      | Ok _ =>
                          match select_streams host selection with
                          | Raise e => Failed e
                          | Ok _ =>
                              Running ((λ st : StationTuple,
                                          let '(net, sta, loc, cha) := st in
                                          (net, sta, cha)) <$> selection)
                          end
                      end) as Hstart.
  { intros p Hs Hh. unfold start. rewrite Hs, Hh. by destruct selection. }
  split_and!.
  - intros out. rewrite Hstart by done.
    destruct (client_connect host); [| done].
    by destruct (select_streams host selection).
  - intros Hc Hsel. rewrite Hstart by done.
    by rewrite Hc, (select_streams_ok _ _ Hsel).
  - intros e. rewrite Hstart by done.
    destruct (client_connect host) as [[] | e'] eqn:Hc.
    + destruct (select_streams host selection) as [[] | e''] eqn:Hsel; [done |].
      intros [= ->]. right. by apply select_streams_raise.
    + intros [= ->]. by left.
  - apply init_wf.
  - exact Hinv.
  - exact Hmsg.
  - intros ops trace t1 t2 Hnone Hsub.
    destruct (run_ops_values_frozen ops _ (station trace) Hnone) as [Hnone' _].
    destruct (on_data_response_missing trace t1 t2 _ Hnone' Hsub)
      as (Hcv & Hm & e & Hp & Hr & _).
    exists e. by split_and!.
  - done.
  - intros rows station_vars server Hsel. unfold send_to_application.
    by destruct (selected_stations rows station_vars).
Qed.

End Claims.

(** ** The library operations on small inputs *)

Example cut_pads_both_ends :
  cut 3 8 Lab.late = mkTrace "UX" "UIS09" "00" "EHZ" 1 3 [0; 0; 6; 7; 0; 0]%Q.
Proof. vm_compute. reflexivity. Qed.

Example slice_keeps_the_tail :
  trace_slice 2 3 Lab.long = Ok (mkTrace "UX" "UIS09" "00" "EHZ" 1 2 [3; 4]%Q).
Proof. vm_compute. reflexivity. Qed.

Example linspace_three : linspace_interior 1%Q 5%Q 3 = [2; 3; 4]%Q.
Proof. vm_compute. reflexivity. Qed.

Example integrate_three :
  data (integrate (mkTrace "UX" "UIS09" "00" "EHZ" 1 0 [1; 1; 3]%Q))
  = [0; 1; 3]%Q.
Proof. vm_compute. reflexivity. Qed.

Example gradient_five :
  np_gradient [0; 0; 1; 0; 0]%Q (rofZ 1) = Ok [0; 1 # 2; 0; -1 # 2; 0]%Q.
Proof. vm_compute. reflexivity. Qed.

Example gradient_one : np_gradient [7]%Q (rofZ 1) = Raise ValueError.
Proof. reflexivity. Qed.

Example detrend_line :
  Lab.linear [1; 3; 5; 7]%Q = [0; 0; 0; 0]%Q.
Proof. vm_compute. reflexivity. Qed.

Example required_paths_keys :
  dom (required_paths Lab.selection) = ({["I"]} : gset string).
Proof. vm_compute. reflexivity. Qed.

(** Over the rationals the interpolated points lie on the straight line
    between the two samples that bound the gap. *)
Lemma interpolate_linear (a b : Q) (n k : Z) :
  (interpolate a b n k == a + inject_Z k * ((b - a) / inject_Z (n + 1)))%Q.
Proof.
  unfold interpolate. simpl. rewrite !Qred_correct. ring.
Qed.

(** ** The claims on the laboratory instance *)



Lemma merge_newer_block_witness :
  (npts Lab.early ≠ 0 ∧ npts Lab.late ≠ 0
   ∧ sampling_rate Lab.late = sampling_rate Lab.early
   ∧ starttime Lab.early ≤ starttime Lab.late
   ∧ endtime Lab.early < endtime Lab.late)
  ∧ ∃ merged,
      stream_merge [Lab.early; Lab.late] = Ok [merged]
      ∧ starttime merged = starttime Lab.early
      ∧ ∀ i, sample_at merged i =
          if decide (starttime Lab.late ≤ i) then sample_at Lab.late i
          else if decide (i ≤ endtime Lab.early) then sample_at Lab.early i
          else Some (interpolate (last_sample Lab.early) (first_sample Lab.late)
                       (starttime Lab.late - endtime Lab.early - 1)
                       (i - endtime Lab.early)).
Proof.
  assert (npts Lab.early ≠ 0) as H1 by (vm_compute; discriminate).
  assert (npts Lab.late ≠ 0) as H2 by (vm_compute; discriminate).
  assert (sampling_rate Lab.late = sampling_rate Lab.early) as H3 by reflexivity.
  assert (starttime Lab.early ≤ starttime Lab.late) as H4 by (vm_compute; discriminate).
  assert (endtime Lab.early < endtime Lab.late) as H5 by (vm_compute; reflexivity).
  split; [by split_and! |].
  destruct (merge_newer_block Lab.early Lab.late H1 H2 H3 H4)
    as (merged & Hm & Hs & Htail & _).
  exists merged. split_and!; [exact Hm | exact Hs | exact (Htail H5)].
Defined.

Lemma merge_claim_fails :
  (¬ ∃ max_gap, merge_claim max_gap)
  ∧ stream_merge [Lab.long; Lab.inner] = Ok [Lab.long]
  ∧ stream_merge [Lab.early; Lab.late]
    = Ok [mkTrace "UX" "UIS09" "00" "EHZ" 1 0 [1; 2; 3; 4; 5; 6; 7]%Q].
Proof.
  split_and!.
  - intros [max_gap Hclaim].
    destruct (Hclaim Lab.long Lab.inner Lab.long 1) as [Hnewer _].
    + vm_compute; discriminate.
    + vm_compute; discriminate.
    + reflexivity.
    + vm_compute; discriminate.
    + vm_compute; reflexivity.
    + specialize (Hnewer 9%Q). vm_compute in Hnewer.
      assert (Some 2%Q = Some 9%Q) as Habs by (apply Hnewer; [by eexists | done]).
      discriminate Habs.
  - vm_compute; reflexivity.
  - vm_compute; reflexivity.
Qed.

Lemma response_missing_witness :
  inventories Lab.plotter_bare !! "UIS09" = None
  ∧ (∃ e,
       printed_of (events_of (on_data (EV:=Lab.env Lab.bare) Lab.block 104 104 Lab.plotter_bare))
         = [ErrorProcesandoDatos "UIS09" e]
       ∧ e = ResponseMissing "UIS09"
       ∧ current_values
           (final_state (on_data (EV:=Lab.env Lab.bare) Lab.block 104 104 Lab.plotter_bare))
         = current_values Lab.plotter_bare)
  ∧ (∀ ops, values_of (run_ops (EV:=Lab.env Lab.bare) ops Lab.plotter_bare) "UIS09"
            = values_of Lab.plotter_bare "UIS09").
Proof.
  assert (inventories Lab.plotter_bare !! "UIS09" = None) as Hinv
    by (vm_compute; reflexivity).
  destruct (response_missing_freezes_metrics (EV:=Lab.env Lab.bare) Lab.plotter_bare "UIS09" Hinv)
    as (Hblock & Hrun & _).
  split_and!.
  - exact Hinv.
  - destruct (Hblock Lab.block 104 104) as (e & Hp & _ & Hr & _ & Hcv).
    + reflexivity.
    + eexists. vm_compute. reflexivity.
    + exists e. split_and!; [exact Hp | | exact Hcv].
      apply Hr. vm_compute.
      do 5 apply list_elem_of_further. apply list_elem_of_here.
  - intros ops. apply Hrun.
Defined.

Lemma on_data_stage_order_witness :
  is_Some (streams Lab.plotter !! trace_key Lab.block)
  ∧ stages_of (events_of (on_data (EV:=Lab.env Lab.deployed) Lab.block 104 104 Lab.plotter))
    = code_order.
Proof.
  assert (is_Some (streams Lab.plotter !! trace_key Lab.block)) as Hsub
    by (eexists; vm_compute; reflexivity).
  split; [exact Hsub |].
  destruct (on_data_stage_order (EV:=Lab.env Lab.deployed) Lab.plotter Lab.block 104 104 Hsub)
    as (_ & _ & Hall & _).
  apply Hall. vm_compute. reflexivity.
Defined.

Lemma stage_order_claim_fails :
  ¬ stage_order_claim (EV:=Lab.env Lab.deployed)
  ∧ filter (λ s, s ≠ Detrend)
      (stages_of (events_of (on_data (EV:=Lab.env Lab.deployed) Lab.block 104 104 Lab.plotter)))
    = [Touch; Append; Merge; Trim; RemoveResponse; MetricUpdate]
  ∧ printed_of
      (events_of
         (on_data (EV:=Lab.env Lab.deployed) Lab.block_2hz 111 111
            (final_state (on_data (EV:=Lab.env Lab.deployed) Lab.block 104 104 Lab.plotter))))
    = [ErrorProcesandoDatos "UIS09" MergeError]
  ∧ stages_of
      (events_of
         (on_data (EV:=Lab.env Lab.deployed) Lab.block_2hz 111 111
            (final_state (on_data (EV:=Lab.env Lab.deployed) Lab.block 104 104 Lab.plotter))))
    = [Touch; Detrend; Append; Merge]
  ∧ liveness_of
      (final_state
         (on_data (EV:=Lab.env Lab.deployed) Lab.block_2hz 111 111
            (final_state (on_data (EV:=Lab.env Lab.deployed) Lab.block 104 104 Lab.plotter))))
      "UIS09"
    = (Some 111, CONNECTED).
Proof.
  split_and!.
  - intros Hclaim.
    specialize (Hclaim Lab.plotter Lab.block 104 104).
    assert (filter (λ s, s ≠ Detrend)
              (stages_of
                 (events_of (on_data (EV:=Lab.env Lab.deployed) Lab.block 104 104 Lab.plotter)))
            = spec_order) as Habs.
    { apply Hclaim; [eexists |]; vm_compute; reflexivity. }
    vm_compute in Habs. discriminate Habs.
  - vm_compute; reflexivity.
  - vm_compute; reflexivity.
  - vm_compute; reflexivity.
  - vm_compute; reflexivity.
Qed.

Lemma liveness_state_machine_witness :
  (Plotter_wf Lab.plotter
   ∧ ("UX", "UIS09", "00", "EHZ") ∈ stations Lab.plotter
   ∧ is_Some (streams Lab.plotter !! trace_key Lab.block))
  ∧ liveness_of
      (run_ops (EV:=Lab.env Lab.deployed) [OnData Lab.block 104 104; UpdatePlot 135] Lab.plotter)
      "UIS09"
    = (Some 104, STALE)
  ∧ liveness_of
      (run_ops (EV:=Lab.env Lab.deployed) [OnData Lab.block 104 104; UpdatePlot 133] Lab.plotter)
      "UIS09"
    = (Some 104, CONNECTED)
  ∧ liveness_of
      (run_ops (EV:=Lab.env Lab.deployed)
         [OnData Lab.block 104 104; UpdatePlot 135; OnData Lab.block 140 140]
         Lab.plotter)
      "UIS09"
    = (Some 140, CONNECTED).
Proof.
  assert (Plotter_wf Lab.plotter) as Hwf by apply (init_wf (EV:=Lab.env Lab.deployed)).
  assert (("UX", "UIS09", "00", "EHZ") ∈ stations Lab.plotter) as Hin
    by apply list_elem_of_here.
  assert (is_Some (streams Lab.plotter !! trace_key Lab.block)) as Hsub
    by (eexists; vm_compute; reflexivity).
  destruct (liveness_state_machine (EV:=Lab.env Lab.deployed) Lab.plotter Lab.block 104 104 0
              ("UX", "UIS09", "00", "EHZ") Hwf Hin eq_refl Hsub)
    as (_ & _ & _ & _ & Hstale & Hconn & Hback & _).
  split_and!; [done | done | done | exact Hstale | exact Hconn | apply Hback].
Defined.

Lemma start_subscribes_selection_witness :
  (Lab.selection ≠ []
   ∧ client_connect (Env:=Lab.env Lab.bare) Lab.host = Ok ()
   ∧ Forall (λ st : StationTuple,
               client_select_stream (Env:=Lab.env Lab.bare) Lab.host st.1.1.1
                 (sta_of st) st.2 = Ok ())
            Lab.selection
   ∧ inventories Lab.plotter_bare !! station Lab.block = None
   ∧ is_Some (streams (run_ops (EV:=Lab.env Lab.bare) [] Lab.plotter_bare)
                !! trace_key Lab.block))
  ∧ start (EV:=Lab.env Lab.bare)
      (init (EV:=Lab.env Lab.bare) (R:=Q) Lab.selection ∅ Lab.host 4 500 30).1
    = Running [("UX", "UIS09", "EHZ")]
  ∧ printed_of
      (events_of (on_data (EV:=Lab.env Lab.bare) Lab.block 104 104 Lab.plotter_bare))
    = [ErrorProcesandoDatos "UIS09" (ResponseMissing "UIS09")]
  ∧ current_values
      (final_state (on_data (EV:=Lab.env Lab.bare) Lab.block 104 104 Lab.plotter_bare))
    = current_values Lab.plotter_bare.
Proof.
  assert (Lab.selection ≠ []) as Hne by discriminate.
  assert (client_connect (Env:=Lab.env Lab.bare) Lab.host = Ok ()) as Hc
    by reflexivity.
  assert (Forall (λ st : StationTuple,
                    client_select_stream (Env:=Lab.env Lab.bare) Lab.host st.1.1.1
                      (sta_of st) st.2 = Ok ())
            Lab.selection) as Hsel by (by repeat constructor).
  assert (inventories Lab.plotter_bare !! station Lab.block = None) as Hnone
    by (vm_compute; reflexivity).
  assert (is_Some (streams (run_ops (EV:=Lab.env Lab.bare) [] Lab.plotter_bare)
                     !! trace_key Lab.block)) as Hsub
    by (eexists; vm_compute; reflexivity).
  split; [by split_and! |].
  destruct (start_subscribes_selection (EV:=Lab.env Lab.bare) (R:=Q) Lab.selection ∅
              Lab.host 4 500 30 Hne)
    as (_ & Hstart & _ & _ & _ & _ & Hblock & _).
  split; [exact (Hstart Hc Hsel) |].
  destruct (Hblock [] Lab.block 104 104 Hnone Hsub) as (e & Hp & _ & Hr & Hcv).
  split; [| exact Hcv].
  assert (e = ResponseMissing (station Lab.block)) as ->; [| exact Hp].
  apply Hr. vm_compute. do 5 apply list_elem_of_further. apply list_elem_of_here.
Defined.

Lemma configuration_claim_fails :
  ¬ configuration_claim (R:=Q) (EV:=Lab.env Lab.bare)
  ∧ inventories Lab.plotter_bare !! "UIS09" = None
  ∧ start (EV:=Lab.env Lab.bare) Lab.plotter_bare = Running [("UX", "UIS09", "EHZ")]
  ∧ stages_of (events_of (on_data (EV:=Lab.env Lab.bare) Lab.block 104 104 Lab.plotter_bare))
    = [Touch; Detrend; Append; Merge; Trim; RemoveResponse]
  ∧ liveness_of (final_state (on_data (EV:=Lab.env Lab.bare) Lab.block 104 104 Lab.plotter_bare))
      "UIS09"
    = (Some 104, CONNECTED)
  ∧ send_to_application (R:=Q) (EV:=Lab.env Lab.bare) [("UX", "UIS09", "EHZ")]
      {["UX.UIS09" := true]} Lab.host
    = Running [("UX", "UIS09", "EHZ")].
Proof.
  split_and!; [| vm_compute; reflexivity ..].
  - intros Hclaim.
    destruct (Hclaim Lab.selection ∅ Lab.host 4 500 30 ("UX", "UIS09", "00", "EHZ"))
      as [out Hout].
    + apply list_elem_of_here.
    + vm_compute; reflexivity.
    + vm_compute in Hout. discriminate Hout.
Qed.



Lemma station_state_keyed_by_code_witness :
  (sta_of Lab.twin_xx = station Lab.block_ux
   ∧ is_Some (streams Lab.plotter_twins !! trace_key Lab.block_ux))
  ∧ (view (final_state (on_data (EV:=Lab.env Lab.bare) Lab.block_ux 104 104 Lab.plotter_twins))
          Lab.twin_xx).1
    = (Some (Some 104), Some true).
Proof.
  assert (is_Some (streams Lab.plotter_twins !! trace_key Lab.block_ux)) as Hsub
    by (eexists; vm_compute; reflexivity).
  split; [by split |].
  destruct (station_state_keyed_by_code (EV:=Lab.env Lab.bare) Lab.plotter_twins Lab.block_ux
              104 104 0 Lab.twin_xx Lab.twin_xx) as (_ & Htouch & _).
  by apply Htouch.
Defined.

Lemma station_key_claim_fails :
  ¬ station_key_claim (EV:=Lab.env Lab.bare)
  ∧ view Lab.plotter_twins Lab.twin_xx
    = (Some None, Some false, mkMetrics 0%Q 0%Q 0%Q None)
  ∧ view (final_state (on_data (EV:=Lab.env Lab.bare) Lab.block_ux 104 104 Lab.plotter_twins))
         Lab.twin_xx
    = (Some (Some 104), Some true, mkMetrics 0%Q 0%Q 0%Q None)
  ∧ match result_of
            (update_plot 105
               (final_state (on_data (EV:=Lab.env Lab.bare) Lab.block_ux 104 104 Lab.plotter_twins)))
    with
    | Ok panels => indicator_green <$> panels
    | Raise _ => []
    end = [true; true].
Proof.
  split_and!.
  - intros Hclaim.
    specialize (Hclaim Lab.plotter_twins Lab.block_ux 104 104 Lab.twin_xx).
    assert (view (final_state (on_data (EV:=Lab.env Lab.bare) Lab.block_ux 104 104 Lab.plotter_twins))
                 Lab.twin_xx
            = view Lab.plotter_twins Lab.twin_xx) as Habs.
    { apply Hclaim. vm_compute. discriminate. }
    vm_compute in Habs. discriminate Habs.
  - vm_compute; reflexivity.
  - vm_compute; reflexivity.
  - vm_compute; reflexivity.
Qed.

(** * Further properties of the plotter and of the monitor *)

(** A branch of the symbolic execution that contradicts the
    subscription of the stream *)
Ltac not_subscribed :=
  match goal with
  | Hif : bool_decide (is_Some (?m !! ?k)) = true, Hget : _ !! ?k = None |- _ =>
      apply bool_decide_eq_true in Hif; simpl in Hget;
      rewrite Hget in Hif; by destruct Hif
  | Hif : bool_decide (is_Some (?m !! ?k)) = false, Hsub : is_Some (?m !! ?k) |- _ =>
      by apply bool_decide_eq_false in Hif
  | Hif : bool_decide (is_Some (?m !! ?k)) = false, Hb : ?m !! ?k = Some _ |- _ =>
      apply bool_decide_eq_false in Hif; rewrite Hb in Hif;
      exfalso; apply Hif; by eexists
  end.

Ltac as_detrended trace :=
  change (set_data (set_data trace (detrend_linear (data trace)))
            (detrend_demean
               (data (set_data trace (detrend_linear (data trace))))))
    with (detrended trace) in *.

(** A trim whose bounds are in order does not raise. *)
Ltac trim_cannot_raise :=
  match goal with
  | H : stream_trim _ _ true _ = Raise _ |- _ =>
      rewrite stream_trim_ok in H by lia; discriminate H
  end.

(** ** The ingestion callback: what a block can and cannot do *)

Section IngestionFacts.
Context {R Inv : Type} {AR : Arith R} {EV : Env R Inv}.
Implicit Types (p : Plotter R Inv) (st : StationTuple) (trace tr : Trace R).

Lemma on_data_messages trace t1 t2 p :
  post (on_data trace t1 t2) p (λ _ _ l,
    printed_of l = []
    ∨ ∃ e, printed_of l = [ErrorProcesandoDatos (station trace) e]).
Proof.
  unfold on_data, write_through. run.
  all: simpl; first [by left | right; by eexists].
Qed.

(** X1: the callback never lets an exception out.  Whatever the block and
    whatever the state of the plotter, it returns normally and prints at
    most one message, which names the station of the block; it leaves the
    configuration and the inventories as they were, and does not touch the
    buffer of any other stream key nor the liveness and the metrics of any
    other station code. *)
Theorem on_data_never_raises p trace (t_touch t_now : Z) :
  result_of (on_data trace t_touch t_now p) = Ok ()
  ∧ (printed_of (events_of (on_data trace t_touch t_now p)) = []
     ∨ ∃ e, printed_of (events_of (on_data trace t_touch t_now p))
            = [ErrorProcesandoDatos (station trace) e])
  ∧ same_configuration p (final_state (on_data trace t_touch t_now p))
  ∧ (∀ k, k ≠ trace_key trace →
       streams (final_state (on_data trace t_touch t_now p)) !! k = streams p !! k)
  ∧ (∀ s, s ≠ station trace →
       last_data_times (final_state (on_data trace t_touch t_now p)) !! s
         = last_data_times p !! s
       ∧ connection_status (final_state (on_data trace t_touch t_now p)) !! s
         = connection_status p !! s
       ∧ current_values (final_state (on_data trace t_touch t_now p)) !! s
         = current_values p !! s).
Proof.
  destruct (on_data_frame trace t_touch t_now p) as (Hr & Hcfg & Hk & _ & Hs).
  pose proof (on_data_messages trace t_touch t_now p) as Hm.
  split_and!; done.
Qed.

(** X3: the first block of a stream is stored response-corrected.  The
    buffer is empty, so the merged buffer holds the very trace object the
    callback goes on working with: once the response has been removed from
    the trace, the buffer shows the corrected samples, cut to the
    window. *)
Theorem first_block_is_stored_corrected p trace (t_touch t_now : Z)
    inventory corrected :
  streams p !! trace_key trace = Some [] →
  npts (detrended trace) ≠ 0 →
  0 ≤ window_seconds p →
  inventories p !! station trace = Some inventory →
  remove_response inventory
    (cut (t_now - window_seconds p) t_now (detrended trace)) = Ok corrected →
  streams (final_state (on_data trace t_touch t_now p)) !! trace_key trace
  = Some [cut (t_now - window_seconds p) t_now
            (set_data (cut (t_now - window_seconds p) t_now (detrended trace))
                      corrected)].
Proof.
  intros Hb Hn HW Hinv Hresp.
  pose proof (stream_merge_single _ Hn) as Hm.
  assert (same_object [] (detrended trace) = true) as Hshared.
  { unfold same_object. rewrite filter_nil, bool_decide_eq_true_2 by done.
    simpl. by destruct (Z.eqb_spec (npts (detrended trace)) 0). }
  assert (npts (cut (t_now - window_seconds p) t_now (detrended trace)) ≠ 0)
    as Hcut by (apply cut_nonempty; lia).
  change (post (on_data trace t_touch t_now) p (λ _ p' _,
    streams p' !! trace_key trace
    = Some [cut (t_now - window_seconds p) t_now
              (set_data (cut (t_now - window_seconds p) t_now (detrended trace))
                        corrected)])).
  unfold on_data, write_through. run.
  all: try not_subscribed.
  all: as_detrended trace; simpl in *.
  all: rewrite ?Hb in *; simplify_eq; simpl in *.
  all: rewrite ?Hm in *; simplify_eq.
  all: rewrite ?Hshared in *; simpl in *.
  all: rewrite ?trace_trim_ok in * by lia; cbn beta iota in *; simplify_eq.
  all: try trim_cannot_raise.
  all: rewrite ?Hresp in *; simplify_eq.
  all: try congruence.
  all: try (destruct (Z.eqb_spec
                        (npts (cut (t_now - window_seconds p) t_now (detrended trace)))
                        0); simpl in *; congruence).
  all: by rewrite lookup_insert_eq.
Qed.

(** X4: every later block is stored uncorrected.  When the buffer already
    holds samples (or the block holds none) the merge builds a trace of
    its own, and the buffer after the callback is the merge of the old
    buffer with the detrended block, cut to the window: the response
    removal and the metric stage, whether they go through or raise, leave
    it alone. *)
Theorem later_blocks_are_stored_uncorrected p trace (t_touch t_now : Z)
    buffer merged :
  streams p !! trace_key trace = Some buffer →
  same_object buffer (detrended trace) = false →
  stream_merge (buffer ++ [detrended trace]) = Ok merged →
  0 ≤ window_seconds p →
  streams (final_state (on_data trace t_touch t_now p)) !! trace_key trace
  = Some (cut (t_now - window_seconds p) t_now <$> merged).
Proof.
  intros Hb Hshared Hm HW.
  change (post (on_data trace t_touch t_now) p (λ _ p' _,
    streams p' !! trace_key trace
    = Some (cut (t_now - window_seconds p) t_now <$> merged))).
  unfold on_data, write_through. run.
  all: try not_subscribed.
  all: as_detrended trace; simpl in *.
  all: rewrite ?Hb in *; simplify_eq; simpl in *.
  all: rewrite ?Hm in *; simplify_eq.
  all: rewrite ?Hshared in *; simpl in *.
  all: try trim_cannot_raise.
  all: try match goal with
         | H : stream_trim _ _ true _ = Ok _ |- _ =>
             rewrite stream_trim_ok in H by lia; simplify_eq
         end.
  all: try congruence.
  all: by rewrite lookup_insert_eq.
Qed.

(** X5: the metrics are written field by field.  With a window of zero
    seconds the sub-window of a later block of a stream (one that the merge
    joins to a buffer with samples, so that the response is removed from
    the block as it arrived) holds a single sample [v]: the velocity peak
    and the displacement peak are stored, then the differentiation raises
    for want of a second sample, so the acceleration and the time of the
    last update keep their old values and the error is printed. *)
Theorem zero_window_updates_metrics_in_part p trace (t_touch t_now : Z)
    buffer merged inventory corrected :
  window_seconds p = 0 →
  streams p !! trace_key trace = Some buffer →
  same_object buffer (detrended trace) = false →
  stream_merge (buffer ++ [detrended trace]) = Ok merged →
  inventories p !! station trace = Some inventory →
  remove_response inventory (detrended trace) = Ok corrected →
  ∃ v,
    data (cut t_now t_now (set_data (detrended trace) corrected)) = [v]
    ∧ printed_of (events_of (on_data trace t_touch t_now p))
      = [ErrorProcesandoDatos (station trace) ValueError]
    ∧ stages_of (events_of (on_data trace t_touch t_now p)) = code_order
    ∧ values_of (final_state (on_data trace t_touch t_now p)) (station trace)
      = set_desp (micro (rabs rzero))
          (set_vel (micro (rabs v)) (values_of p (station trace))).
Proof.
  intros HW Hb Hshared Hm Hinv Hresp.
  remember (cut t_now t_now (set_data (detrended trace) corrected))
    as velocity eqn:Hvel.
  assert (length (data velocity) = 1%nat) as Hlen.
  { pose proof (cut_length t_now t_now (set_data (detrended trace) corrected)) as Hl.
    rewrite <- Hvel in Hl. lia. }
  destruct (data velocity) as [| v [| ? ?]] eqn:Hd; try done. clear Hlen.
  exists v. split; [done |].
  assert (trace_slice (t_now - 10) t_now velocity = Ok velocity) as Hslice.
  { rewrite Hvel.
    pose proof (slice_of_cut t_now 0 (set_data (detrended trace) corrected)) as Hs.
    rewrite Z.min_r, Z.sub_0_r in Hs by lia. apply Hs. lia. }
  assert (differentiate velocity = Raise ValueError) as Hdiff
    by (unfold differentiate; by rewrite Hd).
  assert (data (integrate velocity) = [rzero]) as Hint
    by (unfold integrate; simpl; by rewrite Hd).
  change (post (on_data trace t_touch t_now) p (λ _ p' l,
    printed_of l = [ErrorProcesandoDatos (station trace) ValueError]
    ∧ stages_of l = code_order
    ∧ values_of p' (station trace)
      = set_desp (micro (rabs rzero))
          (set_vel (micro (rabs v)) (values_of p (station trace))))).
  unfold on_data, write_through. run.
  all: try not_subscribed.
  all: as_detrended trace; simpl in *.
  all: rewrite ?Hb in *; simplify_eq.
  all: rewrite ?Hshared in *; simpl in *.
  all: rewrite ?HW, ?Z.sub_0_r in *.
  all: rewrite ?trace_trim_ok in * by lia; cbn beta iota in *.
  all: try trim_cannot_raise.
  all: rewrite ?Hresp in *; simplify_eq.
  all: rewrite ?Hslice in *; simplify_eq.
  all: rewrite ?Hdiff in *; simplify_eq.
  all: rewrite ?Hint, ?Hd in *; simpl in *; simplify_eq.
  all: try (apply Z.ltb_ge in Hif1; unfold npts in Hif1; rewrite Hd in Hif1;
            simpl in Hif1; lia).
  all: try congruence.
  all: split_and!; try done.
  all: by rewrite !values_of_set_value.
Qed.

End IngestionFacts.

(** ** The render tick over the runs of a session *)

Section TickFacts.
Context {R Inv : Type} {AR : Arith R} {EV : Env R Inv}.
Implicit Types (p : Plotter R Inv) (st : StationTuple) (trace tr : Trace R).

Lemma run_op_wf op p : Plotter_wf p → Plotter_wf (run_op op p).
Proof.
  intros Hwf. destruct op as [trace t1 t2 | now]; simpl.
  - by apply on_data_wf.
  - by apply update_plot_wf.
Qed.

Lemma run_op_stations op p : stations (run_op op p) = stations p.
Proof.
  destruct op as [trace t1 t2 | now]; simpl.
  - by destruct (on_data_frame trace t1 t2 p) as (_ & (? & _) & _).
  - by destruct (update_plot_frame now p) as ((? & _) & _).
Qed.

Lemma run_ops_wf ops p :
  Plotter_wf p →
  Plotter_wf (run_ops ops p) ∧ stations (run_ops ops p) = stations p.
Proof.
  revert p. induction ops as [| op ops IH]; intros p Hwf; [done |].
  change (run_ops (op :: ops) p) with (run_ops ops (run_op op p)).
  destruct (IH (run_op op p) (run_op_wf op p Hwf)) as [H1 H2].
  split; [done |]. by rewrite H2, run_op_stations.
Qed.

(** X6: the render tick cannot fail on a plotter that was constructed and
    then fed packets and ticks in any order: every dictionary it indexes
    has the key, so it returns one panel for each selected stream and
    prints nothing. *)
Theorem render_tick_never_fails (selection : list StationTuple)
    (paths : gmap string string) (host : string) (W rate timeout : Z)
    (ops : list Op) (now : Z) :
  ∃ panels,
    result_of (update_plot now
                 (run_ops ops (init (R:=R) selection paths host W rate timeout).1))
      = Ok panels
    ∧ length panels = length selection
    ∧ events_of (update_plot now
                   (run_ops ops (init (R:=R) selection paths host W rate timeout).1))
      = [].
Proof.
  pose proof (init_wf (R:=R) selection paths host W rate timeout) as Hwf0.
  destruct (run_ops_wf ops _ Hwf0) as [Hwf Hst].
  destruct (update_plot_post now _ Hwf) as ((panels & Hr & Hlen) & Hout & _).
  exists panels. split_and!; [done | | done].
  by rewrite Hlen, Hst.
Qed.

Lemma spec_evaluate_later timeout t1 t2 l :
  t1 ≤ t2 →
  spec_evaluate timeout t2 (spec_evaluate timeout t1 l)
  = spec_evaluate timeout t2 l.
Proof.
  intros Ht. destruct l as [[t |] []]; simpl; try done.
  destruct (Z.ltb_spec timeout (t1 - t)); simpl.
  - by destruct (Z.ltb_spec timeout (t2 - t)); [| lia].
  - done.
Qed.

(** X7: what a render tick leaves does not depend on the ticks before
    it.  A tick at [t1] followed by a tick at a later instant [t2] leaves
    every station in the liveness state, every buffer and every metric that
    the tick at [t2] alone would have left: the rate of the animation has
    no effect on the state. *)
Theorem render_ticks_compose p (t1 t2 : Z) :
  Plotter_wf p →
  t1 ≤ t2 →
  (∀ s, liveness_of (run_ops [UpdatePlot t1; UpdatePlot t2] p) s
        = liveness_of (run_ops [UpdatePlot t2] p) s)
  ∧ streams (run_ops [UpdatePlot t1; UpdatePlot t2] p)
    = streams (run_ops [UpdatePlot t2] p)
  ∧ (∀ s, values_of (run_ops [UpdatePlot t1; UpdatePlot t2] p) s
          = values_of (run_ops [UpdatePlot t2] p) s).
Proof.
  intros Hwf Ht. unfold run_ops. simpl.
  pose proof (update_plot_wf t1 p Hwf) as Hwf1.
  destruct (update_plot_post t1 p Hwf)
    as (_ & _ & (Hst1 & _ & _ & _ & _ & Hto1 & _) & Hs1 & _ & Hv1 & _ & Hl1).
  destruct (update_plot_post t2 _ Hwf1) as (_ & _ & _ & Hs12 & _ & Hv12 & _ & Hl12).
  destruct (update_plot_post t2 p Hwf) as (_ & _ & _ & Hs2 & _ & Hv2 & _ & Hl2).
  split_and!.
  - intros s. rewrite Hl12, Hl2, Hl1, Hst1, Hto1.
    case_decide; [by apply spec_evaluate_later | done].
  - congruence.
  - intros s. by rewrite Hv12, Hv1, Hv2.
Qed.

(** X8: the panel of a stream.  The indicator is green when the station
    was connected and the tick itself does not find its last packet older
    than the time-out; the waveform of the first buffered trace is drawn
    only under a green indicator; and the text names the metrics and the
    number of samples as soon as the buffer holds a trace, the state and
    the time of the last datum only while the buffer is empty. *)
Theorem panel_of_station (now : Z) st p buffer last status :
  streams p !! key_of st = Some buffer →
  last_data_times p !! sta_of st = Some last →
  connection_status p !! sta_of st = Some status →
  ∃ panel,
    result_of (update_station now st p) = Ok panel
    ∧ indicator_green panel = status && negb (stale p now (sta_of st))
    ∧ waveform panel
      = (if indicator_green panel then data <$> head buffer else None)
    ∧ panel_text panel
      = match buffer with
        | tr :: _ =>
            TextDatos (sta_of st) st.2 (vel (values_of p (sta_of st)))
              (desp (values_of p (sta_of st))) (acel (values_of p (sta_of st)))
              (npts tr)
        | [] =>
            TextEstado (indicator_green panel)
              (last_update (values_of p (sta_of st)))
        end.
Proof.
  destruct st as [[[net sta] loc] cha]. unfold key_of, sta_of, stale. simpl.
  intros Hb Hl Hs.
  change (post (update_station now (net, sta, loc, cha)) p (λ r p' _,
    ∃ panel, r = Ok panel
      ∧ indicator_green panel
        = status && negb match default None (last_data_times p !! sta) with
                         | Some t => data_timeout p <? now - t
                         | None => false
                         end
      ∧ waveform panel
        = (if indicator_green panel then data <$> head buffer else None)
      ∧ panel_text panel
        = match buffer with
          | tr :: _ =>
              TextDatos sta cha (vel (values_of p sta)) (desp (values_of p sta))
                (acel (values_of p sta)) (npts tr)
          | [] => TextEstado (indicator_green panel) (last_update (values_of p sta))
          end)).
  unfold update_station. run.
  all: cbn [streams last_data_times connection_status with_connection_status
            create_values with_current_values] in *.
  all: try (rewrite ?lookup_insert_eq in *; congruence).
  all: simplify_eq; simpl default; rewrite ?Hif.
  all: rewrite ?lookup_insert_eq in *; simplify_eq.
  all: eexists; split; [done |]; simpl.
  all: rewrite ?values_of_create_values.
  all: change (values_of (with_connection_status _ p) sta) with (values_of p sta).
  all: rewrite ?Hif, ?andb_true_r, ?andb_false_r.
  all: by destruct buffer, status.
Qed.

End TickFacts.

(** ** The waveform of a panel *)

Section DrawFacts.
Context {R Inv : Type} {AR : Arith R} {EV : Env R Inv}.
Implicit Types (p : Plotter R Inv) (st : StationTuple) (trace tr : Trace R).

Lemma stream_trim_nonempty a b pad (s s' : Stream R) :
  stream_trim a b pad s = Ok s' → Forall (λ tr, npts tr ≠ 0) s'.
Proof.
  unfold stream_trim. destruct (trim_all a b pad s); intros [= <-].
  apply filter_nonempty.
Qed.

Lemma stream_trim_bounds a b (tr : Trace R) (s s' : Stream R) :
  stream_trim a b true (tr :: s) = Ok s' → a ≤ b.
Proof.
  unfold stream_trim. simpl. unfold trace_trim.
  destruct (Z.ltb_spec b a); [intros Hr; discriminate Hr | lia].
Qed.

Lemma trace_trim_nonempty a b (x y : Trace R) :
  trace_trim a b true x = Ok y → npts y ≠ 0.
Proof.
  unfold trace_trim. destruct (Z.ltb_spec b a); intros [= <-].
  by apply cut_nonempty.
Qed.

Lemma trim_after_merge (buffer merged trimmed : Stream R) (d : Trace R) a b :
  same_object buffer d = true →
  stream_merge (buffer ++ [d]) = Ok merged →
  stream_trim a b true merged = Ok trimmed →
  a ≤ b.
Proof.
  unfold same_object. intros [_ Hd]%andb_true_iff Hm Ht.
  assert (npts d ≠ 0) as Hn by (by destruct (Z.eqb_spec (npts d) 0)).
  pose proof (stream_merge_keeps_block buffer merged d Hn Hm) as Hne.
  destruct merged as [| tr rest]; [done |].
  by apply (stream_trim_bounds a b tr rest trimmed).
Qed.

(** The callback keeps the buffers drawable, wherever it stops. *)
Lemma on_data_drawable trace t1 t2 p :
  buffers_drawable p → buffers_drawable (final_state (on_data trace t1 t2 p)).
Proof.
  intros Hinv.
  cut (post (on_data trace t1 t2) p (λ _ p' _,
         ∀ tr rest, streams p' !! trace_key trace = Some (tr :: rest) →
                    npts tr ≠ 0)).
  { intros Hkey key tr rest Hl.
    destruct (decide (key = trace_key trace)) as [-> | Hne].
    - by apply (Hkey tr rest).
    - destruct (on_data_frame trace t1 t2 p) as (_ & _ & Hother & _).
      rewrite (Hother key Hne) in Hl. by apply (Hinv key tr rest). }
  unfold on_data, write_through. run.
  all: try not_subscribed.
  all: as_detrended trace; simpl in *.
  all: try (intros tr rest Hl; exact (Hinv _ tr rest Hl)).
  all: rewrite ?lookup_insert_eq.
  all: intros tr rest [= Hl]; subst.
  all: try match goal with
         | H : trace_trim _ _ true _ = Ok ?tr |- npts ?tr ≠ 0 =>
             exact (trace_trim_nonempty _ _ _ _ H)
         end.
  all: try match goal with
         | H : stream_trim _ _ _ _ = Ok (?tr :: _) |- npts ?tr ≠ 0 =>
             apply stream_trim_nonempty in H;
             by apply Forall_cons_1 in H as [? _]
         | H : stream_merge _ = Ok (?tr :: _) |- npts ?tr ≠ 0 =>
             apply stream_merge_nonempty in H;
             by apply Forall_cons_1 in H as [? _]
         end.
  all: try match goal with
         | Hs : same_object _ _ && _ = true,
           Hm : stream_merge _ = Ok ?m,
           Ht : stream_trim _ _ true ?m = Ok _,
           Hr : trace_trim _ _ true _ = Raise _ |- _ =>
             apply andb_true_iff in Hs as [Hs _];
             pose proof (trim_after_merge _ _ _ _ _ _ Hs Hm Ht);
             rewrite trace_trim_ok in Hr by done; discriminate Hr
         end.
  match goal with
  | Hl : filter _ ?s = ?tr :: _ |- npts ?tr ≠ 0 =>
      pose proof (filter_nonempty s) as Hall; rewrite Hl in Hall;
      by apply Forall_cons_1 in Hall as [? _]
  end.
Qed.

Lemma update_plot_drawable now p :
  buffers_drawable p → buffers_drawable (final_state (update_plot now p)).
Proof.
  intros Hinv key tr rest.
  destruct (update_plot_frame now p) as (_ & -> & _). apply Hinv.
Qed.

Lemma run_ops_drawable ops p :
  buffers_drawable p → buffers_drawable (run_ops ops p).
Proof.
  revert p. induction ops as [| op ops IH]; intros p Hinv; [done |].
  change (run_ops (op :: ops) p) with (run_ops ops (run_op op p)).
  apply IH. destruct op as [trace t1 t2 | now]; simpl.
  - by apply on_data_drawable.
  - by apply update_plot_drawable.
Qed.

Lemma init_drawable selection paths host W rate timeout :
  buffers_drawable (init (R:=R) selection paths host W rate timeout).1.
Proof.
  intros key tr rest Hl. unfold init in Hl. simpl in Hl.
  by apply elem_of_list_to_map_2, list_elem_of_fmap in Hl as (st & [= _ ?] & _).
Qed.

Lemma np_linspace_length (start stop : R) n :
  length (np_linspace start stop n) = n.
Proof.
  destruct n as [| [| n]]; [done | done |].
  unfold np_linspace. rewrite length_app, length_fmap, length_seq. simpl. lia.
Qed.

(** X9: the waveform can always be drawn.  Whatever packets and ticks a
    constructed plotter has gone through, the buffer of every selected
    stream either is empty or holds samples in its first trace, so the
    maximum the dynamic scale takes is never the maximum of an empty array:
    drawing returns axes, and the line gets as many abscissae as
    samples. *)
Theorem waveform_is_always_drawable (selection : list StationTuple)
    (paths : gmap string string) (host : string) (W rate timeout : Z)
    (ops : list Op) (st : StationTuple) (status : bool) :
  st ∈ selection →
  ∃ buffer axes,
    streams (run_ops ops (init (R:=R) selection paths host W rate timeout).1)
      !! key_of st = Some buffer
    ∧ draw_waveform W status buffer = Ok axes
    ∧ length (line_x axes) = length (line_y axes).
Proof.
  intros Hin.
  pose proof (init_wf (R:=R) selection paths host W rate timeout) as Hwf0.
  pose proof (init_drawable selection paths host W rate timeout) as Hd0.
  set (p0 := (init (R:=R) selection paths host W rate timeout).1) in *.
  destruct (run_ops_wf ops p0 Hwf0) as [Hwf Hst].
  pose proof (run_ops_drawable ops p0 Hd0) as Hd.
  destruct (Hwf st) as ([buffer Hb] & _); [by rewrite Hst |].
  exists buffer. rewrite Hb.
  destruct buffer as [| tr rest].
  { eexists. by split_and!. }
  specialize (Hd _ _ _ Hb). unfold draw_waveform.
  destruct status; [| eexists; by split_and!].
  destruct (abs_max (data tr)) as [m | e] eqn:Hmax.
  - eexists. split_and!; [done | done |].
    cbn [line_x line_y]. apply np_linspace_length.
  - unfold npts in Hd. by destruct (data tr).
Qed.

End DrawFacts.

Section ScaleFacts.

Lemma Qmax_red_l (a b : Q) : (a <= Qmax_red a b)%Q.
Proof.
  unfold Qmax_red. destruct (Qle_bool a b) eqn:E.
  - by apply Qle_bool_iff.
  - apply Qle_refl.
Qed.

Lemma Qmax_red_r (a b : Q) : (b <= Qmax_red a b)%Q.
Proof.
  unfold Qmax_red. destruct (Qle_bool a b) eqn:E.
  - apply Qle_refl.
  - apply Qlt_le_weak, Qnot_le_lt. intros H%Qle_bool_iff. congruence.
Qed.

Lemma peak_bounds (a : Q) (l : list Q) :
  (a <= foldl (λ m v : Q, rmax m (rabs v)) a l)%Q
  ∧ Forall (λ v, (Qabs v <= foldl (λ m v : Q, rmax m (rabs v)) a l)%Q) l.
Proof.
  revert a. induction l as [| x l IH]; intros a; simpl.
  - split; [apply Qle_refl | constructor].
  - destruct (IH (Qmax_red a (Qred (Qabs x)))) as [H1 H2]. split.
    + eapply Qle_trans; [apply Qmax_red_l | apply H1].
    + constructor; [| done].
      eapply Qle_trans; [| apply H1].
      eapply Qle_trans; [| apply Qmax_red_r].
      rewrite Qred_correct. apply Qle_refl.
Qed.

(** X10: the dynamic scale holds the waveform.  Over the rationals,
    whatever the buffer and the state of the connection, the limits the
    tick gives the vertical axis are symmetric about zero, reach at least
    to 1, and enclose every ordinate of the line it draws. *)
Theorem dynamic_scale_contains_samples (W : Z) (status : bool)
    (buffer : Stream Q) (axes : Axes) :
  draw_waveform W status buffer = Ok axes →
  (1 <= (ylim axes).2)%Q
  ∧ ((ylim axes).1 == - (ylim axes).2)%Q
  ∧ Forall (λ v, ((ylim axes).1 <= v ∧ v <= (ylim axes).2)%Q) (line_y axes).
Proof.
  assert ((1 <= (inject_Z (-1), inject_Z 1).2)%Q
          ∧ ((inject_Z (-1), inject_Z 1).1 == - (inject_Z (-1), inject_Z 1).2)%Q
          ∧ Forall (λ v, (inject_Z (-1) <= v ∧ v <= inject_Z 1)%Q) [0%Q; 0%Q])
    as Hflat.
  { split_and!; [done | done |]. repeat constructor; done. }
  unfold draw_waveform.
  destruct buffer as [| tr rest]; [intros [= <-]; by apply Hflat |].
  destruct status; [| intros [= <-]; by apply Hflat].
  destruct (data tr) as [| a l] eqn:Hd; [done |]. simpl abs_max.
  intros [= <-]. cbn [ylim line_y fst snd].
  set (m := foldl (λ m v : Q, rmax m (rabs v)) (rabs a) l).
  set (range := rmax (rofZ 1) (rmul m (rdiv (rofZ 6) (rofZ 5)))).
  destruct (peak_bounds (rabs a) l) as [Ha Hl]. fold m in Ha, Hl.
  assert (0 <= m)%Q as Hm.
  { eapply Qle_trans; [| apply Ha]. simpl. rewrite Qred_correct. apply Qabs_nonneg. }
  assert (m <= range)%Q as Hr.
  { eapply Qle_trans; [| apply Qmax_red_r]. simpl. rewrite !Qred_correct.
    change (inject_Z 6 / inject_Z 5)%Q with (6 # 5)%Q. lra. }
  assert (1 <= range)%Q as H1 by apply Qmax_red_l.
  split_and!.
  - done.
  - simpl. rewrite Qred_correct. lra.
  - assert (∀ v, (Qabs v <= m)%Q →
                 (Qred (0 - range) <= v)%Q ∧ (v <= range)%Q) as Hin.
    { intros v Hv. rewrite Qred_correct.
      apply Qabs_Qle_condition in Hv as [Hv1 Hv2]. split; lra. }
    constructor.
    + apply Hin. eapply Qle_trans; [| apply Ha]. simpl. rewrite Qred_correct.
      apply Qle_refl.
    + eapply list.Forall_impl; [apply Hl |]. intros v Hv. by apply Hin.
Qed.

Lemma np_linspace_lookup (L : Q) (n k : nat) :
  (2 ≤ n)%nat → (k < n)%nat →
  ∃ t, np_linspace rzero L n !! k = Some t
       ∧ (t == inject_Z (Z.of_nat k) * L / inject_Z (Z.of_nat n - 1))%Q.
Proof.
  intros Hn Hk. destruct n as [| [| d]]; [lia | lia |].
  unfold np_linspace.
  assert (¬ (inject_Z (Z.of_nat (S (S d)) - 1) == 0)%Q) as Hd.
  { replace (Z.of_nat (S (S d)) - 1) with (Z.of_nat (S d)) by lia.
    intros H. unfold Qeq in H. simpl in H. lia. }
  destruct (decide (k = S d)) as [-> | Hne].
  - exists L. split.
    + rewrite lookup_app_r by (rewrite length_fmap, length_seq; lia).
      by rewrite length_fmap, length_seq, Nat.sub_diag.
    + replace (Z.of_nat (S (S d)) - 1) with (Z.of_nat (S d)) in * by lia.
      field. exact Hd.
  - eexists. split.
    + rewrite lookup_app_l by (rewrite length_fmap, length_seq; lia).
      rewrite list_lookup_fmap, lookup_seq_lt by lia. simpl. reflexivity.
    + simpl. rewrite !Qred_correct.
      replace (Z.of_nat (S (S d)) - 1) with (Z.of_nat (S d)) in * by lia.
      field. exact Hd.
Qed.

(** X11: the time axis of a panel is stretched.  Over the rationals, for
    a first trace of [n >= 2] samples at the sampling rate [sr] under a
    green indicator, the horizontal axis ends at [n / sr] and sample [k] is
    drawn at [k * (n / sr) / (n - 1)]: the last sample sits at [n / sr],
    one sample period after the [(n - 1) / sr] seconds that separate it
    from the first. *)
Theorem time_axis_is_stretched (W : Z) (tr : Trace Q) (rest : Stream Q)
    (axes : Axes) :
  draw_waveform W true (tr :: rest) = Ok axes →
  (2 ≤ length (data tr))%nat →
  ((xlim axes).2 == inject_Z (npts tr) / inject_Z (Z.pos (sampling_rate tr)))%Q
  ∧ ∀ k, (k < length (data tr))%nat →
      ∃ t, line_x axes !! k = Some t
           ∧ (t == inject_Z (Z.of_nat k)
                   * (inject_Z (npts tr) / inject_Z (Z.pos (sampling_rate tr)))
                   / (inject_Z (npts tr) - 1))%Q.
Proof.
  intros Hdraw Hlen. unfold draw_waveform in Hdraw.
  set (L := rdiv (rofZ (npts tr)) (rofZ (Z.pos (sampling_rate tr)))) in Hdraw.
  set (times := np_linspace rzero L (length (data tr))) in Hdraw.
  assert (L == inject_Z (npts tr) / inject_Z (Z.pos (sampling_rate tr)))%Q as HL
    by (unfold L; simpl; apply Qred_correct).
  assert (list.last times = Some L) as Hlast.
  { unfold times. destruct (length (data tr)) as [| [| d]]; [lia | lia |].
    unfold np_linspace. by rewrite last_snoc. }
  destruct (abs_max (data tr)) as [m | e]; [| done].
  injection Hdraw as <-. cbn [xlim line_x snd]. split.
  - rewrite Hlast. exact HL.
  - intros k Hk.
    destruct (np_linspace_lookup L (length (data tr)) k Hlen Hk) as (t & Ht & Heq).
    exists t. split; [exact Ht |].
    rewrite Heq, HL. unfold npts, Z.sub. rewrite inject_Z_plus.
    change (inject_Z (- (1))) with (- (1))%Q. unfold Qminus, Qdiv. ring.
Qed.

End ScaleFacts.

(** ** Construction *)

Section ConstructionFacts.
Context {R Inv : Type} {AR : Arith R} {EV : Env R Inv}.
Implicit Types (p : Plotter R Inv) (st : StationTuple) (trace tr : Trace R).

(** X12: a station that the hard-coded table of StationXML files does not
    name is never measured.  Whatever the files on disk and whatever paths
    the caller passes, the constructed plotter has no inventory for it, no
    run of packets and ticks gives it one, its metrics stay the defaults of
    the dictionary, and every block of it on a subscribed stream ends in
    the error message. *)
Theorem station_outside_table_never_measured (sta : string)
    (selection : list StationTuple) (paths : gmap string string) (host : string)
    (W rate timeout : Z) (ops : list Op) :
  inventory_table !! sta = None →
  inventories (run_ops ops (init (R:=R) selection paths host W rate timeout).1)
    !! sta = None
  ∧ values_of (run_ops ops (init (R:=R) selection paths host W rate timeout).1) sta
    = default_values
  ∧ ∀ trace t_touch t_now,
      station trace = sta →
      is_Some (streams (run_ops ops (init (R:=R) selection paths host W rate timeout).1)
                 !! trace_key trace) →
      ∃ e, printed_of
             (events_of
                (on_data trace t_touch t_now
                   (run_ops ops (init (R:=R) selection paths host W rate timeout).1)))
           = [ErrorProcesandoDatos sta e].
Proof.
  intros Htable.
  set (p0 := (init (R:=R) selection paths host W rate timeout).1).
  assert (inventories p0 !! sta = None) as Hinv0.
  { pose (self := mkPlotter (R:=R) (Inv:=Inv) selection inventory_table host W rate
        timeout
        (list_to_map ((λ st, (key_of st, [])) <$> selection))
        (list_to_map ((λ st, (sta_of st, None)) <$> selection))
        (list_to_map ((λ st, (sta_of st, false)) <$> selection))
        ∅ ∅).
    destruct (load_inventories_spec self eq_refl) as [Hspec _].
    change (inventories p0) with (load_inventories self).1.
    rewrite Hspec. case_decide; [| done].
    unfold loadable. by rewrite Htable. }
  destruct (run_ops_values_frozen ops p0 sta Hinv0) as [Hinv Hval].
  split_and!; [done | by rewrite Hval |].
  intros trace t1 t2 <- Hsub.
  destruct (on_data_response_missing trace t1 t2 _ Hinv Hsub)
    as (_ & _ & e & He & _).
  by exists e.
Qed.

Lemma load_inventories_count (self : Plotter R Inv) :
  dom (load_inventories self).1 ⊆ list_to_set (sta_of <$> stations self)
  ∧ (size (dom (load_inventories self).1) + length (load_inventories self).2
     = size (list_to_set (sta_of <$> stations self) : gset string))%nat.
Proof.
  unfold load_inventories.
  set (X := list_to_set (sta_of <$> stations self) : gset string).
  clearbody X.
  pose (P := λ (acc : gmap string Inv * list Message) (Y : gset string),
       dom acc.1 ⊆ Y ∧ (size (dom acc.1) + length acc.2 = size Y)%nat).
  change (P (set_fold (load_station (stationxml_paths self)) (∅, []) X) X).
  apply (set_fold_ind_L P); unfold P; clear P.
  - simpl. rewrite dom_empty_L, size_empty. done.
  - intros x Y [inv out] Hx [IH1 IH2]. simpl in IH1, IH2.
    assert (x ∉ dom inv) as Hxd by set_solver.
    rewrite size_union, size_singleton by set_solver.
    unfold load_station. simpl.
    destruct (stationxml_paths self !! x) as [file |]; simpl.
    + destruct (negb (bool_decide (file = String.EmptyString)) && path_exists file).
      * destruct (read_inventory file) as [i | e]; simpl.
        -- rewrite dom_insert_L. split; [set_solver |].
           rewrite size_union, size_singleton by set_solver. lia.
        -- rewrite length_app. simpl. split; [set_solver | lia].
      * simpl. rewrite length_app. simpl. split; [set_solver | lia].
    + rewrite length_app. simpl. split; [set_solver | lia].
Qed.

Lemma size_list_to_set_length (l : list string) :
  (size (list_to_set l : gset string) ≤ length l)%nat.
Proof.
  induction l as [| x l IH].
  - change (list_to_set [] : gset string) with (∅ : gset string).
    by rewrite size_empty.
  - change (list_to_set (x :: l) : gset string)
      with ({[x]} ∪ list_to_set l : gset string).
    simpl length. rewrite size_union_alt, size_singleton.
    pose proof (subseteq_size (list_to_set l ∖ {[x]}) (list_to_set l : gset string)) as Hs.
    assert (list_to_set l ∖ {[x]} ⊆ (list_to_set l : gset string)) as Hsub
      by apply subseteq_difference_l, reflexivity.
    specialize (Hs Hsub). lia.
Qed.

(** X13: the inventories are loaded once per station code.  Each distinct
    station code of the selection ends up either with an inventory or with
    exactly one printed message, however many streams of that station are
    selected; so there are never more messages than selected streams. *)
Theorem each_station_loaded_or_reported_once (selection : list StationTuple)
    (paths : gmap string string) (host : string) (W rate timeout : Z) :
  (size (dom (inventories (init (R:=R) selection paths host W rate timeout).1))
   + length (init (R:=R) selection paths host W rate timeout).2
   = size (list_to_set (sta_of <$> selection) : gset string))%nat
  ∧ (length (init (R:=R) selection paths host W rate timeout).2
     ≤ length selection)%nat.
Proof.
  pose (self := mkPlotter (R:=R) (Inv:=Inv) selection inventory_table host W rate
      timeout
      (list_to_map ((λ st, (key_of st, [])) <$> selection))
      (list_to_map ((λ st, (sta_of st, None)) <$> selection))
      (list_to_map ((λ st, (sta_of st, false)) <$> selection))
      ∅ ∅).
  destruct (load_inventories_count self) as [_ Hcount].
  change (inventories (init (R:=R) selection paths host W rate timeout).1)
    with (load_inventories self).1.
  change (init (R:=R) selection paths host W rate timeout).2
    with (load_inventories self).2.
  change (stations self) with selection in Hcount.
  split; [done |].
  pose proof (size_list_to_set_length (sta_of <$> selection)) as Hle.
  rewrite length_fmap in Hle. lia.
Qed.

End ConstructionFacts.

(** ** Blocks that arrive out of order *)

Section LateBlock.
Context {R : Type} {AR : Arith R}.
Implicit Types (tr old new : Trace R).

(** X14: the merge goes by the time of the samples, not by the order of
    arrival.  A block that arrives after the buffer but starts before it
    gives the merged trace its time origin; where the two overlap the
    buffer's samples are kept and the late block's are dropped, a gap
    between the late block and the buffer is interpolated, and a late block
    that reaches the end of the buffer or beyond replaces the buffer
    altogether. *)
Theorem merge_follows_time_order old new :
  npts old ≠ 0 → npts new ≠ 0 →
  sampling_rate new = sampling_rate old →
  starttime new < starttime old →
  ∃ merged,
    stream_merge [old; new] = Ok [merged]
    ∧ starttime merged = starttime new
    ∧ (endtime new < endtime old →
       ∀ i, sample_at merged i =
         if decide (starttime old ≤ i) then sample_at old i
         else if decide (i ≤ endtime new) then sample_at new i
         else Some (interpolate (last_sample new) (first_sample old)
                      (starttime old - endtime new - 1) (i - endtime new)))
    ∧ (endtime old ≤ endtime new → merged = new).
Proof.
  intros Ho Hn Hsr Hs.
  assert (trace_leb old new = false) as Hle.
  { unfold trace_leb.
    destruct (Z.ltb_spec (starttime old) (starttime new)); [lia |].
    by destruct (Z.eqb_spec (starttime old) (starttime new)); [lia |]. }
  exists (trace_add new old). split_and!.
  - by apply stream_merge_pair_swapped.
  - apply trace_add_start. lia.
  - intros He i. apply trace_add_tail_sample; done || lia.
  - intros He. apply trace_add_contained; done || lia.
Qed.

End LateBlock.

(** ** Keys *)

Section KeyFacts.

Lemma append_dot_inj (a b x y : string) :
  dotless a = true → dotless b = true →
  a +:+ "." +:+ x = b +:+ "." +:+ y → a = b ∧ x = y.
Proof.
  revert b. induction a as [| c a IH]; intros [| c' b] Ha Hb Heq.
  - by simplify_eq/=.
  - by simplify_eq/=.
  - by simplify_eq/=.
  - simpl in *. injection Heq as -> Heq.
    apply andb_true_iff in Ha as [_ Ha]. apply andb_true_iff in Hb as [_ Hb].
    by destruct (IH b Ha Hb Heq) as [-> ->].
Qed.

(** X15: the keys of the buffers tell the streams apart as long as the
    codes hold no dot: two streams whose network, station and location
    codes are free of dots have the same key only if they agree in all four
    codes. *)
Theorem stream_key_injective (net sta loc cha net' sta' loc' cha' : string) :
  dotless net = true → dotless sta = true → dotless loc = true →
  dotless net' = true → dotless sta' = true → dotless loc' = true →
  stream_key net sta loc cha = stream_key net' sta' loc' cha' →
  net = net' ∧ sta = sta' ∧ loc = loc' ∧ cha = cha'.
Proof.
  intros Hn Hs Hl Hn' Hs' Hl' Heq. unfold stream_key in Heq.
  apply append_dot_inj in Heq as [-> Heq]; [| done | done].
  apply append_dot_inj in Heq as [-> Heq]; [| done | done].
  apply append_dot_inj in Heq as [-> ->]; done.
Qed.

End KeyFacts.

(** ** The hand-over from the monitor *)

Section HandoverFacts.
Context {R Inv : Type} {AR : Arith R} {EV : Env R Inv}.
Implicit Types (p : Plotter R Inv) (st : StationTuple) (trace tr : Trace R).

Lemma elem_of_selected_stations rows (station_vars : gmap string bool) st :
  st ∈ selected_stations rows station_vars →
  ∃ net sta cha, st = (net, sta, "00", cha) ∧ (net, sta, cha) ∈ rows
    ∧ station_vars !! (net +:+ "." +:+ sta) = Some true.
Proof.
  unfold selected_stations. intros ([[net sta] cha] & Hin & Hsel)%list_elem_of_omap.
  destruct (station_vars !! _) as [[] |] eqn:E; simpl in Hsel; simplify_eq.
  by exists net, sta, cha.
Qed.

(** X16: the monitor hands every stream over with the location code
    "00".  Whatever rows are selected, each selected stream has location
    "00", so the plotter the monitor builds has no buffer for a block with
    any other location code (codes without dots): the callback drops such a
    block without touching the liveness, the buffers or the metrics. *)
Theorem monitor_subscribes_location_00 (rows : list (string * string * string))
    (station_vars : gmap string bool) (host : string) trace (t_touch t_now : Z) :
  Forall (λ row, dotless row.1.1 = true ∧ dotless row.1.2 = true) rows →
  dotless (network trace) = true → dotless (station trace) = true →
  dotless (location trace) = true →
  location trace ≠ "00" →
  let selected := selected_stations rows station_vars in
  let plotter := (init (R:=R) selected (required_paths selected) host 150 500 30).1 in
  Forall (λ st, st.1.2 = "00") selected
  ∧ on_data trace t_touch t_now plotter = (Ok (), plotter, []).
Proof.
  intros Hrows Hn Hs Hl Hloc selected plotter. split.
  - apply list.Forall_forall. intros st Hin.
    by apply elem_of_selected_stations in Hin as (net & sta & cha & -> & _).
  - apply on_data_unsubscribed. unfold plotter, init. simpl.
    apply not_elem_of_list_to_map_1. rewrite <- list_fmap_compose.
    intros (st & Hkey & Hin)%list_elem_of_fmap. simpl in Hkey.
    apply elem_of_selected_stations in Hin as (net & sta & cha & -> & Hrow & _).
    rewrite list.Forall_forall in Hrows. destruct (Hrows _ Hrow) as [Hd1 Hd2].
    simpl in Hd1, Hd2. unfold trace_key, key_of in Hkey.
    unfold stream_key in Hkey.
    apply append_dot_inj in Hkey as [_ Hkey]; [| done | done].
    apply append_dot_inj in Hkey as [_ Hkey]; [| done | done].
    apply append_dot_inj in Hkey as [Heq _]; done.
Qed.

(** X17: the paths the monitor passes to the plotter are keyed by the
    second character of the station code, not by the code.  For every
    selection the dictionary has no entry under any key but "I", has one
    under "I" exactly when a station of the monitor's table is selected,
    and therefore none under any station code of the table. *)
Theorem required_paths_keyed_by_second_char (selected : list StationTuple) :
  (∀ k, k ≠ "I" → required_paths selected !! k = None)
  ∧ (is_Some (required_paths selected !! "I")
     ↔ ∃ sta, sta ∈ sta_of <$> selected ∧ sta ∈ STATIONXML_PATHS.*1)
  ∧ (∀ sta, sta ∈ STATIONXML_PATHS.*1 → required_paths selected !! sta = None).
Proof.
  assert (∀ k, k ≠ "I" → required_paths selected !! k = None) as Hother.
  { intros k Hk. unfold required_paths, STATIONXML_PATHS. simpl.
    repeat (case_bool_decide; simpl);
      rewrite ?lookup_insert_ne by done; apply lookup_empty. }
  split_and!.
  - done.
  - unfold required_paths, STATIONXML_PATHS. simpl. split.
    + intros Hsome.
      repeat (case_bool_decide; simpl in * );
        try match goal with
            | H : ?s ∈ sta_of <$> selected |- _ =>
                exists s; split; [exact H |];
                rewrite !elem_of_cons; tauto
            end.
      rewrite lookup_empty in Hsome. by destruct Hsome.
    + intros (sta & Hsel & Htab).
      repeat (apply elem_of_cons in Htab as [-> | Htab]);
        [.. | by apply elem_of_nil in Htab].
      all: repeat (case_bool_decide; simpl); try done.
      all: rewrite ?lookup_insert_eq; by eexists.
  - intros sta Htab. apply Hother.
    repeat (apply elem_of_cons in Htab as [-> | Htab]); try done.
    by apply elem_of_nil in Htab.
Qed.

End HandoverFacts.

(** ** The monitor: refresh and selection *)

Section MonitorFacts.
Import SeedLinkMonitor.
Context (parse_datetime : string → Result Z).

Local Abbreviation add_line := (SeedLinkMonitor.add_line parse_datetime).
Local Abbreviation add_lines := (SeedLinkMonitor.add_lines parse_datetime).
Local Abbreviation load_station_info :=
  (SeedLinkMonitor.load_station_info parse_datetime).

Lemma add_line_listed now line m : listed m → listed (add_line now line m).
Proof.
  intros (Hs & Ht & Hv). unfold SeedLinkMonitor.add_line.
  case_bool_decide as Hlen; [| done].
  set (net := item 0 _). set (sta := item 1 _). set (loc := item 2 _).
  set (chan := item 3 _). set (ty := item 4 _). set (st := Str.join _ _).
  set (en := if bool_decide _ then _ else _). set (status := status_of _ _ _).
  destruct (bool_decide (chan ∈ ["EHZ"; "HNZ"]) && bool_decide (status = "Activo"))
    eqn:Hsel; unfold listed; simpl.
  - rewrite omap_app. simpl. rewrite Hsel, <- Hs. split_and!.
    + done.
    + by rewrite fmap_app, Ht.
    + intros k. rewrite fmap_app. simpl.
      destruct (decide (k = station_key net sta)) as [-> | Hne].
      * rewrite lookup_insert_eq, decide_True; [done |].
        apply elem_of_app. right. by apply list_elem_of_singleton.
      * rewrite lookup_insert_ne, Hv by done.
        destruct (decide (k ∈ key_of_stream <$> stations m)) as [Hin | Hnin].
        -- rewrite decide_True; [done |]. apply elem_of_app. by left.
        -- rewrite decide_False; [done |].
           intros [? | ?%list_elem_of_singleton]%elem_of_app; done.
  - rewrite omap_app. simpl. rewrite Hsel, app_nil_r. by split_and!.
Qed.

Lemma add_lines_listed clock i lines m :
  listed m → listed (add_lines clock i lines m).
Proof.
  revert i m. induction lines as [| line lines IH]; intros i m Hm; [done |].
  simpl. by apply IH, add_line_listed.
Qed.

Lemma add_line_frame now line m :
  server_host (add_line now line m) = server_host m
  ∧ log_console (add_line now line m) = log_console m
  ∧ status_var (add_line now line m) = status_var m.
Proof. unfold SeedLinkMonitor.add_line. by repeat case_match. Qed.

Lemma add_lines_frame clock i lines m :
  server_host (add_lines clock i lines m) = server_host m
  ∧ log_console (add_lines clock i lines m) = log_console m
  ∧ status_var (add_lines clock i lines m) = status_var m.
Proof.
  revert i m. induction lines as [| line lines IH]; intros i m; [done |].
  simpl. destruct (IH (S i) (add_line (clock i) line m)) as (-> & -> & ->).
  apply add_line_frame.
Qed.

Lemma add_line_info now line m :
  length (info_tree (add_line now line m))
  = (length (info_tree m)
     + if bool_decide (8 ≤ length (Str.split line))%nat then 1 else 0)%nat.
Proof.
  unfold SeedLinkMonitor.add_line. case_bool_decide; [| lia].
  case_match; simpl; rewrite length_app; simpl; lia.
Qed.

Lemma add_lines_info clock i lines m :
  length (info_tree (add_lines clock i lines m))
  = (length (info_tree m)
     + length (filter (λ line, (8 ≤ length (Str.split line))%nat) lines))%nat.
Proof.
  revert i m. induction lines as [| line lines IH]; intros i m; simpl; [lia |].
  rewrite IH, add_line_info, filter_cons.
  case_bool_decide; case_decide; simpl; lia.
Qed.

Lemma add_line_catalogue now line m1 m2 :
  catalogue m1 = catalogue m2 →
  catalogue (add_line now line m1) = catalogue (add_line now line m2).
Proof.
  unfold catalogue. intros [= H1 H2 H3 H4]. unfold SeedLinkMonitor.add_line.
  repeat case_match; simpl; congruence.
Qed.

Lemma add_lines_catalogue clock i lines m1 m2 :
  catalogue m1 = catalogue m2 →
  catalogue (add_lines clock i lines m1) = catalogue (add_lines clock i lines m2).
Proof.
  revert i m1 m2. induction lines as [| line lines IH]; intros i m1 m2 H; [done |].
  simpl. by apply IH, add_line_catalogue.
Qed.

Lemma load_station_info_catalogue run clock m0 m :
  catalogue (load_station_info run clock m0)
  = catalogue (load_station_info run clock m).
Proof.
  unfold SeedLinkMonitor.load_station_info. destruct run as [rc out err | e]; [| done].
  case_bool_decide; [done |].
  set (c0 := mk (server_host _) [] ∅ [] [] (log_console (set_status _ (log_message _ m0))) _).
  set (c := mk (server_host _) [] ∅ [] [] (log_console (set_status _ (log_message _ m))) _).
  exact (add_lines_catalogue clock 0 (Str.splitlines out) c0 c eq_refl).
Qed.

(** X18: what a refresh that goes through lists.  The station list is
    what the information tree holds of vertical channels (EHZ, HNZ) with
    the status "Activo", in the order of the output; the station tree shows
    that list row by row, unticked; every listed station has its variable,
    set to False, and there is no other variable; the information tree has
    one row for each line of at least eight fields; and all of this
    replaces what the monitor listed before, whatever it was. *)
Theorem refresh_lists_active_vertical_channels (stdout stderr : string)
    (clock : nat → Z) (m : t) :
  stations (load_station_info (Exited 0 stdout stderr) clock m)
    = omap selectable
        (info_tree (load_station_info (Exited 0 stdout stderr) clock m))
  ∧ station_tree (load_station_info (Exited 0 stdout stderr) clock m)
    = tree_row <$> stations (load_station_info (Exited 0 stdout stderr) clock m)
  ∧ (∀ k, station_vars (load_station_info (Exited 0 stdout stderr) clock m) !! k
          = if decide (k ∈ key_of_stream
                             <$> stations
                                   (load_station_info (Exited 0 stdout stderr) clock m))
            then Some false else None)
  ∧ length (info_tree (load_station_info (Exited 0 stdout stderr) clock m))
    = length (filter (λ line, (8 ≤ length (Str.split line))%nat)
                (Str.splitlines stdout))
  ∧ (∀ m0, catalogue (load_station_info (Exited 0 stdout stderr) clock m0)
           = catalogue (load_station_info (Exited 0 stdout stderr) clock m))
  ∧ server_host (load_station_info (Exited 0 stdout stderr) clock m)
    = server_host m
  ∧ status_var (load_station_info (Exited 0 stdout stderr) clock m)
    = InformacionActualizada.
Proof.
  pose proof (λ m0, load_station_info_catalogue (Exited 0 stdout stderr) clock m0 m)
    as Hcat.
  revert Hcat.
  unfold SeedLinkMonitor.load_station_info. rewrite bool_decide_eq_false_2 by (intros H; by apply H).
  intros Hcat.
  cbn [stations station_tree station_vars info_tree server_host
       status_var log_message set_status log_console].
  set (cleared := mk _ [] ∅ [] [] _ _).
  assert (listed cleared) as Hc.
  { split_and!; [done | done |]. intros k. simpl. by rewrite lookup_empty. }
  destruct (add_lines_listed clock 0 (Str.splitlines stdout) cleared Hc)
    as (Hs & Ht & Hv).
  destruct (add_lines_frame clock 0 (Str.splitlines stdout) cleared) as (Hh & _ & _).
  split_and!; try done.
  - by rewrite add_lines_info.
Qed.

Lemma fmap_alter_same {A B} (f : A → B) (g : A → A) (i : nat) (l : list A) :
  (∀ x, f (g x) = f x) → f <$> alter g i l = f <$> l.
Proof.
  intros Hfg. revert i. induction l as [| x l IH]; intros [| i]; simpl; [done.. | |].
  - by rewrite Hfg.
  - f_equal. apply IH.
Qed.

Lemma selected_stations_cons net sta cha rows (station_vars : gmap string bool) :
  selected_stations ((net, sta, cha) :: rows) station_vars
  = if default false (station_vars !! station_key net sta)
    then (net, sta, "00", cha) :: selected_stations rows station_vars
    else selected_stations rows station_vars.
Proof.
  unfold selected_stations, station_key.
  change (omap ?f ((net, sta, cha) :: rows))
    with (match f (net, sta, cha) with
          | Some y => y :: omap f rows
          | None => omap f rows
          end).
  cbn beta iota. by destruct (default false _).
Qed.

Lemma none_selected rows (station_vars : gmap string bool) :
  (∀ k, default false (station_vars !! k) = false) →
  selected_stations rows station_vars = [].
Proof.
  intros Hv. induction rows as [| [[net sta] cha] rows IH]; [done |].
  by rewrite selected_stations_cons, Hv.
Qed.

Lemma listed_unselected m : listed m → ∀ k, default false (station_vars m !! k) = false.
Proof. intros (_ & _ & Hv) k. rewrite Hv. by case_decide. Qed.

Section Handover.
Context {R Inv : Type} {AR : Arith R} {EV : Env R Inv}.

(** X19: a refresh that fails loses the catalogue.  The trees, the
    station list and the selection are cleared before the command is run:
    when the command exits with a code other than zero, or cannot be
    started, all four are left empty, the status bar stays at "Actualizando
    información..." in the first case, and a hand-over right after finds
    nothing selected. *)
Theorem failed_refresh_empties_catalogue (run : Completed) (clock : nat → Z)
    (m : t) :
  match run with
  | Exited returncode _ _ => returncode ≠ 0
  | SpawnError _ => True
  end →
  catalogue (load_station_info run clock m) = ([], ∅, [], [])
  ∧ server_host (load_station_info run clock m) = server_host m
  ∧ status_var (load_station_info run clock m)
    = match run with
      | Exited _ _ _ => ActualizandoInformacion
      | SpawnError _ => ErrorAlActualizar
      end
  ∧ list.last (log_console (load_station_info run clock m))
    = Some match run with
           | Exited _ _ stderr => LogError stderr
           | SpawnError e => LogErrorAlActualizar e
           end
  ∧ send_to_application (R:=R) (rows (load_station_info run clock m))
      (station_vars (load_station_info run clock m))
      (server_host (load_station_info run clock m))
    = NotStarted [NoHayEstacionesSeleccionadas].
Proof.
  intros Hfail. unfold SeedLinkMonitor.load_station_info.
  destruct run as [rc out err | e].
  - rewrite bool_decide_eq_true_2 by done. simpl.
    split_and!; try done. by rewrite last_snoc.
  - simpl. split_and!; try done. by rewrite last_snoc.
Qed.

(** X20: a refresh unselects every station.  After [load_station_info],
    whatever the command returned and whatever had been ticked before, no
    station variable is True, so the hand-over selects nothing and only
    logs that no station is selected. *)
Theorem refresh_resets_selection (run : Completed) (clock : nat → Z) (m : t) :
  (∀ k, default false (station_vars (load_station_info run clock m) !! k) = false)
  ∧ selected_stations (rows (load_station_info run clock m))
      (station_vars (load_station_info run clock m)) = []
  ∧ send_to_application (R:=R) (rows (load_station_info run clock m))
      (station_vars (load_station_info run clock m))
      (server_host (load_station_info run clock m))
    = NotStarted [NoHayEstacionesSeleccionadas].
Proof.
  assert (∀ k, default false (station_vars (load_station_info run clock m) !! k)
               = false) as Hv.
  { unfold SeedLinkMonitor.load_station_info. destruct run as [rc out err | e]; [| done].
    case_bool_decide; [done |]. simpl.
    apply listed_unselected, add_lines_listed.
    split_and!; [done | done |]. intros k. simpl. by rewrite lookup_empty. }
  pose proof (none_selected (rows (load_station_info run clock m)) _ Hv) as Hsel.
  split_and!; [done | done |].
  unfold send_to_application. by rewrite Hsel.
Qed.

End Handover.

Lemma status_of_short now : status_of parse_datetime now "N/A" = "Desconocido".
Proof. done. Qed.

(** X21: a record of fewer than ten fields can never be selected.  Its
    end time is taken to be "N/A", which is no date, so its status is
    "Desconocido": a line of eight or nine fields (a record printed with a
    blank location code, say) only adds a row to the information tree, a
    shorter line changes nothing, and neither reaches the station list, the
    station tree or the station variables. *)
Theorem short_record_is_never_selectable (now : Z) (line : string) (m : t) :
  (length (Str.split line) < 10)%nat →
  stations (add_line now line m) = stations m
  ∧ station_vars (add_line now line m) = station_vars m
  ∧ station_tree (add_line now line m) = station_tree m
  ∧ ((length (Str.split line) < 8)%nat → add_line now line m = m)
  ∧ ((8 ≤ length (Str.split line))%nat →
     ∃ net sta loc chan type_code start_time,
       info_tree (add_line now line m)
       = info_tree m
         ++ [(net, sta, loc, chan, type_code, start_time, "N/A", "Desconocido")]).
Proof.
  intros Hlen. unfold SeedLinkMonitor.add_line.
  rewrite (bool_decide_eq_false_2 (10 ≤ _)%nat) by lia.
  rewrite status_of_short.
  rewrite (bool_decide_eq_false_2 ("Desconocido" = "Activo")) by done.
  rewrite andb_false_r.
  case_bool_decide as H8; simpl.
  - split_and!; try done; try (intros; lia).
    intros _. by repeat eexists.
  - split_and!; try done; intros; lia.
Qed.

(** X22: a click in the select column of a row toggles the variable of
    the row's network.station and redraws the tick of that row alone; the
    streams the tree lists are not changed; and a second click on the same
    row restores the selection: every variable reads as before and the
    hand-over selects the same streams. *)
Theorem click_toggles_station (m : t) (item : nat)
    (sel net sta chan status : string) :
  station_tree m !! item = Some (sel, net, sta, chan, status) →
  let key := station_key net sta in
  let was := default false (station_vars m !! key) in
  let m1 := on_treeview_click "cell" "#1" item m in
  let m2 := on_treeview_click "cell" "#1" item m1 in
  station_vars m1 = <[key := negb was]> (station_vars m)
  ∧ station_tree m1 !! item
    = Some ((if negb was then "✓" else String.EmptyString), net, sta, chan, status)
  ∧ (∀ j, j ≠ item → station_tree m1 !! j = station_tree m !! j)
  ∧ rows m1 = rows m
  ∧ (∀ k, default false (station_vars m2 !! k)
          = default false (station_vars m !! k))
  ∧ rows m2 = rows m
  ∧ selected_stations (rows m2) (station_vars m2)
    = selected_stations (rows m) (station_vars m).
Proof.
  intros Hrow key was m1 m2.
  assert (∀ (v : bool) (t : list TreeRow),
            row_stream
              <$> alter (λ row : TreeRow,
                           let '(_, n, s, c, st) := row in
                           ((if v then "✓" else String.EmptyString), n, s, c, st))
                        item t
            = row_stream <$> t) as Hrows.
  { intros v t. apply fmap_alter_same. by intros [[[[? ?] ?] ?] ?]. }
  assert (m1 = update_checkbox item (negb was)
                 (mk (server_host m) (stations m)
                    (<[key := negb was]> (station_vars m))
                    (station_tree m) (info_tree m) (log_console m)
                    (status_var m))) as Hm1.
  { unfold m1, on_treeview_click. simpl. by rewrite Hrow. }
  assert (station_tree m1 !! item
          = Some ((if negb was then "✓" else String.EmptyString), net, sta, chan,
                  status)) as Hrow1.
  { rewrite Hm1. unfold update_checkbox. cbn [station_tree].
    rewrite list_lookup_alter_eq.
    exact (f_equal (fmap (M:=option) _) Hrow). }
  assert (station_vars m1 = <[key := negb was]> (station_vars m)) as Hv1
    by (by rewrite Hm1).
  assert (rows m1 = rows m) as Hr1.
  { rewrite Hm1. unfold rows, update_checkbox. simpl. apply Hrows. }
  assert (m2 = update_checkbox item was
                 (mk (server_host m1) (stations m1)
                    (<[key := was]> (station_vars m1))
                    (station_tree m1) (info_tree m1) (log_console m1)
                    (status_var m1))) as Hm2.
  { unfold m2, on_treeview_click. simpl. rewrite Hrow1.
    fold key. rewrite Hv1, lookup_insert_eq. simpl. by rewrite negb_involutive. }
  assert (∀ k, default false (station_vars m2 !! k)
               = default false (station_vars m !! k)) as Hv2.
  { intros k. rewrite Hm2. unfold update_checkbox. simpl. rewrite Hv1.
    destruct (decide (k = key)) as [-> | Hne].
    - by rewrite lookup_insert_eq.
    - by rewrite !lookup_insert_ne. }
  assert (rows m2 = rows m) as Hr2.
  { rewrite <- Hr1, Hm2. unfold rows, update_checkbox. simpl. apply Hrows. }
  split_and!; try done.
  - intros j Hj. rewrite Hm1. unfold update_checkbox. simpl.
    by rewrite list_lookup_alter_ne.
  - rewrite Hr2. generalize (rows m). intros l.
    induction l as [| [[n s] c] l IH]; [done |].
    by rewrite !selected_stations_cons, Hv2, IH.
Qed.

Lemma nothing_selected rows (station_vars : gmap string bool) :
  selected_stations rows station_vars = [] →
  Forall (λ s, default false (station_vars !! key_of_stream s) = false) rows.
Proof.
  induction rows as [| [[n s] c] rows IH]; [constructor |].
  rewrite selected_stations_cons. unfold key_of_stream at 1. simpl.
  destruct (default false (station_vars !! station_key n s)) eqn:E; [done |].
  intros Hrest. constructor; [done | by apply IH].
Qed.

(** X23: one click selects every channel of the station.  The variable
    is keyed by network.station, so when nothing is selected a click on one
    row makes the hand-over select every row of the tree with that key, in
    the order of the tree, the clicked row among them, although only the
    clicked row shows a tick. *)
Theorem click_selects_every_channel_of_station (m : t) (item : nat)
    (sel net sta chan status : string) :
  station_tree m !! item = Some (sel, net, sta, chan, status) →
  selected_stations (rows m) (station_vars m) = [] →
  selected_stations (rows (on_treeview_click "cell" "#1" item m))
    (station_vars (on_treeview_click "cell" "#1" item m))
  = (λ s : string * string * string, (s.1.1, s.1.2, "00", s.2))
      <$> filter (λ s, key_of_stream s = station_key net sta) (rows m)
  ∧ (net, sta, "00", chan)
    ∈ selected_stations (rows (on_treeview_click "cell" "#1" item m))
        (station_vars (on_treeview_click "cell" "#1" item m))
  ∧ ∀ j, j ≠ item →
      station_tree (on_treeview_click "cell" "#1" item m) !! j
      = station_tree m !! j.
Proof.
  intros Hrow Hnone%nothing_selected.
  assert ((net, sta, chan) ∈ rows m) as Hin.
  { unfold rows. apply list_elem_of_fmap. eexists.
    split; [| by eapply list_elem_of_lookup_2]. done. }
  assert (default false (station_vars m !! station_key net sta) = false) as Hwas.
  { rewrite list.Forall_forall in Hnone. exact (Hnone _ Hin). }
  assert (on_treeview_click "cell" "#1" item m
          = update_checkbox item true
              (mk (server_host m) (stations m)
                 (<[station_key net sta := true]> (station_vars m))
                 (station_tree m) (info_tree m) (log_console m)
                 (status_var m))) as ->.
  { unfold on_treeview_click. simpl. by rewrite Hrow, Hwas. }
  assert (rows (update_checkbox item true
              (mk (server_host m) (stations m)
                 (<[station_key net sta := true]> (station_vars m))
                 (station_tree m) (info_tree m) (log_console m)
                 (status_var m))) = rows m) as ->.
  { unfold rows, update_checkbox. simpl. apply fmap_alter_same.
    by intros [[[[? ?] ?] ?] ?]. }
  cbn [station_vars update_checkbox station_tree].
  assert (selected_stations (rows m)
            (<[station_key net sta := true]> (station_vars m))
          = (λ s : string * string * string, (s.1.1, s.1.2, "00", s.2))
              <$> filter (λ s, key_of_stream s = station_key net sta) (rows m))
    as Hsel.
  { revert Hnone. generalize (rows m). intros l Hnone.
    induction l as [| [[n s] c] l IH]; [done |].
    apply Forall_cons_1 in Hnone as [Hhead Hnone].
    unfold key_of_stream in Hhead. simpl in Hhead.
    rewrite selected_stations_cons, filter_cons. unfold key_of_stream at 1. simpl.
    case_decide as Hk.
    - by rewrite Hk, lookup_insert_eq, fmap_cons, IH.
    - by rewrite lookup_insert_ne, Hhead, IH. }
  split_and!.
  - done.
  - rewrite Hsel. apply list_elem_of_fmap. exists (net, sta, chan). split; [done |].
    apply list_elem_of_filter. by split.
  - intros j Hj. by rewrite list_lookup_alter_ne.
Qed.

End MonitorFacts.

(** ** The further properties on the laboratory and on the desk *)

Section FurtherCases.

Local Abbreviation lab := (Lab.env Lab.deployed).

Lemma first_block_witness :
  (streams Lab.plotter !! trace_key Lab.block = Some []
   ∧ npts (detrended (EV:=lab) Lab.block) ≠ 0
   ∧ 0 ≤ window_seconds Lab.plotter
   ∧ inventories Lab.plotter !! station Lab.block = Some 1%Q
   ∧ remove_response (Env:=lab) 1%Q
       (cut (104 - window_seconds Lab.plotter) 104 (detrended (EV:=lab) Lab.block))
     = Ok Lab.velocity)
  ∧ streams (final_state (on_data (EV:=lab) Lab.block 104 104 Lab.plotter))
      !! trace_key Lab.block
    = Some [Lab.block_velocity].
Proof.
  assert (streams Lab.plotter !! trace_key Lab.block = Some []) as H1
    by (vm_compute; reflexivity).
  assert (npts (detrended (EV:=lab) Lab.block) ≠ 0) as H2
    by (vm_compute; discriminate).
  assert (0 ≤ window_seconds Lab.plotter) as H3 by (vm_compute; discriminate).
  assert (inventories Lab.plotter !! station Lab.block = Some 1%Q) as H4
    by (vm_compute; reflexivity).
  assert (remove_response (Env:=lab) 1%Q
            (cut (104 - window_seconds Lab.plotter) 104
               (detrended (EV:=lab) Lab.block))
          = Ok Lab.velocity) as H5 by (vm_compute; reflexivity).
  split; [by split_and! |].
  etrans.
  - exact (first_block_is_stored_corrected (EV:=lab) Lab.plotter Lab.block 104 104
             1%Q Lab.velocity H1 H2 H3 H4 H5).
  - vm_compute. reflexivity.
Defined.

Lemma later_blocks_witness :
  (streams Cases.after_first !! trace_key Cases.block_next
     = Some [Lab.block_velocity]
   ∧ same_object [Lab.block_velocity] (detrended (EV:=lab) Cases.block_next) = false
   ∧ stream_merge ([Lab.block_velocity] ++ [detrended (EV:=lab) Cases.block_next])
     = Ok [Cases.merged_next]
   ∧ 0 ≤ window_seconds Cases.after_first)
  ∧ streams (final_state (on_data (EV:=lab) Cases.block_next 107 107 Cases.after_first))
      !! trace_key Cases.block_next
    = Some [mkTrace "UX" "UIS09" "00" "EHZ" 1 103
              [-1 # 5; 0; 1 # 2; -1; 1 # 2]%Q].
Proof.
  assert (streams Cases.after_first !! trace_key Cases.block_next
          = Some [Lab.block_velocity]) as H1 by (vm_compute; reflexivity).
  assert (same_object [Lab.block_velocity] (detrended (EV:=lab) Cases.block_next)
          = false) as H2 by (vm_compute; reflexivity).
  assert (stream_merge ([Lab.block_velocity] ++ [detrended (EV:=lab) Cases.block_next])
          = Ok [Cases.merged_next]) as H3 by (vm_compute; reflexivity).
  assert (0 ≤ window_seconds Cases.after_first) as H4 by (vm_compute; discriminate).
  split; [by split_and! |].
  etrans.
  - exact (later_blocks_are_stored_uncorrected (EV:=lab) Cases.after_first
             Cases.block_next 107 107 [Lab.block_velocity] [Cases.merged_next]
             H1 H2 H3 H4).
  - vm_compute. reflexivity.
Defined.

Lemma zero_window_witness :
  (window_seconds Cases.w0_after_first = 0
   ∧ streams Cases.w0_after_first !! trace_key Cases.block_next
     = Some [Cases.last_of_block]
   ∧ same_object [Cases.last_of_block] (detrended (EV:=lab) Cases.block_next) = false
   ∧ stream_merge ([Cases.last_of_block] ++ [detrended (EV:=lab) Cases.block_next])
     = Ok [Cases.w0_merged]
   ∧ inventories Cases.w0_after_first !! station Cases.block_next = Some 1%Q
   ∧ remove_response (Env:=lab) 1%Q (detrended (EV:=lab) Cases.block_next)
     = Ok [0; -1; 0]%Q)
  ∧ printed_of
      (events_of (on_data (EV:=lab) Cases.block_next 106 106 Cases.w0_after_first))
    = [ErrorProcesandoDatos "UIS09" ValueError]
  ∧ values_of Cases.w0_after_first "UIS09" = mkMetrics 0%Q 0%Q 0%Q None
  ∧ values_of
      (final_state (on_data (EV:=lab) Cases.block_next 106 106 Cases.w0_after_first))
      "UIS09"
    = mkMetrics 1000000%Q 0%Q 0%Q None.
Proof.
  assert (window_seconds Cases.w0_after_first = 0) as H1 by (vm_compute; reflexivity).
  assert (streams Cases.w0_after_first !! trace_key Cases.block_next
          = Some [Cases.last_of_block]) as H2 by (vm_compute; reflexivity).
  assert (same_object [Cases.last_of_block] (detrended (EV:=lab) Cases.block_next)
          = false) as H3 by (vm_compute; reflexivity).
  assert (stream_merge ([Cases.last_of_block] ++ [detrended (EV:=lab) Cases.block_next])
          = Ok [Cases.w0_merged]) as H4 by (vm_compute; reflexivity).
  assert (inventories Cases.w0_after_first !! station Cases.block_next = Some 1%Q)
    as H5 by (vm_compute; reflexivity).
  assert (remove_response (Env:=lab) 1%Q (detrended (EV:=lab) Cases.block_next)
          = Ok [0; -1; 0]%Q) as H6 by (vm_compute; reflexivity).
  split; [by split_and! |].
  destruct (zero_window_updates_metrics_in_part (EV:=lab) Cases.w0_after_first
              Cases.block_next 106 106 [Cases.last_of_block] [Cases.w0_merged]
              1%Q [0; -1; 0]%Q H1 H2 H3 H4 H5 H6)
    as (v & Hv & Hp & _ & Hval).
  split; [exact Hp |]. split; [vm_compute; reflexivity |].
  etrans; [exact Hval |].
  vm_compute in Hv. injection Hv as <-.
  vm_compute. reflexivity.
Defined.

Lemma render_ticks_witness :
  (Plotter_wf Cases.after_first ∧ 110 ≤ 140)
  ∧ liveness_of (run_ops (EV:=lab) [UpdatePlot 110; UpdatePlot 140] Cases.after_first)
      "UIS09"
    = liveness_of (run_ops (EV:=lab) [UpdatePlot 140] Cases.after_first) "UIS09"
  ∧ streams (run_ops (EV:=lab) [UpdatePlot 110; UpdatePlot 140] Cases.after_first)
    = streams (run_ops (EV:=lab) [UpdatePlot 140] Cases.after_first).
Proof.
  assert (Plotter_wf Cases.after_first) as H1
    by apply (on_data_wf (EV:=lab)), (init_wf (EV:=lab)).
  assert (110 ≤ 140) as H2 by lia.
  split; [by split |].
  destruct (render_ticks_compose (EV:=lab) Cases.after_first 110 140 H1 H2)
    as (Hl & Hs & _).
  split; [exact (Hl "UIS09") | exact Hs].
Defined.

Lemma panel_witness :
  (streams Cases.after_first !! key_of ("UX", "UIS09", "00", "EHZ")
     = Some [Lab.block_velocity]
   ∧ last_data_times Cases.after_first !! sta_of ("UX", "UIS09", "00", "EHZ")
     = Some (Some 104)
   ∧ connection_status Cases.after_first !! sta_of ("UX", "UIS09", "00", "EHZ")
     = Some true)
  ∧ ∃ panel,
      result_of (update_station 110 ("UX", "UIS09", "00", "EHZ")
                   Cases.after_first)
      = Ok panel
      ∧ indicator_green panel = true
      ∧ waveform panel = Some Lab.velocity
      ∧ panel_text panel
        = TextDatos "UIS09" "EHZ" 800000%Q 500000%Q 400000%Q 5.
Proof.
  assert (streams Cases.after_first !! key_of ("UX", "UIS09", "00", "EHZ")
          = Some [Lab.block_velocity]) as H1 by (vm_compute; reflexivity).
  assert (last_data_times Cases.after_first !! sta_of ("UX", "UIS09", "00", "EHZ")
          = Some (Some 104)) as H2 by (vm_compute; reflexivity).
  assert (connection_status Cases.after_first !! sta_of ("UX", "UIS09", "00", "EHZ")
          = Some true) as H3 by (vm_compute; reflexivity).
  split; [by split_and! |].
  destruct (panel_of_station 110 ("UX", "UIS09", "00", "EHZ")
              Cases.after_first [Lab.block_velocity] (Some 104) true H1 H2 H3)
    as (panel & Hr & Hg & Hw & Ht).
  assert (indicator_green panel = true) as Hgreen
    by (etrans; [exact Hg | vm_compute; reflexivity]).
  exists panel. split_and!; [exact Hr | exact Hgreen | |].
  - rewrite Hw, Hgreen. reflexivity.
  - etrans; [exact Ht |]. vm_compute. reflexivity.
Defined.

Lemma waveform_drawable_witness :
  ("UX", "UIS09", "00", "EHZ") ∈ Lab.selection
  ∧ ∃ buffer axes,
      streams (run_ops (EV:=lab) [OnData Lab.block 104 104; UpdatePlot 105]
                 (init (EV:=lab) Lab.selection ∅ Lab.host 4 500 30).1)
        !! key_of ("UX", "UIS09", "00", "EHZ") = Some buffer
      ∧ draw_waveform 4 true buffer = Ok axes
      ∧ length (line_x axes) = length (line_y axes).
Proof.
  assert (("UX", "UIS09", "00", "EHZ") ∈ Lab.selection) as H1 by constructor.
  split; [exact H1 |].
  exact (waveform_is_always_drawable (EV:=lab) Lab.selection ∅ Lab.host 4 500 30
           [OnData Lab.block 104 104; UpdatePlot 105]
           ("UX", "UIS09", "00", "EHZ") true H1).
Defined.

Lemma dynamic_scale_witness :
  draw_waveform 4 true [Lab.long] = Ok Cases.axes_long
  ∧ (1 <= (ylim Cases.axes_long).2)%Q
  ∧ ((ylim Cases.axes_long).1 == - (ylim Cases.axes_long).2)%Q
  ∧ Forall (λ v, ((ylim Cases.axes_long).1 <= v ∧ v <= (ylim Cases.axes_long).2)%Q)
      (line_y Cases.axes_long).
Proof.
  assert (draw_waveform 4 true [Lab.long] = Ok Cases.axes_long) as H1
    by (vm_compute; reflexivity).
  split; [exact H1 |].
  exact (dynamic_scale_contains_samples 4 true [Lab.long] Cases.axes_long H1).
Defined.

Lemma time_axis_witness :
  (draw_waveform 4 true [Lab.long] = Ok Cases.axes_long
   ∧ (2 ≤ length (data Lab.long))%nat)
  ∧ ((xlim Cases.axes_long).2 == 4)%Q
  ∧ ∃ t, line_x Cases.axes_long !! 1%nat = Some t ∧ (t == 4 # 3)%Q.
Proof.
  assert (draw_waveform 4 true [Lab.long] = Ok Cases.axes_long) as H1
    by (vm_compute; reflexivity).
  assert (2 ≤ length (data Lab.long))%nat as H2 by (simpl; lia).
  split; [by split |].
  destruct (time_axis_is_stretched 4 Lab.long [] Cases.axes_long H1 H2) as [Hx Hk].
  split.
  - etrans; [exact Hx |]. vm_compute. reflexivity.
  - destruct (Hk 1%nat ltac:(simpl; lia)) as (t & Ht & Heq).
    exists t. split; [exact Ht |].
    etrans; [exact Heq |]. vm_compute. reflexivity.
Defined.

Lemma station_outside_table_witness :
  inventory_table !! "S01" = None
  ∧ inventories
      (run_ops (EV:=lab) [OnData Lab.block_ux 104 104]
         (init (EV:=lab) Lab.twins ∅ Lab.host 4 500 30).1) !! "S01" = None
  ∧ values_of
      (run_ops (EV:=lab) [OnData Lab.block_ux 104 104]
         (init (EV:=lab) Lab.twins ∅ Lab.host 4 500 30).1) "S01"
    = default_values.
Proof.
  assert (inventory_table !! "S01" = None) as H1 by (vm_compute; reflexivity).
  split; [exact H1 |].
  destruct (station_outside_table_never_measured (EV:=lab) "S01" Lab.twins ∅
              Lab.host 4 500 30 [OnData Lab.block_ux 104 104] H1)
    as (Hi & Hv & _).
  by split.
Defined.

Lemma merge_time_order_witness :
  (npts Lab.late ≠ 0 ∧ npts Lab.early ≠ 0
   ∧ sampling_rate Lab.early = sampling_rate Lab.late
   ∧ starttime Lab.early < starttime Lab.late)
  ∧ ∃ merged,
      stream_merge [Lab.late; Lab.early] = Ok [merged]
      ∧ starttime merged = 0
      ∧ sample_at merged 1 = Some 2%Q
      ∧ sample_at merged 5 = Some 6%Q.
Proof.
  assert (npts Lab.late ≠ 0) as H1 by (vm_compute; discriminate).
  assert (npts Lab.early ≠ 0) as H2 by (vm_compute; discriminate).
  assert (sampling_rate Lab.early = sampling_rate Lab.late) as H3 by reflexivity.
  assert (starttime Lab.early < starttime Lab.late) as H4 by (vm_compute; reflexivity).
  split; [by split_and! |].
  destruct (merge_follows_time_order Lab.late Lab.early H1 H2 H3 H4)
    as (merged & Hm & Hs & Hi & _).
  assert (endtime Lab.early < endtime Lab.late) as H5 by (vm_compute; reflexivity).
  exists merged. split_and!; [exact Hm | exact Hs | |].
  - etrans; [exact (Hi H5 1) |]. vm_compute. reflexivity.
  - etrans; [exact (Hi H5 5) |]. vm_compute. reflexivity.
Defined.

Lemma stream_key_witness :
  (dotless "UX" = true ∧ dotless "UIS09" = true ∧ dotless "00" = true
   ∧ stream_key "UX" "UIS09" "00" "EHZ" = stream_key "UX" "UIS09" "00" "EHZ")
  ∧ "UX" = "UX" ∧ "UIS09" = "UIS09" ∧ "00" = "00" ∧ "EHZ" = "EHZ".
Proof.
  assert (dotless "UX" = true) as H1 by reflexivity.
  assert (dotless "UIS09" = true) as H2 by reflexivity.
  assert (dotless "00" = true) as H3 by reflexivity.
  assert (stream_key "UX" "UIS09" "00" "EHZ" = stream_key "UX" "UIS09" "00" "EHZ")
    as H4 by reflexivity.
  split; [by split_and! |].
  exact (stream_key_injective "UX" "UIS09" "00" "EHZ" "UX" "UIS09" "00" "EHZ"
           H1 H2 H3 H1 H2 H3 H4).
Defined.

Lemma monitor_location_witness :
  (Forall (λ row : string * string * string,
             dotless row.1.1 = true ∧ dotless row.1.2 = true)
     [("UX", "UIS09", "EHZ")]
   ∧ dotless (network Cases.block_loc10) = true
   ∧ dotless (station Cases.block_loc10) = true
   ∧ dotless (location Cases.block_loc10) = true
   ∧ location Cases.block_loc10 ≠ "00")
  ∧ selected_stations [("UX", "UIS09", "EHZ")] {["UX.UIS09" := true]}
    = [("UX", "UIS09", "00", "EHZ")]
  ∧ final_state
      (on_data (EV:=lab) Cases.block_loc10 104 104
         (init (EV:=lab) [("UX", "UIS09", "00", "EHZ")]
            (required_paths [("UX", "UIS09", "00", "EHZ")]) Lab.host 150 500 30).1)
    = (init (EV:=lab) [("UX", "UIS09", "00", "EHZ")]
         (required_paths [("UX", "UIS09", "00", "EHZ")]) Lab.host 150 500 30).1.
Proof.
  assert (Forall (λ row : string * string * string,
                    dotless row.1.1 = true ∧ dotless row.1.2 = true)
            [("UX", "UIS09", "EHZ")]) as H1 by (by repeat constructor).
  assert (dotless (network Cases.block_loc10) = true) as H2 by reflexivity.
  assert (dotless (station Cases.block_loc10) = true) as H3 by reflexivity.
  assert (dotless (location Cases.block_loc10) = true) as H4 by reflexivity.
  assert (location Cases.block_loc10 ≠ "00") as H5 by (vm_compute; discriminate).
  assert (selected_stations [("UX", "UIS09", "EHZ")] {["UX.UIS09" := true]}
          = [("UX", "UIS09", "00", "EHZ")]) as Hsel by (vm_compute; reflexivity).
  split; [by split_and! |].
  split; [exact Hsel |].
  pose proof (monitor_subscribes_location_00 (EV:=lab) [("UX", "UIS09", "EHZ")]
                {["UX.UIS09" := true]} Lab.host Cases.block_loc10 104 104
                H1 H2 H3 H4 H5) as Hm.
  cbv zeta in Hm. destruct Hm as [_ Hm]. rewrite Hsel in Hm.
  unfold final_state. by rewrite Hm.
Defined.

Lemma failed_refresh_witness :
  match Desk.refused with
  | SeedLinkMonitor.Exited returncode _ _ => returncode ≠ 0
  | SeedLinkMonitor.SpawnError _ => True
  end
  ∧ SeedLinkMonitor.rows Desk.monitor = [("UX", "UIS03", "EHZ"); ("UX", "UIS03", "HNZ")]
  ∧ SeedLinkMonitor.catalogue
      (SeedLinkMonitor.load_station_info Desk.parse_datetime Desk.refused
         (λ _, Desk.now) Desk.monitor)
    = ([], ∅, [], [])
  ∧ SeedLinkMonitor.status_var
      (SeedLinkMonitor.load_station_info Desk.parse_datetime Desk.refused
         (λ _, Desk.now) Desk.monitor)
    = SeedLinkMonitor.ActualizandoInformacion.
Proof.
  assert (match Desk.refused with
          | SeedLinkMonitor.Exited returncode _ _ => returncode ≠ 0
          | SeedLinkMonitor.SpawnError _ => True
          end) as H1 by (simpl; lia).
  split; [exact H1 |].
  split; [vm_compute; reflexivity |].
  destruct (failed_refresh_empties_catalogue Desk.parse_datetime (EV:=lab)
              Desk.refused (λ _, Desk.now) Desk.monitor H1)
    as (Hc & _ & Hs & _).
  split; [exact Hc | exact Hs].
Defined.

Lemma short_record_witness :
  (length (Str.split Desk.short_line) < 10)%nat
  ∧ SeedLinkMonitor.stations
      (SeedLinkMonitor.add_line Desk.parse_datetime Desk.now Desk.short_line
         Desk.monitor)
    = SeedLinkMonitor.stations Desk.monitor
  ∧ SeedLinkMonitor.station_tree
      (SeedLinkMonitor.add_line Desk.parse_datetime Desk.now Desk.short_line
         Desk.monitor)
    = SeedLinkMonitor.station_tree Desk.monitor
  ∧ SeedLinkMonitor.station_vars
      (SeedLinkMonitor.add_line Desk.parse_datetime Desk.now Desk.short_line
         Desk.monitor)
    = SeedLinkMonitor.station_vars Desk.monitor.
Proof.
  assert (length (Str.split Desk.short_line) < 10)%nat as H1 by (vm_compute; lia).
  split; [exact H1 |].
  destruct (short_record_is_never_selectable Desk.parse_datetime Desk.now
              Desk.short_line Desk.monitor H1) as (Hs & Hv & Ht & _).
  by split_and!.
Defined.

Lemma click_toggles_witness :
  SeedLinkMonitor.station_tree Desk.monitor !! 0%nat
    = Some (String.EmptyString, "UX", "UIS03", "EHZ", "No conectado")
  ∧ SeedLinkMonitor.station_vars
      (SeedLinkMonitor.on_treeview_click "cell" "#1" 0 Desk.monitor)
    = <[SeedLinkMonitor.station_key "UX" "UIS03" := true]>
        (SeedLinkMonitor.station_vars Desk.monitor)
  ∧ selected_stations
      (SeedLinkMonitor.rows
         (SeedLinkMonitor.on_treeview_click "cell" "#1" 0
            (SeedLinkMonitor.on_treeview_click "cell" "#1" 0 Desk.monitor)))
      (SeedLinkMonitor.station_vars
         (SeedLinkMonitor.on_treeview_click "cell" "#1" 0
            (SeedLinkMonitor.on_treeview_click "cell" "#1" 0 Desk.monitor)))
    = selected_stations (SeedLinkMonitor.rows Desk.monitor)
        (SeedLinkMonitor.station_vars Desk.monitor).
Proof.
  assert (SeedLinkMonitor.station_tree Desk.monitor !! 0%nat
          = Some (String.EmptyString, "UX", "UIS03", "EHZ", "No conectado")) as H1
    by (vm_compute; reflexivity).
  split; [exact H1 |].
  pose proof (click_toggles_station Desk.monitor 0 String.EmptyString
                "UX" "UIS03" "EHZ" "No conectado" H1) as Hc.
  cbv zeta in Hc. destruct Hc as (Hv & _ & _ & _ & _ & _ & Hsel).
  split; [| exact Hsel].
  etrans; [exact Hv |]. f_equal.
Defined.

Lemma click_selects_witness :
  (SeedLinkMonitor.station_tree Desk.monitor !! 0%nat
     = Some (String.EmptyString, "UX", "UIS03", "EHZ", "No conectado")
   ∧ selected_stations (SeedLinkMonitor.rows Desk.monitor)
       (SeedLinkMonitor.station_vars Desk.monitor) = [])
  ∧ selected_stations
      (SeedLinkMonitor.rows
         (SeedLinkMonitor.on_treeview_click "cell" "#1" 0 Desk.monitor))
      (SeedLinkMonitor.station_vars
         (SeedLinkMonitor.on_treeview_click "cell" "#1" 0 Desk.monitor))
    = [("UX", "UIS03", "00", "EHZ"); ("UX", "UIS03", "00", "HNZ")].
Proof.
  assert (SeedLinkMonitor.station_tree Desk.monitor !! 0%nat
          = Some (String.EmptyString, "UX", "UIS03", "EHZ", "No conectado")) as H1
    by (vm_compute; reflexivity).
  assert (selected_stations (SeedLinkMonitor.rows Desk.monitor)
            (SeedLinkMonitor.station_vars Desk.monitor) = []) as H2
    by (vm_compute; reflexivity).
  split; [by split |].
  destruct (click_selects_every_channel_of_station Desk.monitor 0
              String.EmptyString "UX" "UIS03" "EHZ" "No conectado" H1 H2)
    as (Hsel & _).
  etrans; [exact Hsel |]. vm_compute. reflexivity.
Defined.

End FurtherCases.
